(** * Split view manager of the Floorp browser chrome

    A shallow embedding of [browser/base/content/browser-splitView.mjs]
    (class [SplitView]) together with the part of the host it talks to:
    tab objects, their browsers and containers, the tab panel, the
    preference flag and the selected tab.

    JavaScript objects that the class shares and mutates in place (the group
    objects pushed onto [this._data], whose [tabs] arrays are spliced while
    other code still holds them) live in an explicit object heap; [this._data]
    is a list of references into it. *)

From Stdlib Require Import ZArith String DecimalString.
From stdpp Require Import base option list gmap strings.

Local Open Scope string_scope.
Local Open Scope Z_scope.
Local Open Scope list_scope.

(** ** Inline style of an element

    The class reads and writes the [style] attribute both as text
    ([getAttribute]/[setAttribute]/[removeAttribute]) and through the CSSOM
    ([container.style.flex = ...]).  The attribute text is kept as the
    sequence of [;]-terminated items it is made of, so that text appended to
    it stays visible; the declaration block the browser derives from the text
    keeps the last declaration of every property and drops what does not
    parse.  Values are kept as they are written.  The one shorthand the
    class assigns is [flex]: its value is not expanded into the values of
    [flex-grow], [flex-shrink] and [flex-basis], but a declaration of [flex]
    overwrites the three and so ends whatever was declared for them, and a
    declaration of one of the three changes what [flex] stands for and so
    ends the value written for [flex].  A block holds the declarations that
    still stand. *)
Module Css.

Inductive item : Type :=
| Decl (prop value : string)
| Junk (text : string).

#[global] Instance item_eq_dec : EqDecision item.
Proof. solve_decision. Defined.

(** A declaration block: one value per property. *)
Abbreviation declarations := (list (string * string)).

(** The longhands of [flex], and the declarations a declaration of [p]
    ends besides the one of [p] itself: those of the longhands when [p] is
    [flex], that of [flex] when [p] is one of its longhands. *)
Definition flex_longhands : list string :=
  ["flex-grow"; "flex-shrink"; "flex-basis"].

Definition ends (p q : string) : bool :=
  bool_decide (p = "flex" ∧ q ∈ flex_longhands)
  || bool_decide (q = "flex" ∧ p ∈ flex_longhands).

(** The block without the declaration of [p] and without those it ends (to
    remove [flex] is to remove its longhands). *)
Definition remove (p : string) (b : declarations) : declarations :=
  filter (λ d, d.1 ≠ p ∧ ends p d.1 = false) b.

Fixpoint get (p : string) (b : declarations) : option string :=
  match b with
  | [] => None
  | (q, v) :: b' => if decide (q = p) then Some v else get p b'
  end.

Fixpoint replace (p v : string) (b : declarations) : declarations :=
  match b with
  | [] => [(p, v)]
  | (q, w) :: b' => if decide (q = p) then (p, v) :: b' else (q, w) :: replace p v b'
  end.

(** The block after [p] has been given the value [v]: the declarations it
    ends are gone, and [p] has the new value where it stood, or at the end. *)
Definition assign (p v : string) (b : declarations) : declarations :=
  replace p v (filter (λ d, ends p d.1 = false) b).

(** Parsing: a later declaration of a property replaces the earlier one. *)
Definition parse_item (b : declarations) (i : item) : declarations :=
  match i with
  | Decl p v => (remove p b ++ [(p, v)])%list
  | Junk _ => b
  end.

Definition parse (text : list item) : declarations :=
  foldl parse_item [] text.

Definition serialize (b : declarations) : list item :=
  map (λ d, Decl d.1 d.2) b.

(** The style attribute: [None] when the element has no such attribute. *)
Abbreviation attribute := (option (list item)).

Definition block (a : attribute) : declarations := parse (default [] a).

(** The value that stands for property [p] in the element's block, as it
    was written, if any. *)
Definition declared (a : attribute) (p : string) : option string :=
  get p (block a).

(** [element.style.p = v]: the empty string removes the property.  As the
    CSSOM has it, an assignment that leaves the block as it is does not touch
    the attribute; one that changes the block rewrites the attribute from
    the block. *)
Definition setProperty (p v : string) (a : attribute) : attribute :=
  let b := block a in
  let b' := if decide (v = "") then remove p b else assign p v b in
  if decide (b' = b) then a else Some (serialize b').

(** No two declarations of a block are of one property, and none is one
    that another has ended. *)
Fixpoint standing (b : declarations) : Prop :=
  match b with
  | [] => True
  | d :: b' => Forall (λ e, e.1 ≠ d.1 ∧ ends d.1 e.1 = false) b' ∧ standing b'
  end.

End Css.

(** ** Host objects *)

(** A tab is an object of the host; the model names it by a handle.  Every
    tab has a browser and a container of its own.  In the scenarios below the
    tabs A, B, C, ... are the handles 0, 1, 2, ... *)
Definition Tab : Type := nat.

(** The element [tab.linkedBrowser.closest(".browserSidebarContainer")].
    Attributes that the class only ever sets to ["true"] or removes are kept
    as presence flags. *)
Record Container : Type := mkContainer {
  attr_split : bool;
  attr_split_active : bool;
  attr_split_anim : bool;
  class_deck_selected : bool;
  click_handleTabClick : bool;
  attr_style : Css.attribute
}.

Record Browser : Type := mkBrowser {
  spliting : bool;
  docShellIsActive : bool;
  container : Container
}.

Record TabObject : Type := mkTabObject {
  splitView : bool;
  linkedBrowser : Browser
}.

(** The element with id [tabbrowser-tabpanels]. *)
Record Panel : Type := mkPanel {
  attr_split_view : bool;
  style_display : string;
  style_flexDirection : string;
  style_flexTemplateAreas : string
}.

(** An entry of [this._data]. *)
Record Group : Type := mkGroup {
  tabs : list Tab;
  flexType : string
}.

#[global] Instance Container_eq_dec : EqDecision Container.
Proof. solve_decision. Defined.
#[global] Instance Browser_eq_dec : EqDecision Browser.
Proof. solve_decision. Defined.
#[global] Instance TabObject_eq_dec : EqDecision TabObject.
Proof. solve_decision. Defined.
#[global] Instance Panel_eq_dec : EqDecision Panel.
Proof. solve_decision. Defined.
#[global] Instance Group_eq_dec : EqDecision Group.
Proof. solve_decision. Defined.

(** A tab the manager has never touched. *)
Definition fresh_container : Container :=
  mkContainer false false false false false None.
Definition fresh_tab : TabObject :=
  mkTabObject false (mkBrowser false false fresh_container).

#[global] Instance TabObject_inhabited : Inhabited TabObject := populate fresh_tab.
#[global] Instance Group_inhabited : Inhabited Group := populate (mkGroup [] "").

(** ** State of the manager and of its collaborators

    A tab that is not in [tabObjects] is a tab nobody has touched; [None]
    for a tab stands for JavaScript's [undefined]. *)
Record State : Type := mkState {
  _data : list nat;                 (* this._data: references to group objects *)
  currentView : Z;                  (* this.currentView, -1 when none *)
  heap : list Group;                (* the group objects, by reference *)
  tabObjects : gmap Tab TabObject;  (* the host's tab objects *)
  tabBrowserPanel : Panel;
  pref_working : bool;              (* floorp.browser.splitView.working *)
  selectedTab : option Tab          (* window.gBrowser.selectedTab *)
}.

(** How a method call ends: normally, or with a [TypeError] thrown at the
    state reached so far. *)
Inductive Completion : Type :=
| Normal (st : State)
| Throw (st : State).

Definition state_of (c : Completion) : State :=
  match c with Normal st | Throw st => st end.

(** Sequencing of two calls: a throw in the first skips the second. *)
Definition bind (c : Completion) (k : State → Completion) : Completion :=
  match c with
  | Normal st => k st
  | Throw st => Throw st
  end.

Infix ">>=" := bind (at level 60, right associativity, only parsing).

(** ** Field updates *)

Definition set_data (d : list nat) (st : State) : State :=
  mkState d (currentView st) (heap st) (tabObjects st) (tabBrowserPanel st)
          (pref_working st) (selectedTab st).
Definition set_currentView (v : Z) (st : State) : State :=
  mkState (_data st) v (heap st) (tabObjects st) (tabBrowserPanel st)
          (pref_working st) (selectedTab st).
Definition set_heap (h : list Group) (st : State) : State :=
  mkState (_data st) (currentView st) h (tabObjects st) (tabBrowserPanel st)
          (pref_working st) (selectedTab st).
Definition set_tabObjects (m : gmap Tab TabObject) (st : State) : State :=
  mkState (_data st) (currentView st) (heap st) m (tabBrowserPanel st)
          (pref_working st) (selectedTab st).
Definition set_tabBrowserPanel (p : Panel) (st : State) : State :=
  mkState (_data st) (currentView st) (heap st) (tabObjects st) p
          (pref_working st) (selectedTab st).
Definition set_pref_working (b : bool) (st : State) : State :=
  mkState (_data st) (currentView st) (heap st) (tabObjects st)
          (tabBrowserPanel st) b (selectedTab st).
Definition set_selectedTab (t : option Tab) (st : State) : State :=
  mkState (_data st) (currentView st) (heap st) (tabObjects st)
          (tabBrowserPanel st) (pref_working st) t.

Definition with_container (f : Container → Container) (o : TabObject) : TabObject :=
  mkTabObject (splitView o)
    (mkBrowser (spliting (linkedBrowser o)) (docShellIsActive (linkedBrowser o))
               (f (container (linkedBrowser o)))).
Definition with_style (f : Css.attribute → Css.attribute) (c : Container) : Container :=
  mkContainer (attr_split c) (attr_split_active c) (attr_split_anim c)
              (class_deck_selected c) (click_handleTabClick c) (f (attr_style c)).

(** The object behind a tab handle, and an in-place update of it. *)
Definition tabObject (st : State) (t : Tab) : TabObject := tabObjects st !!! t.
Definition update_tab (t : Tab) (f : TabObject → TabObject) (st : State) : State :=
  set_tabObjects (<[t := f (tabObject st t)]> (tabObjects st)) st.

(** The group object behind a reference, [this._data[i]] for a JavaScript
    number [i] (undefined outside the array), and the group search
    [group => group.tabs.includes(tab)] that [find] and [findIndex] share. *)
Definition deref (st : State) (r : nat) : Group := heap st !!! r.
Definition data_at (st : State) (i : Z) : option nat :=
  if decide (0 ≤ i) then _data st !! Z.to_nat i else None.
Definition includes (l : list Tab) (t : Tab) : bool := bool_decide (t ∈ l).
Definition find_group (st : State) (tab : option Tab) : option (nat * nat) :=
  match tab with
  | Some t => list_find (λ r, t ∈ tabs (deref st r)) (_data st)
  | None => None
  end.

(** [Array.prototype.indexOf] and [splice(start, 1)]. *)
Definition indexOf `{EqDecision A} (x : A) (l : list A) : Z :=
  match list_find (λ y, y = x) l with
  | Some (i, _) => Z.of_nat i
  | None => -1
  end.
Definition splice1 {A} (start : Z) (l : list A) : list A :=
  let len := Z.of_nat (length l) in
  let k := if decide (start < 0) then Z.max (len + start) 0 else Z.min start len in
  delete (Z.to_nat k) l.

(** ** The methods of [SplitView] *)

(** [resetTabState(tab, forUnsplit)], as what it does to the tab's object. *)
Definition resetTabState_object (forUnsplit : bool) (o : TabObject) : TabObject :=
  let b := linkedBrowser o in
  let c := container b in
  let c1 := mkContainer false (attr_split_active c) (attr_split_anim c)
              (class_deck_selected c) (click_handleTabClick c) None in
  if negb forUnsplit then
    mkTabObject false
      (mkBrowser false false (with_style (Css.setProperty "display" "none") c1))
  else
    mkTabObject false
      (mkBrowser false (docShellIsActive b)
         (with_style (Css.setProperty "order" "")
            (with_style (Css.setProperty "flex" "") c1))).

Definition resetTabState (tab : Tab) (forUnsplit : bool) (st : State) : State :=
  update_tab tab (resetTabState_object forUnsplit) st.

(** [resetSplitView()].  Reading [this._data[this.currentView].tabs] throws
    when [currentView] is no index. *)
Definition resetSplitView (st : State) : Completion :=
  match data_at st (currentView st) with
  | None => Throw st
  | Some r =>
      let st1 := foldl (λ s tab, resetTabState tab true s) st (tabs (deref st r)) in
      let st2 := set_currentView (-1) st1 in
      let p := tabBrowserPanel st2 in
      let st3 := set_tabBrowserPanel
                   (mkPanel false "" "" (style_flexTemplateAreas p)) st2 in
      Normal (set_pref_working false st3)
  end.

(** [removeGroup(groupIndex)]. *)
Definition removeGroup (groupIndex : nat) (st : State) : Completion :=
  (if decide (currentView st = Z.of_nat groupIndex)
   then resetSplitView st else Normal st)
  >>= λ st1, Normal (set_data (delete groupIndex (_data st1)) st1).

(** [resetContainerStyle(container)]. *)
Definition resetContainerStyle (c : Container) : Container :=
  with_style (Css.setProperty "order" "")
    (with_style (Css.setProperty "flex" "")
       (mkContainer (attr_split c) false (attr_split_anim c) false
                    (click_handleTabClick c) (attr_style c))).

(** The text [setTabsDocShellState] writes back: the current attribute (the
    text [null] when there is none, which spoils the declaration that follows
    it) and two more declarations. *)
Definition style_template (currentStyle : Css.attribute) : list Css.item :=
  match currentStyle with
  | Some text =>
      (text ++ [Css.Decl "-moz-subtree-hidden-only-visually" "0";
                Css.Decl "visibility" "visible !important"])%list
  | None =>
      [Css.Junk "null -moz-subtree-hidden-only-visually: 0";
       Css.Decl "visibility" "visible !important"]
  end.

(** [setTabsDocShellState(tabs, active)]: the loop body on one tab's object,
    and the loop. *)
Definition setTabsDocShellState_object (active : bool) (o : TabObject) : TabObject :=
  let c := container (linkedBrowser o) in
  mkTabObject (splitView o)
    (mkBrowser active active
       (if active then
          mkContainer true (attr_split_active c) (attr_split_anim c)
            (class_deck_selected c) (click_handleTabClick c)
            (Some (style_template (attr_style c)))
        else
          mkContainer false (attr_split_active c) (attr_split_anim c)
            (class_deck_selected c) (click_handleTabClick c) None)).

Definition setTabsDocShellState (ts : list Tab) (active : bool) (st : State) : State :=
  foldl (λ s tab, update_tab tab (setTabsDocShellState_object active) s) st ts.

(** [styleContainer(container, isActive, index, flexType)]. *)
Definition styleContainer (isActive : bool) (index : nat) (flexType : string)
    (c : Container) : Container :=
  let c1 := mkContainer (attr_split c) isActive true (class_deck_selected c)
              true (attr_style c) in
  if decide (flexType = "flex") then
    with_style (Css.setProperty "order" (NilZero.string_of_uint (Nat.to_uint index)))
      (with_style (Css.setProperty "flex" "1") c1)
  else c1.

(** [applyFlexBoxLayout(tabs, flexType, activeTab)]: the body of its
    [forEach] on one tab's object, the [forEach] from a given index on, and
    the method. *)
Definition applyFlexBoxLayout_tab (flexType : string) (activeTab : Tab)
    (index : nat) (tab : Tab) (o : TabObject) : TabObject :=
  with_container (styleContainer (bool_decide (tab = activeTab)) index flexType)
    (mkTabObject true (linkedBrowser o)).

Fixpoint applyFlexBoxLayout_from (index : nat) (ts : list Tab) (flexType : string)
    (activeTab : Tab) (st : State) : State :=
  match ts with
  | [] => st
  | tab :: ts' =>
      applyFlexBoxLayout_from (S index) ts' flexType activeTab
        (update_tab tab (applyFlexBoxLayout_tab flexType activeTab index tab) st)
  end.

Definition applyFlexBoxLayout (ts : list Tab) (flexType : string) (activeTab : Tab)
    (st : State) : State :=
  let p := tabBrowserPanel st in
  applyFlexBoxLayout_from 0 ts flexType activeTab
    (set_tabBrowserPanel
       (mkPanel (attr_split_view p) (style_display p) "column"
                (style_flexTemplateAreas p)) st).

(** [activateSplitView(splitData, activeTab)]; [splitData] is the reference
    of the group object. *)
Definition activateSplitView (splitData : nat) (activeTab : Tab) (st : State) : State :=
  let p := tabBrowserPanel st in
  let st1 := set_tabBrowserPanel
               (mkPanel true (style_display p) (style_flexDirection p)
                        (style_flexTemplateAreas p)) st in
  let st2 := set_pref_working true st1 in
  let st3 := set_currentView (indexOf splitData (_data st2)) st2 in
  let g := deref st3 splitData in
  let flexType := if decide (flexType g = "") then "flex" else flexType g in
  setTabsDocShellState (tabs g) true
    (applyFlexBoxLayout (tabs g) flexType activeTab st3).

(** [deactivateSplitView()]. *)
Definition deactivateSplitView (st : State) : Completion :=
  match data_at st (currentView st) with
  | None => Throw st
  | Some r =>
      let ts := tabs (deref st r) in
      let st1 := foldl (λ s tab,
                   update_tab tab (with_container (λ c,
                     let c' := resetContainerStyle c in
                     mkContainer (attr_split c') (attr_split_active c')
                       (attr_split_anim c') (class_deck_selected c') false
                       (attr_style c'))) s) st ts in
      let p := tabBrowserPanel st1 in
      let st2 := set_tabBrowserPanel
                   (mkPanel false (style_display p) (style_flexDirection p) "") st1 in
      let st3 := set_pref_working false st2 in
      Normal (set_currentView (-1) (setTabsDocShellState ts false st3))
  end.

(** [updateSplitView(tab)].  The condition of the [if] reads
    [this._data[this.currentView].tabs] only when a group was found and
    [currentView >= 0]. *)
Definition updateSplitView (tab : option Tab) (st : State) : Completion :=
  match tab, find_group st tab with
  | Some t, Some (_, splitData) =>
      if decide (0 ≤ currentView st) then
        match data_at st (currentView st) with
        | None => Throw st
        | Some current =>
            if includes (tabs (deref st current)) t
            then Normal (activateSplitView splitData t st)
            else deactivateSplitView st
                 >>= λ st1, Normal (activateSplitView splitData t st1)
        end
      else Normal (activateSplitView splitData t st)
  | _, _ =>
      if decide (0 ≤ currentView st) then deactivateSplitView st else Normal st
  end.

(** [removeTabFromGroup(tab, groupIndex, forUnsplit)].  The splice is done on
    the group object itself, so whoever holds the object sees it. *)
Definition removeTabFromGroup (tab : Tab) (groupIndex : nat) (forUnsplit : bool)
    (st : State) : Completion :=
  match _data st !! groupIndex with
  | None => Throw st
  | Some group =>
      let g := deref st group in
      let tabIndex := indexOf tab (tabs g) in
      let remaining := splice1 tabIndex (tabs g) in
      let st1 := set_heap (<[group := mkGroup remaining (flexType g)]> (heap st)) st in
      let st2 := resetTabState tab forUnsplit st1 in
      if decide (length remaining < 2)%nat
      then removeGroup groupIndex st2
      else updateSplitView (last remaining) st2
  end.

(** [handleTabClose(event)] for [event.target = tab] and
    [event.forUnsplit = forUnsplit]. *)
Definition handleTabClose (tab : Tab) (forUnsplit : bool) (st : State) : Completion :=
  match find_group st (Some tab) with
  | None => Normal st
  | Some (groupIndex, _) => removeTabFromGroup tab groupIndex forUnsplit st
  end.

(** [splitTabs(tabs)].  The array passed becomes the [tabs] of the new group
    object ([contextSplitTabs] passes a fresh array literal). *)
Definition splitTabs (ts : list Tab) (st : State) : Completion :=
  let create :=
    let group := length (heap st) in
    let st1 := set_heap (heap st ++ [mkGroup ts "flex"])%list st in
    let st2 := set_data (_data st1 ++ [group])%list st1 in
    updateSplitView (head ts) (set_selectedTab (head ts) st2) in
  match list_find (λ tab, splitView (tabObject st tab) = true) ts with
  | Some (_, existingSplitTab) =>
      match find_group st (Some existingSplitTab) with
      | Some _ => updateSplitView (Some existingSplitTab) st
      | None => create
      end
  | None => create
  end.

(** The loop of [unsplitCurrentView] walks the array [tabs] of the group
    object while [handleTabClose] splices that same array: position [i] is
    compared with the length the array has now, and the element read is the
    one now at [i].  The loop also records the tabs it passes to
    [handleTabClose].  [fuel] bounds the number of iterations; [None] is
    returned only if it runs out. *)
Fixpoint unsplit_loop (fuel : nat) (group : nat) (i : nat) (st : State)
    : option (list Tab * Completion) :=
  match tabs (deref st group) !! i with
  | None => Some ([], Normal st)
  | Some tab =>
      match fuel with
      | O => None
      | S fuel' =>
          match handleTabClose tab true st with
          | Normal st1 =>
              '(visited, c) ← unsplit_loop fuel' group (S i) st1;
              Some (tab :: visited, c)
          | Throw st1 => Some ([tab], Throw st1)
          end
      end
  end.

(** [unsplitCurrentView()], with the tabs handed to [handleTabClose], and
    without them. *)
Definition unsplitCurrentView_run (st : State) : option (list Tab * Completion) :=
  let currentTab := selectedTab st in
  match data_at st (currentView st) with
  | None => Some ([], Throw st)
  | Some group =>
      '(visited, c) ← unsplit_loop (length (tabs (deref st group))) group 0 st;
      Some (visited, c >>= λ st1, Normal (set_selectedTab currentTab st1))
  end.

Definition unsplitCurrentView (st : State) : option Completion :=
  snd <$> unsplitCurrentView_run st.

(** [onLocationChange(browser)], for [tab] the answer of
    [window.gBrowser.getTabForBrowser(browser)]: [None] when no tab owns the
    browser. *)
Definition onLocationChange (tab : option Tab) (st : State) : Completion :=
  match tab with
  | Some t => updateSplitView (Some t) st
  | None => Normal st
  end.

(** [contextSplitTabs()], for [window.TabContextMenu.contextTab = contextTab].
    The selected tab is read from the window.  A window without a selected
    tab makes the array [[contextTab, undefined]]: [splitTabs] then throws on
    [undefined.splitView] unless [contextTab] carries the flag; with the
    flag and a group it re-activates that group; with the flag and no group
    it would push a group that holds [undefined], which a [Group] cannot,
    and that one case is left out ([None]). *)
Definition contextSplitTabs (contextTab : Tab) (st : State) : option Completion :=
  match selectedTab st with
  | Some selected =>
      Some (if decide (contextTab = selected) then Normal st
            else splitTabs [contextTab; selected] st)
  | None =>
      if splitView (tabObject st contextTab) then
        match find_group st (Some contextTab) with
        | Some _ => Some (updateSplitView (Some contextTab) st)
        | None => None
        end
      else Some (Throw st)
  end.

(** The state the constructor leaves, over a host whose tabs are untouched. *)
Definition constructed : State :=
  mkState [] (-1) [] ∅ (mkPanel false "" "" "") false None.

(** ** Vocabulary of the specification *)

(** The tabs of no group, and the per-tab observations the specification
    speaks of. *)
Definition ungrouped (st : State) (t : Tab) : Prop :=
  ∀ r, r ∈ _data st → t ∉ tabs (deref st r).
Definition docShellActive (st : State) (t : Tab) : bool :=
  docShellIsActive (linkedBrowser (tabObject st t)).
Definition splitActive (st : State) (t : Tab) : bool :=
  attr_split_active (container (linkedBrowser (tabObject st t))).
Definition styleOf (st : State) (t : Tab) : Css.attribute :=
  attr_style (container (linkedBrowser (tabObject st t))).

(** [currentView] is "none" or an index into [this._data]. *)
Definition currentView_valid (st : State) : Prop :=
  currentView st = -1 ∨ is_Some (data_at st (currentView st)).

(** A tab belongs to at most one entry of [this._data]. *)
Definition groups_disjoint (st : State) : Prop :=
  ∀ i j ri rj t,
    _data st !! i = Some ri → _data st !! j = Some rj →
    t ∈ tabs (deref st ri) → t ∈ tabs (deref st rj) → i = j.

(** Every entry of [this._data] refers to a group object (a reference in a
    JavaScript array always does). *)
Definition references_allocated (st : State) : Prop :=
  ∀ r, r ∈ _data st → (r < length (heap st))%nat.

(** The membership lists of the groups, in the order of [this._data]. *)
Definition memberships (st : State) : list (list Tab) :=
  map (λ r, tabs (deref st r)) (_data st).

(** A sequence of calls, each a separate event: a call that throws leaves
    the state it reached to the next one. *)
Definition events (ops : list (State → Completion)) (st : State) : State :=
  foldl (λ s op, state_of (op s)) st ops.

(** The same calls as one run that a throw ends. *)
Definition calls (ops : list (State → Completion)) (st : State) : Completion :=
  foldl bind (Normal st) ops.

(** The elements at the odd and at the even positions of a list. *)
Fixpoint odd_positions {A} (l : list A) : list A :=
  match l with
  | _ :: y :: l' => y :: odd_positions l'
  | _ => []
  end.
Fixpoint even_positions {A} (l : list A) : list A :=
  match l with
  | [] => []
  | [x] => [x]
  | x :: _ :: l' => x :: even_positions l'
  end.

(** Every group has at least two tabs. *)
Definition groups_populated (st : State) : Prop :=
  ∀ r, r ∈ _data st → (2 ≤ length (tabs (deref st r)))%nat.

(** The group [g] with members [l] sits at index [idx] and is the active
    one, in a state where no tab belongs to two groups. *)
Definition active_group (st : State) (idx g : nat) (l : list Tab) : Prop :=
  currentView st = Z.of_nat idx ∧ _data st !! idx = Some g ∧
  tabs (deref st g) = l ∧ groups_disjoint st.

(** The split view is on for the tabs [l]: the preference says so, and all
    of them are flagged and docshell-active. *)
Definition members_active (st : State) (l : list Tab) : Prop :=
  pref_working st = true ∧
  ∀ m, m ∈ l → docShellActive st m = true ∧ splitView (tabObject st m) = true.

(** A tab taken out of the split view: no [splitView] flag, no [split]
    attribute, no [style] attribute (so not hidden either). *)
Definition plain_tab (o : TabObject) : Prop :=
  splitView o = false ∧
  attr_split (container (linkedBrowser o)) = false ∧
  attr_style (container (linkedBrowser o)) = None.

(** ** What can be seen of a state

    Two style attributes are the same to the eye when they declare the same
    value for every property, whatever their text; two tab objects when all
    their flags, attributes, class and listener agree and their styles
    declare the same; two states when the manager, the panel, the preference
    and the selection agree and every tab object is the same to the eye. *)
Definition same_declarations (a b : Css.attribute) : Prop :=
  ∀ p, Css.declared a p = Css.declared b p.

Definition visibly_same_tab (o o' : TabObject) : Prop :=
  splitView o = splitView o' ∧
  spliting (linkedBrowser o) = spliting (linkedBrowser o') ∧
  docShellIsActive (linkedBrowser o) = docShellIsActive (linkedBrowser o') ∧
  attr_split (container (linkedBrowser o)) =
    attr_split (container (linkedBrowser o')) ∧
  attr_split_active (container (linkedBrowser o)) =
    attr_split_active (container (linkedBrowser o')) ∧
  attr_split_anim (container (linkedBrowser o)) =
    attr_split_anim (container (linkedBrowser o')) ∧
  class_deck_selected (container (linkedBrowser o)) =
    class_deck_selected (container (linkedBrowser o')) ∧
  click_handleTabClick (container (linkedBrowser o)) =
    click_handleTabClick (container (linkedBrowser o')) ∧
  same_declarations (attr_style (container (linkedBrowser o)))
                    (attr_style (container (linkedBrowser o'))).

Definition visibly_same (st st' : State) : Prop :=
  _data st = _data st' ∧ currentView st = currentView st' ∧
  heap st = heap st' ∧ tabBrowserPanel st = tabBrowserPanel st' ∧
  pref_working st = pref_working st' ∧ selectedTab st = selectedTab st' ∧
  ∀ x, visibly_same_tab (tabObject st x) (tabObject st' x).

(** The properties activation writes ([flex] with its longhands), and three
    stages of agreement between two tab objects that go through the same
    activation: on what activation never writes; after the layout loop;
    after the docshell loop. *)
Definition layout_properties : list string :=
  ["flex"; "order"; "-moz-subtree-hidden-only-visually"; "visibility";
   "flex-grow"; "flex-shrink"; "flex-basis"].

Definition untouched_equal (o o' : TabObject) : Prop :=
  class_deck_selected (container (linkedBrowser o)) =
    class_deck_selected (container (linkedBrowser o')) ∧
  ∀ p, p ∉ layout_properties →
       Css.declared (attr_style (container (linkedBrowser o))) p =
       Css.declared (attr_style (container (linkedBrowser o'))) p.

Definition laid_out_equal (o o' : TabObject) : Prop :=
  untouched_equal o o' ∧
  splitView o = splitView o' ∧
  attr_split_active (container (linkedBrowser o)) =
    attr_split_active (container (linkedBrowser o')) ∧
  attr_split_anim (container (linkedBrowser o)) =
    attr_split_anim (container (linkedBrowser o')) ∧
  click_handleTabClick (container (linkedBrowser o)) =
    click_handleTabClick (container (linkedBrowser o')) ∧
  Css.declared (attr_style (container (linkedBrowser o))) "flex" =
    Css.declared (attr_style (container (linkedBrowser o'))) "flex" ∧
  Css.declared (attr_style (container (linkedBrowser o))) "order" =
    Css.declared (attr_style (container (linkedBrowser o'))) "order" ∧
  (∀ p, p ∈ Css.flex_longhands →
        Css.declared (attr_style (container (linkedBrowser o))) p =
        Css.declared (attr_style (container (linkedBrowser o'))) p) ∧
  is_Some (attr_style (container (linkedBrowser o))) ∧
  is_Some (attr_style (container (linkedBrowser o'))).

Definition activated_equal (o o' : TabObject) : Prop :=
  visibly_same_tab o o' ∧
  is_Some (attr_style (container (linkedBrowser o))) ∧
  is_Some (attr_style (container (linkedBrowser o'))).

(** The state [removeTabFromGroup] has reached when it looks at the length
    of what remains. *)
Definition spliced (t : Tab) (forUnsplit : bool) (g : nat) (remaining : list Tab)
    (st : State) : State :=
  resetTabState t forUnsplit
    (set_heap (<[g := mkGroup remaining (flexType (deref st g))]> (heap st)) st).

(** ** Scenarios *)

(** Tabs A and B split.  *)
Definition split_AB : State := events [splitTabs [0; 1]%nat] constructed.

(** Two groups, {A,B} then {C,D}; the second split leaves {C,D} active. *)
Definition split_AB_CD : State :=
  events [splitTabs [0; 1]%nat; splitTabs [2; 3]%nat] constructed.

(** Three groups, with the middle one, {C,D}, selected again. *)
Definition split_AB_CD_EF : State :=
  events [splitTabs [0; 1]%nat; splitTabs [2; 3]%nat; splitTabs [4; 5]%nat;
          updateSplitView (Some 2%nat)] constructed.

(** One group of four tabs. *)
Definition split_ABCD : State := events [splitTabs [0; 1; 2; 3]%nat] constructed.

(** {A,B} and {C,D} split, A selected again, then C closed while its group
    is not the active one. *)
Definition closed_C : State :=
  events [splitTabs [0; 1]%nat; splitTabs [2; 3]%nat;
          updateSplitView (Some 0%nat); handleTabClose 2%nat false] constructed.

(** One group of three tabs. *)
Definition split_ABC : State := events [splitTabs [0; 1; 2]%nat] constructed.

(** {C,D,E} split first, then {A,B}, which is the active group. *)
Definition split_CDE_AB : State :=
  events [splitTabs [2; 3; 4]%nat; splitTabs [0; 1]%nat] constructed.

(** From [closed_C], where D is in no group but still flagged: D and A are
    split, D first, and B is selected again.  A belongs to {A,B}, the
    active group, and to {D,A}. *)
Definition shared_A : State :=
  events [splitTabs [3; 0]%nat; updateSplitView (Some 1%nat)] closed_C.

(** The same with a third tab, E, in the second group. *)
Definition shared_A_three : State :=
  events [splitTabs [3; 0; 4]%nat; updateSplitView (Some 1%nat)] closed_C.

(** {A,B}, {C,D,E} and {F,G} split in this order, then A closed: two groups
    are left and [currentView] is still 2. *)
Definition stale_CDE_FG : State :=
  events [splitTabs [0; 1]%nat; splitTabs [2; 3; 4]%nat; splitTabs [5; 6]%nat;
          handleTabClose 0%nat false] constructed.

(** ** Tab objects under the loops of the class *)

Section TabLoops.

Implicit Types (st : State) (m : gmap Tab TabObject) (ts : list Tab).

Lemma tabObject_update_tab t f st x :
  tabObject (update_tab t f st) x =
  if decide (x = t) then f (tabObject st t) else tabObject st x.
Proof.
  unfold tabObject, update_tab; simpl.
  destruct (decide (x = t)) as [->|Hne].
  - by rewrite lookup_total_insert_eq.
  - by rewrite lookup_total_insert_ne.
Qed.

(** A loop that updates one tab object per element only changes the tab
    store. *)
Lemma foldl_update_tab (F : Tab → TabObject → TabObject) ts st :
  foldl (λ s tab, update_tab tab (F tab) s) st ts =
  set_tabObjects
    (foldl (λ m tab, <[tab := F tab (m !!! tab)]> m) (tabObjects st) ts) st.
Proof.
  revert st; induction ts as [|t ts IH]; intros st; simpl.
  - by destruct st.
  - rewrite IH. by destruct st.
Qed.

Lemma applyFlexBoxLayout_from_tabObjects i ts ft a st :
  applyFlexBoxLayout_from i ts ft a st =
  set_tabObjects (tabObjects (applyFlexBoxLayout_from i ts ft a st)) st.
Proof.
  revert i st; induction ts as [|t ts IH]; intros i st; simpl.
  - by destruct st.
  - rewrite IH. by destruct st.
Qed.

Lemma foldl_insert_notin (F : Tab → TabObject → TabObject) ts m x :
  x ∉ ts →
  foldl (λ m tab, <[tab := F tab (m !!! tab)]> m) m ts !! x = m !! x.
Proof.
  revert m; induction ts as [|t ts IH]; intros m Hx; simpl; [done|].
  apply not_elem_of_cons in Hx as [Hne Hx].
  rewrite IH by done. by rewrite lookup_insert_ne.
Qed.

(** What every application of the loop body establishes for [x] holds for
    [x] once the loop has passed it. *)
Lemma foldl_insert_in (F : Tab → TabObject → TabObject) (P : TabObject → Prop)
    ts m x :
  (∀ o, P (F x o)) → x ∈ ts →
  P (foldl (λ m tab, <[tab := F tab (m !!! tab)]> m) m ts !!! x).
Proof.
  intros HP. revert m; induction ts as [|t ts IH]; intros m Hx; [by inversion Hx|].
  simpl. destruct (decide (x ∈ ts)) as [Hin|Hnin]; [by apply IH|].
  apply elem_of_cons in Hx as [->|Hx]; [|done].
  rewrite lookup_total_alt, foldl_insert_notin by done.
  rewrite lookup_insert_eq. apply HP.
Qed.

(** What the loop body preserves for [x] survives the loop. *)
Lemma foldl_insert_preserved (F : Tab → TabObject → TabObject)
    (P : TabObject → Prop) ts m x :
  (∀ o, P o → P (F x o)) → P (m !!! x) →
  P (foldl (λ m tab, <[tab := F tab (m !!! tab)]> m) m ts !!! x).
Proof.
  intros HP. revert m; induction ts as [|t ts IH]; intros m Hm; [done|].
  simpl. apply IH. destruct (decide (x = t)) as [->|Hne].
  - rewrite lookup_total_insert_eq. by apply HP.
  - by rewrite lookup_total_insert_ne.
Qed.

Lemma applyFlexBoxLayout_from_notin i ts ft a st x :
  x ∉ ts →
  tabObjects (applyFlexBoxLayout_from i ts ft a st) !! x = tabObjects st !! x.
Proof.
  revert i st; induction ts as [|t ts IH]; intros i st Hx; simpl; [done|].
  apply not_elem_of_cons in Hx as [Hne Hx].
  rewrite IH by done. simpl. by rewrite lookup_insert_ne.
Qed.

Lemma applyFlexBoxLayout_from_in (P : TabObject → Prop) i ts ft a st x :
  (∀ j o, P (applyFlexBoxLayout_tab ft a j x o)) → x ∈ ts →
  P (tabObject (applyFlexBoxLayout_from i ts ft a st) x).
Proof.
  intros HP. revert i st; induction ts as [|t ts IH]; intros i st Hx;
    [by inversion Hx|].
  simpl. destruct (decide (x ∈ ts)) as [Hin|Hnin]; [by apply IH|].
  apply elem_of_cons in Hx as [->|Hx]; [|done].
  unfold tabObject. rewrite lookup_total_alt, applyFlexBoxLayout_from_notin by done.
  simpl. rewrite lookup_insert_eq. apply HP.
Qed.

End TabLoops.

(** ** What the methods leave alone *)

Section Frames.

Implicit Types (st : State) (ts : list Tab).

Lemma setTabsDocShellState_eq ts active st :
  setTabsDocShellState ts active st =
  set_tabObjects
    (foldl (λ m tab, <[tab := setTabsDocShellState_object active (m !!! tab)]> m)
           (tabObjects st) ts) st.
Proof.
  unfold setTabsDocShellState.
  apply (foldl_update_tab (λ _, setTabsDocShellState_object active)).
Qed.

Lemma activateSplitView_eq g t st :
  ∃ m, activateSplitView g t st =
       mkState (_data st) (indexOf g (_data st)) (heap st) m
         (mkPanel true (style_display (tabBrowserPanel st)) "column"
                  (style_flexTemplateAreas (tabBrowserPanel st)))
         true (selectedTab st).
Proof.
  unfold activateSplitView, applyFlexBoxLayout.
  rewrite setTabsDocShellState_eq, applyFlexBoxLayout_from_tabObjects.
  eexists. reflexivity.
Qed.

Lemma activateSplitView_data g t st : _data (activateSplitView g t st) = _data st.
Proof. destruct (activateSplitView_eq g t st) as [m ->]. done. Qed.
Lemma activateSplitView_heap g t st : heap (activateSplitView g t st) = heap st.
Proof. destruct (activateSplitView_eq g t st) as [m ->]. done. Qed.
Lemma activateSplitView_currentView g t st :
  currentView (activateSplitView g t st) = indexOf g (_data st).
Proof. destruct (activateSplitView_eq g t st) as [m ->]. done. Qed.
Lemma activateSplitView_selectedTab g t st :
  selectedTab (activateSplitView g t st) = selectedTab st.
Proof. destruct (activateSplitView_eq g t st) as [m ->]. done. Qed.

Lemma deactivateSplitView_eq st r :
  data_at st (currentView st) = Some r →
  ∃ m, deactivateSplitView st =
       Normal (mkState (_data st) (-1) (heap st) m
                 (mkPanel false (style_display (tabBrowserPanel st))
                    (style_flexDirection (tabBrowserPanel st)) "")
                 false (selectedTab st)).
Proof.
  intros Hr. unfold deactivateSplitView. rewrite Hr.
  rewrite setTabsDocShellState_eq.
  rewrite (foldl_update_tab (λ _, with_container _)).
  eexists. reflexivity.
Qed.

Lemma deactivateSplitView_throw st :
  data_at st (currentView st) = None → deactivateSplitView st = Throw st.
Proof. intros Hr. unfold deactivateSplitView. by rewrite Hr. Qed.

Lemma resetSplitView_eq st r :
  data_at st (currentView st) = Some r →
  ∃ m, resetSplitView st =
       Normal (mkState (_data st) (-1) (heap st) m
                 (mkPanel false "" "" (style_flexTemplateAreas (tabBrowserPanel st)))
                 false (selectedTab st)).
Proof.
  intros Hr. unfold resetSplitView. rewrite Hr.
  unfold resetTabState.
  rewrite (foldl_update_tab (λ _, resetTabState_object true)).
  eexists. reflexivity.
Qed.

End Frames.

(** ** Searching lists the way [indexOf] and [findIndex] do *)

Section Search.

Lemma indexOf_Some `{EqDecision A} (x : A) (l : list A) :
  x ∈ l →
  ∃ i, indexOf x l = Z.of_nat i ∧ l !! i = Some x ∧
       ∀ j, (j < i)%nat → l !! j ≠ Some x.
Proof.
  intros Hx. unfold indexOf.
  destruct (list_find (λ y, y = x) l) as [[i y]|] eqn:Hf.
  - apply list_find_Some in Hf as (Hi & -> & Hmin).
    exists i. split_and!; [done..|].
    intros j Hj Hl. by apply (Hmin j x).
  - apply list_find_None in Hf. rewrite Forall_forall in Hf.
    by destruct (Hf x Hx).
Qed.

Lemma indexOf_None `{EqDecision A} (x : A) (l : list A) :
  x ∉ l → indexOf x l = -1.
Proof.
  intros Hx. unfold indexOf.
  destruct (list_find (λ y, y = x) l) as [[i y]|] eqn:Hf; [|done].
  apply list_find_Some in Hf as (Hi & -> & _).
  destruct Hx. by eapply list_elem_of_lookup_2.
Qed.

Lemma indexOf_first `{EqDecision A} (x : A) (l : list A) i :
  l !! i = Some x → (∀ j, (j < i)%nat → l !! j ≠ Some x) →
  indexOf x l = Z.of_nat i.
Proof.
  intros Hi Hmin.
  destruct (indexOf_Some x l) as (k & Hk & Hlk & Hkmin);
    [by eapply list_elem_of_lookup_2|].
  rewrite Hk. f_equal.
  destruct (lt_eq_lt_dec i k) as [[Hlt| ->]|Hlt]; [|done|].
  - by destruct (Hkmin i Hlt).
  - by destruct (Hmin k Hlt).
Qed.

Lemma data_at_of_nat (st : State) (i : nat) :
  data_at st (Z.of_nat i) = _data st !! i.
Proof.
  unfold data_at. rewrite decide_True by lia. by rewrite Nat2Z.id.
Qed.

Lemma data_at_negative (st : State) (i : Z) : i < 0 → data_at st i = None.
Proof. intros Hi. unfold data_at. by rewrite decide_False by lia. Qed.

Lemma find_group_None (st : State) (t : Tab) :
  find_group st (Some t) = None ↔ ∀ r, r ∈ _data st → t ∉ tabs (deref st r).
Proof.
  unfold find_group. rewrite list_find_None, Forall_forall. done.
Qed.

Lemma find_group_Some (st : State) (t : Tab) i r :
  find_group st (Some t) = Some (i, r) ↔
  _data st !! i = Some r ∧ t ∈ tabs (deref st r) ∧
  ∀ j r', _data st !! j = Some r' → (j < i)%nat → t ∉ tabs (deref st r').
Proof.
  unfold find_group.
  apply (list_find_Some (λ r, t ∈ tabs (deref st r))).
Qed.

End Search.

(** ** The declaration block behind a style attribute *)

Section StyleFacts.

Implicit Types (b : Css.declarations) (p q v : string) (a : Css.attribute).

Lemma css_ends_sym p q : Css.ends p q = Css.ends q p.
Proof. unfold Css.ends. apply orb_comm. Qed.

(** Only [flex] and its longhands end declarations of other properties. *)
Lemma css_ends_other p q :
  p ≠ "flex" → p ∉ Css.flex_longhands → Css.ends p q = false.
Proof.
  intros Hp Hl. unfold Css.ends.
  rewrite !bool_decide_eq_false_2; [done|by intros [_ ?]|by intros [? _]].
Qed.

Lemma css_ends_flex q :
  Css.ends "flex" q = bool_decide (q ∈ Css.flex_longhands).
Proof.
  unfold Css.ends.
  rewrite (bool_decide_eq_false_2 (q = "flex" ∧ _)).
  2:{ intros [_ H]. unfold Css.flex_longhands in H.
      repeat (apply elem_of_cons in H as [H|H]; [done|]).
      by apply elem_of_nil in H. }
  rewrite orb_false_r. apply bool_decide_ext. split; [by intros [_ ?]|done].
Qed.

Lemma css_get_app b p q v :
  Css.get p (b ++ [(q, v)]) =
  match Css.get p b with
  | Some w => Some w
  | None => if decide (q = p) then Some v else None
  end.
Proof.
  induction b as [|[q' w] b IH]; simpl; [done|].
  destruct (decide (q' = p)); [done|exact IH].
Qed.

Lemma css_get_remove b p q :
  Css.get p (Css.remove q b) =
  if decide (q = p) then None
  else if Css.ends q p then None else Css.get p b.
Proof.
  unfold Css.remove. induction b as [|[q' w] b IH].
  - simpl. case_decide; [done|]. by destruct (Css.ends q p).
  - rewrite filter_cons. simpl.
    destruct (decide (q' ≠ q ∧ Css.ends q q' = false)) as [[Hne He]|Hno]; simpl.
    + rewrite IH. destruct (decide (q' = p)) as [->|]; [|done].
      by rewrite decide_False, He by done.
    + rewrite IH. destruct (decide (q' = p)) as [->|]; [|done].
      destruct (decide (q = p)) as [|Hne]; [done|].
      destruct (Css.ends q p) eqn:He; [done|]. destruct Hno. by split.
Qed.

Lemma css_get_unended b p q :
  Css.get p (filter (λ d, Css.ends q d.1 = false) b) =
  if Css.ends q p then None else Css.get p b.
Proof.
  induction b as [|[q' w] b IH].
  - simpl. by destruct (Css.ends q p).
  - rewrite filter_cons. simpl.
    destruct (decide (Css.ends q q' = false)) as [He|He]; simpl.
    + rewrite IH. destruct (decide (q' = p)) as [->|]; [|done].
      by rewrite He.
    + rewrite IH. destruct (decide (q' = p)) as [->|]; [|done].
      by destruct (Css.ends q p).
Qed.

Lemma css_get_replace b p q v :
  Css.get p (Css.replace q v b) = if decide (q = p) then Some v else Css.get p b.
Proof.
  induction b as [|[q' w] b IH]; simpl.
  - by destruct (decide (q = p)).
  - destruct (decide (q' = q)) as [->|Hne]; simpl.
    + by destruct (decide (q = p)).
    + rewrite IH. destruct (decide (q' = p)), (decide (q = p)); congruence.
Qed.

Lemma css_get_assign b p q v :
  Css.get p (Css.assign q v b) =
  if decide (q = p) then Some v
  else if Css.ends q p then None else Css.get p b.
Proof.
  unfold Css.assign. rewrite css_get_replace, css_get_unended.
  by destruct (decide (q = p)).
Qed.

Lemma css_get_None b p : p ∉ b.*1 → Css.get p b = None.
Proof.
  induction b as [|[q w] b IH]; simpl; [done|].
  intros [Hne Hnot]%not_elem_of_cons. rewrite decide_False by done. by apply IH.
Qed.

Lemma css_get_parse_item b p q v :
  Css.get p (Css.parse_item b (Css.Decl q v)) =
  if decide (q = p) then Some v
  else if Css.ends q p then None else Css.get p b.
Proof.
  simpl. rewrite css_get_app, css_get_remove.
  case_decide; [done|].
  destruct (Css.ends q p); [done|]. by destruct (Css.get p b).
Qed.

(** Blocks whose declarations all stand. *)
Lemma css_standing_filter (P : string * string → Prop) `{∀ x, Decision (P x)} b :
  Css.standing b → Css.standing (filter P b).
Proof.
  induction b as [|d b IH]; [done|]. intros [Hd Hb].
  rewrite filter_cons. case_decide; [|by apply IH].
  split; [|by apply IH].
  apply Forall_forall. intros e [_ He]%list_elem_of_filter.
  by apply (proj1 (Forall_forall _ _) Hd).
Qed.

Lemma css_standing_snoc b p v :
  Css.standing (b ++ [(p, v)]) ↔
  Css.standing b ∧ Forall (λ e, e.1 ≠ p ∧ Css.ends p e.1 = false) b.
Proof.
  induction b as [|d b IH]; simpl.
  - split; [done|]. intros _. split; [apply Forall_nil_2|done].
  - rewrite IH, Forall_app, Forall_singleton, Forall_cons. simpl.
    rewrite (css_ends_sym d.1 p).
    split; [intros [[? [? ?]] [? ?]]|intros [[? ?] [[? ?] ?]]]; split_and!;
      done || by apply not_eq_sym.
Qed.

Lemma css_remove_standing b p : Css.standing b → Css.standing (Css.remove p b).
Proof. apply css_standing_filter. Qed.

Lemma css_remove_id b p :
  Forall (λ e, e.1 ≠ p ∧ Css.ends p e.1 = false) b → Css.remove p b = b.
Proof.
  unfold Css.remove. induction b as [|d b IH]; [done|].
  intros [Hd Hb]%Forall_cons. rewrite filter_cons, decide_True by done.
  by rewrite IH.
Qed.

Lemma css_replace_keys b p v e :
  e ∈ Css.replace p v b → e.1 = p ∨ e ∈ b.
Proof.
  induction b as [|[q w] b IH]; simpl.
  - intros ->%list_elem_of_singleton. by left.
  - case_decide as Hq; simpl.
    + subst q. intros [->|Hin]%elem_of_cons; [by left|].
      right. by apply list_elem_of_further.
    + intros [->|Hin]%elem_of_cons; [right; apply list_elem_of_here|].
      destruct (IH Hin) as [?|Hin']; [by left|].
      right. by apply list_elem_of_further.
Qed.

Lemma css_replace_standing b p v :
  Css.standing b → Forall (λ e, Css.ends p e.1 = false) b →
  Css.standing (Css.replace p v b).
Proof.
  induction b as [|[q w] b IH]; simpl.
  - intros _ _. split; [apply Forall_nil_2|done].
  - intros [Hd Hb] [Hq Hp]%Forall_cons. simpl in *.
    case_decide as Heq; simpl.
    + subst q. done.
    + split; [|by apply IH].
      apply Forall_forall. intros e [He|He]%css_replace_keys.
      * rewrite He. split; [done|]. by rewrite css_ends_sym.
      * by apply (proj1 (Forall_forall _ _) Hd).
Qed.

Lemma css_assign_standing b p v : Css.standing b → Css.standing (Css.assign p v b).
Proof.
  intros Hb. apply css_replace_standing.
  - by apply (css_standing_filter (λ d, Css.ends p d.1 = false)).
  - apply Forall_forall. by intros e [? _]%list_elem_of_filter.
Qed.

Lemma css_parse_item_standing b i :
  Css.standing b → Css.standing (Css.parse_item b i).
Proof.
  intros Hb. destruct i as [p v|]; simpl; [|done].
  apply css_standing_snoc. split; [by apply css_remove_standing|].
  apply Forall_forall. by intros e [? _]%list_elem_of_filter.
Qed.

Lemma css_foldl_parse_standing (text : list Css.item) b :
  Css.standing b → Css.standing (foldl Css.parse_item b text).
Proof.
  revert b; induction text as [|i text IH]; intros b Hb; simpl; [done|].
  by apply IH, css_parse_item_standing.
Qed.

Lemma css_block_standing a : Css.standing (Css.block a).
Proof. by apply css_foldl_parse_standing. Qed.

(** Writing a block out and reading it back gives the block. *)
Lemma css_parse_serialize b : Css.standing b → Css.parse (Css.serialize b) = b.
Proof.
  induction b as [|[p v] b IH] using rev_ind; [done|].
  intros [Hb Hp]%css_standing_snoc.
  unfold Css.parse, Css.serialize. rewrite map_app, foldl_app. simpl.
  unfold Css.parse, Css.serialize in IH. rewrite IH by done.
  by rewrite css_remove_id.
Qed.

(** What an assignment through [element.style] does to the block, and to
    the declared values. *)
Lemma block_setProperty p v a :
  Css.block (Css.setProperty p v a) =
  if decide (v = "") then Css.remove p (Css.block a)
  else Css.assign p v (Css.block a).
Proof.
  unfold Css.setProperty. pose proof (css_block_standing a) as Hb.
  case_decide as Heq; [by rewrite Heq|].
  unfold Css.block at 1. simpl. apply css_parse_serialize.
  case_decide; [by apply css_remove_standing|by apply css_assign_standing].
Qed.

Lemma declared_setProperty p v a q :
  Css.declared (Css.setProperty p v a) q =
  if decide (q = p) then (if decide (v = "") then None else Some v)
  else if Css.ends p q then None else Css.declared a q.
Proof.
  unfold Css.declared. rewrite block_setProperty.
  destruct (decide (v = "")).
  - rewrite css_get_remove. repeat case_decide; congruence.
  - rewrite css_get_assign. repeat case_decide; congruence.
Qed.

Lemma setProperty_is_Some p v a : v ≠ "" → is_Some (Css.setProperty p v a).
Proof.
  intros Hv. unfold Css.setProperty.
  rewrite (decide_False (P := v = "")) by done.
  case_decide as Heq; [|by eexists].
  destruct a; [by eexists|]. exfalso.
  apply (f_equal (Css.get p)) in Heq. rewrite css_get_assign in Heq.
  by rewrite decide_True in Heq.
Qed.

(** An assignment of [flex] overwrites what was declared for a longhand. *)
Lemma setProperty_flex_overwrites :
  Css.setProperty "flex" "1"
    (Some [Css.Decl "flex-grow" "2"; Css.Decl "color" "red"])
  = Some [Css.Decl "color" "red"; Css.Decl "flex" "1"].
Proof. reflexivity. Qed.

(** What the text appended by [setTabsDocShellState] does to them. *)
Lemma declared_style_template (text : list Css.item) q :
  Css.declared (Some (style_template (Some text))) q =
  if decide (q = "visibility") then Some "visible !important"
  else if decide (q = "-moz-subtree-hidden-only-visually") then Some "0"
  else Css.declared (Some text) q.
Proof.
  unfold Css.declared, Css.block, Css.parse, style_template.
  cbn [default from_option id]. rewrite foldl_app. cbn [foldl].
  rewrite !css_get_parse_item.
  rewrite !css_ends_other by (done || (intros H; unfold Css.flex_longhands in H;
    repeat (apply elem_of_cons in H as [H|H]; [done|]); by apply elem_of_nil in H)).
  destruct (decide (q = "visibility")) as [->|Hv].
  - by rewrite decide_True.
  - rewrite decide_False by done.
    destruct (decide (q = "-moz-subtree-hidden-only-visually")) as [->|Hh].
    + by rewrite decide_True.
    + by rewrite decide_False.
Qed.

End StyleFacts.

(** ** Activation and deactivation *)

Section Activation.

Implicit Types (st : State) (g : nat) (t m x : Tab).

Lemma activateSplitView_deref g t st r :
  deref (activateSplitView g t st) r = deref st r.
Proof. unfold deref. by rewrite activateSplitView_heap. Qed.

(** Every member ends docshell-active, and carries [split-active] exactly
    when it is the active tab. *)
Lemma activateSplitView_members g t st m :
  m ∈ tabs (deref st g) →
  docShellActive (activateSplitView g t st) m = true ∧
  splitActive (activateSplitView g t st) m = bool_decide (m = t).
Proof.
  intros Hm. split.
  - unfold docShellActive, tabObject, activateSplitView.
    rewrite setTabsDocShellState_eq. simpl.
    by apply (foldl_insert_in (λ _, setTabsDocShellState_object true)
                (λ o, docShellIsActive (linkedBrowser o) = true)).
  - unfold splitActive, tabObject, activateSplitView.
    rewrite setTabsDocShellState_eq. simpl.
    apply (foldl_insert_preserved (λ _, setTabsDocShellState_object true)
             (λ o, attr_split_active (container (linkedBrowser o)) =
                   bool_decide (m = t))).
    + intros o <-. by destruct o as [? [? ? []]].
    + unfold applyFlexBoxLayout.
      apply (applyFlexBoxLayout_from_in
               (λ o, attr_split_active (container (linkedBrowser o)) =
                     bool_decide (m = t))); [|done].
      intros j o. unfold applyFlexBoxLayout_tab, styleContainer. simpl.
      by case_decide.
Qed.

Lemma activateSplitView_others g t st x :
  x ∉ tabs (deref st g) →
  tabObject (activateSplitView g t st) x = tabObject st x.
Proof.
  intros Hx. unfold tabObject, activateSplitView.
  rewrite setTabsDocShellState_eq. simpl.
  rewrite !lookup_total_alt.
  rewrite (foldl_insert_notin (λ _, setTabsDocShellState_object true)) by done.
  unfold applyFlexBoxLayout. by rewrite applyFlexBoxLayout_from_notin.
Qed.

(** The group [find] returns sits where [indexOf] looks for it. *)
Lemma find_group_indexOf st t k g :
  find_group st (Some t) = Some (k, g) → indexOf g (_data st) = Z.of_nat k.
Proof.
  intros (Hk & Ht & Hmin)%find_group_Some.
  apply indexOf_first; [done|].
  intros j Hj Hl. by apply (Hmin j g).
Qed.

Lemma deactivateSplitView_members st r st1 m :
  data_at st (currentView st) = Some r →
  deactivateSplitView st = Normal st1 →
  m ∈ tabs (deref st r) →
  docShellActive st1 m = false ∧ splitActive st1 m = false.
Proof.
  intros Hr Hd Hm. unfold deactivateSplitView in Hd. rewrite Hr in Hd.
  injection Hd as <-.
  rewrite setTabsDocShellState_eq.
  rewrite (foldl_update_tab (λ _, with_container _)).
  unfold docShellActive, splitActive, tabObject. simpl. split.
  - by apply (foldl_insert_in (λ _, setTabsDocShellState_object false)
                (λ o, docShellIsActive (linkedBrowser o) = false)).
  - apply (foldl_insert_preserved (λ _, setTabsDocShellState_object false)
             (λ o, attr_split_active (container (linkedBrowser o)) = false)).
    + intros o Ho. destruct o as [? [? ? []]]. exact Ho.
    + by apply (foldl_insert_in (λ _, with_container _)
                  (λ o, attr_split_active (container (linkedBrowser o)) = false)).
Qed.

Lemma deactivateSplitView_others st r st1 x :
  data_at st (currentView st) = Some r →
  deactivateSplitView st = Normal st1 →
  x ∉ tabs (deref st r) →
  tabObject st1 x = tabObject st x.
Proof.
  intros Hr Hd Hx. unfold deactivateSplitView in Hd. rewrite Hr in Hd.
  injection Hd as <-.
  rewrite setTabsDocShellState_eq.
  rewrite (foldl_update_tab (λ _, with_container _)).
  unfold tabObject. simpl. rewrite !lookup_total_alt.
  rewrite (foldl_insert_notin (λ _, setTabsDocShellState_object false)) by done.
  by rewrite (foldl_insert_notin (λ _, with_container _)).
Qed.

(** [updateSplitView] of a grouped tab, by case. *)
Lemma updateSplitView_activate st t k g :
  find_group st (Some t) = Some (k, g) →
  (currentView st < 0 ∨
   ∃ rc, data_at st (currentView st) = Some rc ∧ t ∈ tabs (deref st rc)) →
  updateSplitView (Some t) st = Normal (activateSplitView g t st).
Proof.
  intros Hf Hcv. unfold updateSplitView. rewrite Hf.
  destruct Hcv as [Hneg|(rc & Hrc & Ht)].
  - by rewrite decide_False by lia.
  - case_decide; [|done]. rewrite Hrc.
    unfold includes. by rewrite bool_decide_eq_true_2.
Qed.

Lemma updateSplitView_switch st t k g rc :
  find_group st (Some t) = Some (k, g) →
  data_at st (currentView st) = Some rc → t ∉ tabs (deref st rc) →
  ∃ st1, deactivateSplitView st = Normal st1 ∧
         updateSplitView (Some t) st = Normal (activateSplitView g t st1).
Proof.
  intros Hf Hrc Ht. unfold updateSplitView. rewrite Hf.
  assert (0 ≤ currentView st) by (unfold data_at in Hrc; by case_decide).
  rewrite decide_True by done. rewrite Hrc.
  unfold includes. rewrite bool_decide_eq_false_2 by done.
  destruct (deactivateSplitView_eq st rc Hrc) as [m ->].
  eexists. split; reflexivity.
Qed.

(** [updateSplitView] never touches the groups or the selected tab, on
    whichever path it leaves. *)
Lemma updateSplitView_frame tab st :
  _data (state_of (updateSplitView tab st)) = _data st ∧
  heap (state_of (updateSplitView tab st)) = heap st ∧
  selectedTab (state_of (updateSplitView tab st)) = selectedTab st.
Proof.
  assert (Hd : _data (state_of (deactivateSplitView st)) = _data st ∧
               heap (state_of (deactivateSplitView st)) = heap st ∧
               selectedTab (state_of (deactivateSplitView st)) = selectedTab st).
  { destruct (data_at st (currentView st)) as [r|] eqn:Hr.
    - by destruct (deactivateSplitView_eq st r Hr) as [m ->].
    - by rewrite deactivateSplitView_throw. }
  unfold updateSplitView.
  destruct tab as [t|]; [|by case_decide].
  destruct (find_group st (Some t)) as [[k g]|]; [|by case_decide].
  case_decide; [|simpl; by rewrite activateSplitView_data,
                   activateSplitView_heap, activateSplitView_selectedTab].
  destruct (data_at st (currentView st)) as [rc|] eqn:Hrc; [|done].
  destruct (includes _ t).
  - simpl. by rewrite activateSplitView_data, activateSplitView_heap,
      activateSplitView_selectedTab.
  - destruct (deactivateSplitView_eq st rc Hrc) as [m ->]. simpl.
    by rewrite activateSplitView_data, activateSplitView_heap,
      activateSplitView_selectedTab.
Qed.

(** [updateSplitView] of a grouped tab returns when [currentView] is sound:
    it activates the group found, after deactivating the active group when
    the tab is not one of its members. *)
Lemma updateSplitView_grouped st t k g :
  find_group st (Some t) = Some (k, g) → currentView_valid st →
  ∃ st0, updateSplitView (Some t) st = Normal (activateSplitView g t st0) ∧
         _data st0 = _data st ∧ heap st0 = heap st ∧
         selectedTab st0 = selectedTab st ∧
         (st0 = st ∨
          ∃ rc, data_at st (currentView st) = Some rc ∧
                (t ∉ tabs (deref st rc)) ∧ deactivateSplitView st = Normal st0).
Proof.
  intros Hf [Hnone|[rc Hrc]].
  - exists st. split_and!; [|done..|by left].
    apply (updateSplitView_activate st t k g Hf). left. lia.
  - destruct (decide (t ∈ tabs (deref st rc))) as [Hin|Hnin].
    + exists st. split_and!; [|done..|by left].
      apply (updateSplitView_activate st t k g Hf). right. eauto.
    + destruct (updateSplitView_switch st t k g rc Hf Hrc Hnin) as (st1 & Hd & Hu).
      exists st1. split; [done|].
      destruct (deactivateSplitView_eq st rc Hrc) as [mm Hmm].
      pose proof Hd as Hd'. rewrite Hmm in Hd'. injection Hd' as <-.
      split_and!; [done..|]. right. exists rc. by rewrite <- Hmm.
Qed.

(** From a sound [currentView], [updateSplitView] returns, and
    [currentView] is sound afterwards. *)
Lemma updateSplitView_returns tab st :
  currentView_valid st →
  ∃ st', updateSplitView tab st = Normal st' ∧ currentView_valid st'.
Proof.
  intros Hcv.
  assert (Hrest : ∃ st', (if decide (0 ≤ currentView st)
                          then deactivateSplitView st else Normal st) = Normal st'
                         ∧ currentView_valid st').
  { destruct Hcv as [Hnone|[r Hr]].
    - rewrite decide_False by lia. exists st. split; [done|by left].
    - case_decide; [|exists st; split; [done|right; by exists r]].
      destruct (deactivateSplitView_eq st r Hr) as [mm ->].
      eexists. split; [done|]. by left. }
  destruct tab as [t|]; [|exact Hrest].
  destruct (find_group st (Some t)) as [[k g]|] eqn:Hf.
  - destruct (updateSplitView_grouped st t k g Hf Hcv) as (st0 & -> & Hd0 & _).
    eexists. split; [done|]. right.
    rewrite activateSplitView_currentView, Hd0.
    rewrite (find_group_indexOf st t k g Hf).
    rewrite (data_at_of_nat (activateSplitView g t st0)).
    rewrite activateSplitView_data, Hd0.
    apply find_group_Some in Hf as (-> & _). by eexists.
  - unfold updateSplitView. rewrite Hf. exact Hrest.
Qed.

End Activation.

(** C8. For a group [g] of [this._data] and a member [t] of it, after
    [activateSplitView(g, t)]: [currentView] is the index of [g] in
    [this._data]; every member of [g] has its docshell active; and among the
    members of [g] the [split-active] attribute is on the container of [t]
    and on no other. *)
Theorem activateSplitView_spec (st : State) (g : nat) (t : Tab) :
  g ∈ _data st → t ∈ tabs (deref st g) →
  let st' := activateSplitView g t st in
  (∃ i, currentView st' = Z.of_nat i ∧ _data st' !! i = Some g ∧
        ∀ j, (j < i)%nat → _data st' !! j ≠ Some g) ∧
  (∀ m, m ∈ tabs (deref st' g) → docShellActive st' m = true) ∧
  (∀ m, m ∈ tabs (deref st' g) → splitActive st' m = true ↔ m = t).
Proof.
  intros Hg Ht st'. unfold st'.
  rewrite activateSplitView_deref. split_and!.
  - rewrite activateSplitView_currentView, activateSplitView_data.
    by apply indexOf_Some.
  - intros m Hm. by apply activateSplitView_members.
  - intros m Hm.
    destruct (activateSplitView_members g t st m Hm) as [_ ->].
    apply bool_decide_eq_true.
Qed.

Lemma activateSplitView_spec_witness :
  currentView (activateSplitView 0 1%nat split_ABCD) = 0 ∧
  docShellActive (activateSplitView 0 1%nat split_ABCD) 3%nat = true ∧
  (splitActive (activateSplitView 0 1%nat split_ABCD) 1%nat = true ↔ 1%nat = 1%nat) ∧
  (splitActive (activateSplitView 0 1%nat split_ABCD) 0%nat = true ↔ 0%nat = 1%nat).
Proof.
  assert (Hg : 0%nat ∈ _data split_ABCD) by (vm_compute; apply list_elem_of_here).
  assert (Hin : ∀ m, m ∈ [0; 1; 2; 3]%nat →
                m ∈ tabs (deref (activateSplitView 0 1%nat split_ABCD) 0%nat))
    by (intros m Hm; exact Hm).
  assert (H0 : 0%nat ∈ [0; 1; 2; 3]%nat) by repeat constructor.
  assert (H1 : 1%nat ∈ [0; 1; 2; 3]%nat) by repeat constructor.
  assert (H3 : 3%nat ∈ [0; 1; 2; 3]%nat) by repeat constructor.
  destruct (activateSplitView_spec split_ABCD 0%nat 1%nat Hg (Hin _ H1))
    as (_ & Hdoc & Hact).
  split_and!.
  - reflexivity.
  - exact (Hdoc 3%nat (Hin _ H3)).
  - exact (Hact 1%nat (Hin _ H1)).
  - exact (Hact 0%nat (Hin _ H0)).
Defined.

(** After [deactivateSplitView()] with a group active: [currentView] is
    none, the preference flag is off, and every member of the group that was
    active is docshell-inactive and without [split-active]. *)
Theorem deactivateSplitView_spec (st : State) (active : nat) :
  data_at st (currentView st) = Some active →
  ∃ st', deactivateSplitView st = Normal st' ∧
         currentView st' = -1 ∧ pref_working st' = false ∧
         attr_split_view (tabBrowserPanel st') = false ∧
         ∀ m, m ∈ tabs (deref st active) →
              docShellActive st' m = false ∧ splitActive st' m = false.
Proof.
  intros Hact. destruct (deactivateSplitView_eq st active Hact) as [mm Heq].
  eexists. split; [exact Heq|]. split_and!; [done..|].
  intros m Hm. by apply (deactivateSplitView_members st active _ m Hact Heq).
Qed.

Lemma deactivateSplitView_spec_witness :
  ∃ st', deactivateSplitView split_ABC = Normal st' ∧
         currentView st' = -1 ∧ pref_working st' = false ∧
         attr_split_view (tabBrowserPanel st') = false ∧
         ∀ m, m ∈ tabs (deref split_ABC 0%nat) →
              docShellActive st' m = false ∧ splitActive st' m = false.
Proof. apply (deactivateSplitView_spec split_ABC 0%nat). reflexivity. Defined.

(** ** Activating twice *)

Section Twice.

Implicit Types (st sa sb : State) (o : TabObject) (x t : Tab) (ts : list Tab).

(** Two runs of the same loop, side by side. *)
Lemma applyFlexBoxLayout_from_rel (R : TabObject → TabObject → Prop)
    ft a x ts i sa sb :
  (∀ j o o', R o o' →
     R (applyFlexBoxLayout_tab ft a j x o) (applyFlexBoxLayout_tab ft a j x o')) →
  R (tabObject sa x) (tabObject sb x) →
  R (tabObject (applyFlexBoxLayout_from i ts ft a sa) x)
    (tabObject (applyFlexBoxLayout_from i ts ft a sb) x).
Proof.
  intros HR. revert i sa sb; induction ts as [|t ts IH]; intros i sa sb H; [done|].
  simpl. apply IH. rewrite !tabObject_update_tab.
  destruct (decide (x = t)) as [->|]; [by apply HR|done].
Qed.

Lemma applyFlexBoxLayout_from_rel_in (Rin Rout : TabObject → TabObject → Prop)
    ft a x ts i sa sb :
  (∀ j o o', Rin o o' →
     Rout (applyFlexBoxLayout_tab ft a j x o) (applyFlexBoxLayout_tab ft a j x o')) →
  (∀ j o o', Rout o o' →
     Rout (applyFlexBoxLayout_tab ft a j x o) (applyFlexBoxLayout_tab ft a j x o')) →
  x ∈ ts →
  Rin (tabObject sa x) (tabObject sb x) →
  Rout (tabObject (applyFlexBoxLayout_from i ts ft a sa) x)
       (tabObject (applyFlexBoxLayout_from i ts ft a sb) x).
Proof.
  intros Hin Hout. revert i sa sb; induction ts as [|t ts IH];
    intros i sa sb Hx H; [by inversion Hx|].
  simpl. destruct (decide (x = t)) as [->|Hne].
  - apply applyFlexBoxLayout_from_rel; [done|].
    rewrite !tabObject_update_tab, !decide_True by done. by apply Hin.
  - apply elem_of_cons in Hx as [?|Hx]; [done|].
    apply IH; [done|]. by rewrite !tabObject_update_tab, !decide_False.
Qed.

Lemma foldl_update_tab_rel (R : TabObject → TabObject → Prop)
    (G : TabObject → TabObject) x ts sa sb :
  (∀ o o', R o o' → R (G o) (G o')) →
  R (tabObject sa x) (tabObject sb x) →
  R (tabObject (foldl (λ s tab, update_tab tab G s) sa ts) x)
    (tabObject (foldl (λ s tab, update_tab tab G s) sb ts) x).
Proof.
  intros HR. revert sa sb; induction ts as [|t ts IH]; intros sa sb H; [done|].
  simpl. apply IH. rewrite !tabObject_update_tab.
  destruct (decide (x = t)) as [->|]; [by apply HR|done].
Qed.

Lemma foldl_update_tab_rel_in (Rin Rout : TabObject → TabObject → Prop)
    (G : TabObject → TabObject) x ts sa sb :
  (∀ o o', Rin o o' → Rout (G o) (G o')) →
  (∀ o o', Rout o o' → Rout (G o) (G o')) →
  x ∈ ts →
  Rin (tabObject sa x) (tabObject sb x) →
  Rout (tabObject (foldl (λ s tab, update_tab tab G s) sa ts) x)
       (tabObject (foldl (λ s tab, update_tab tab G s) sb ts) x).
Proof.
  intros Hin Hout. revert sa sb; induction ts as [|t ts IH];
    intros sa sb Hx H; [by inversion Hx|].
  simpl. destruct (decide (x = t)) as [->|Hne].
  - apply foldl_update_tab_rel; [done|].
    rewrite !tabObject_update_tab, !decide_True by done. by apply Hin.
  - apply elem_of_cons in Hx as [?|Hx]; [done|].
    apply IH; [done|]. by rewrite !tabObject_update_tab, !decide_False.
Qed.

Lemma string_of_uint_not_empty (d : Decimal.uint) : NilZero.string_of_uint d ≠ "".
Proof. by destruct d. Qed.

Lemma setProperty_keeps_Some p v (a : Css.attribute) :
  is_Some a → is_Some (Css.setProperty p v a).
Proof.
  intros Ha. unfold Css.setProperty. cbv zeta.
  destruct (decide (_ = Css.block a)); [done|by eexists].
Qed.

Lemma not_layout_property p :
  p ∉ layout_properties ↔
  p ≠ "flex" ∧ p ≠ "order" ∧ p ≠ "-moz-subtree-hidden-only-visually" ∧
  p ≠ "visibility" ∧ p ∉ Css.flex_longhands.
Proof.
  unfold layout_properties, Css.flex_longhands. rewrite !not_elem_of_cons.
  split; [intros (?&?&?&?&?&?&?&?)|intros (?&?&?&?&?&?&?&?)]; split_and!; done.
Qed.

Lemma flex_longhand_cases p :
  p ∈ Css.flex_longhands →
  p ≠ "flex" ∧ p ≠ "order" ∧ p ≠ "-moz-subtree-hidden-only-visually" ∧
  p ≠ "visibility".
Proof.
  unfold Css.flex_longhands. intros H.
  repeat (apply elem_of_cons in H as [->|H]; [done|]).
  by apply elem_of_nil in H.
Qed.

(** What the layout of a tab declares: [flex] and [order], with the
    longhands of [flex] overwritten, and the rest as it was. *)
Lemma declared_layout (k : string) (a : Css.attribute) p :
  k ≠ "" →
  Css.declared (Css.setProperty "order" k (Css.setProperty "flex" "1" a)) p =
  if decide (p = "order") then Some k
  else if decide (p = "flex") then Some "1"
  else if bool_decide (p ∈ Css.flex_longhands) then None
  else Css.declared a p.
Proof.
  intros Hk. rewrite !declared_setProperty.
  rewrite (decide_False (P := k = "")) by done.
  rewrite (css_ends_other "order") by
    (done || (intros H; by apply flex_longhand_cases in H as (_ & ? & _))).
  rewrite css_ends_flex. by repeat case_decide.
Qed.

(** The layout of one tab assigns the same to both sides. *)
Lemma layout_tab_related a j x o o' :
  untouched_equal o o' →
  laid_out_equal (applyFlexBoxLayout_tab "flex" a j x o)
                 (applyFlexBoxLayout_tab "flex" a j x o').
Proof.
  intros [Hdeck Hdecl].
  unfold laid_out_equal, untouched_equal, applyFlexBoxLayout_tab, styleContainer.
  simpl. split_and!; try done.
  - intros p Hp. pose proof Hp as (Hf & Ho & _ & _ & Hl)%not_layout_property.
    rewrite !declared_layout by apply string_of_uint_not_empty.
    rewrite !decide_False, bool_decide_eq_false_2 by done. by apply Hdecl.
  - by rewrite !declared_layout by apply string_of_uint_not_empty.
  - by rewrite !declared_layout by apply string_of_uint_not_empty.
  - intros p Hp. pose proof (flex_longhand_cases p Hp) as (Hf & Ho & _).
    rewrite !declared_layout by apply string_of_uint_not_empty.
    by rewrite !decide_False, bool_decide_eq_true_2 by done.
  - apply setProperty_keeps_Some, setProperty_is_Some. done.
  - apply setProperty_keeps_Some, setProperty_is_Some. done.
Qed.

Lemma laid_out_untouched o o' : laid_out_equal o o' → untouched_equal o o'.
Proof. by intros [? _]. Qed.

(** So does the docshell loop, once both sides have a style attribute. *)
Lemma docshell_tab_related o o' :
  laid_out_equal o o' →
  activated_equal (setTabsDocShellState_object true o)
                  (setTabsDocShellState_object true o').
Proof.
  intros ([Hdeck Hdecl] & Hsv & Hact & Hanim & Hclick & Hflex & Horder & Hlong
          & [text Ht] & [text' Ht']).
  unfold activated_equal, visibly_same_tab, setTabsDocShellState_object.
  simpl. rewrite Ht, Ht'. split_and!; try done; try (by eexists).
  intros p. rewrite !declared_style_template.
  destruct (decide (p = "visibility")); [done|].
  destruct (decide (p = "-moz-subtree-hidden-only-visually")); [done|].
  rewrite <- Ht, <- Ht'.
  destruct (decide (p = "flex")) as [->|]; [done|].
  destruct (decide (p = "order")) as [->|]; [done|].
  destruct (decide (p ∈ Css.flex_longhands)); [by apply Hlong|].
  apply Hdecl. by apply not_layout_property.
Qed.

Lemma docshell_tab_activated o o' :
  activated_equal o o' →
  activated_equal (setTabsDocShellState_object true o)
                  (setTabsDocShellState_object true o').
Proof.
  intros ((Hsv & Hsp & Hdoc & Hsplit & Hact & Hanim & Hdeck & Hclick & Hdecl)
          & [text Ht] & [text' Ht']).
  unfold activated_equal, visibly_same_tab, setTabsDocShellState_object.
  simpl. rewrite Ht, Ht'. split_and!; try done; try (by eexists).
  intros p. rewrite !declared_style_template.
  repeat case_decide; try done.
  rewrite <- Ht, <- Ht'. apply Hdecl.
Qed.

(** Activation leaves alone what it does not write. *)
Lemma layout_tab_untouched ft a j x o o0 :
  untouched_equal o o0 →
  untouched_equal (applyFlexBoxLayout_tab ft a j x o) o0.
Proof.
  intros [Hdeck Hdecl].
  unfold untouched_equal, applyFlexBoxLayout_tab, styleContainer.
  case_decide; simpl; (split; [done|]); [|done].
  intros p Hp. pose proof Hp as (Hf & Ho & _ & _ & Hl)%not_layout_property.
  rewrite declared_layout by apply string_of_uint_not_empty.
  rewrite !decide_False, bool_decide_eq_false_2 by done. by apply Hdecl.
Qed.

Lemma declared_style_template_other (a : Css.attribute) p :
  p ∉ layout_properties →
  Css.declared (Some (style_template a)) p = Css.declared a p.
Proof.
  intros (_ & _ & Hh & Hv & _)%not_layout_property.
  destruct a as [text|].
  - by rewrite declared_style_template, !decide_False.
  - unfold Css.declared, Css.block, Css.parse. simpl.
    by rewrite decide_False.
Qed.

Lemma docshell_tab_untouched o o0 :
  untouched_equal o o0 →
  untouched_equal (setTabsDocShellState_object true o) o0.
Proof.
  intros [Hdeck Hdecl].
  unfold untouched_equal, setTabsDocShellState_object. simpl.
  split; [done|]. intros p Hp.
  rewrite declared_style_template_other by done. by apply Hdecl.
Qed.

Lemma visibly_same_tab_refl o : visibly_same_tab o o.
Proof. unfold visibly_same_tab, same_declarations. by split_and!. Qed.

Lemma untouched_equal_refl o : untouched_equal o o.
Proof. by split. Qed.

(** Activation as its two loops over the members. *)
Lemma activateSplitView_loops g t st :
  ∃ s', tabObjects s' = tabObjects st ∧
        activateSplitView g t st =
        setTabsDocShellState (tabs (deref st g)) true
          (applyFlexBoxLayout_from 0 (tabs (deref st g))
             (if decide (flexType (deref st g) = "") then "flex"
              else flexType (deref st g)) t s').
Proof.
  eexists. split; [|unfold activateSplitView, applyFlexBoxLayout; reflexivity].
  done.
Qed.

Lemma activateSplitView_untouched g t st x :
  untouched_equal (tabObject (activateSplitView g t st) x) (tabObject st x).
Proof.
  destruct (activateSplitView_loops g t st) as (s' & Hs' & ->).
  unfold setTabsDocShellState.
  apply (foldl_update_tab_rel (λ o _, untouched_equal o (tabObject st x))
           (setTabsDocShellState_object true) x (tabs (deref st g)) _ st).
  { intros o _. apply docshell_tab_untouched. }
  apply (applyFlexBoxLayout_from_rel (λ o _, untouched_equal o (tabObject st x))
           _ t x (tabs (deref st g)) 0%nat s' st).
  { intros j o _. apply layout_tab_untouched. }
  unfold tabObject. rewrite Hs'. apply untouched_equal_refl.
Qed.

(** Activating the same group for the same tab a second time changes
    nothing that can be seen. *)
Lemma activateSplitView_twice g t st :
  flexType (deref st g) = "flex" →
  visibly_same (activateSplitView g t (activateSplitView g t st))
               (activateSplitView g t st).
Proof.
  intros Hflex.
  destruct (activateSplitView_eq g t st) as [m1 H1].
  destruct (activateSplitView_eq g t (activateSplitView g t st)) as [m2 H2].
  unfold visibly_same.
  split_and!; try (rewrite H2, H1; done).
  clear m1 m2 H1 H2.
  intros x. destruct (decide (x ∈ tabs (deref st g))) as [Hin|Hnin].
  - pose proof (activateSplitView_untouched g t st x) as Hun.
    destruct (activateSplitView_loops g t (activateSplitView g t st))
      as (s1 & Hs1 & ->).
    rewrite activateSplitView_deref, Hflex in *.
    rewrite decide_False by done.
    destruct (activateSplitView_loops g t st) as (s0 & Hs0 & Heq).
    rewrite Hflex, decide_False in Heq by done.
    rewrite Heq. unfold setTabsDocShellState.
    apply (foldl_update_tab_rel_in laid_out_equal activated_equal
             (setTabsDocShellState_object true) x (tabs (deref st g)));
      [apply docshell_tab_related|apply docshell_tab_activated|done|].
    apply (applyFlexBoxLayout_from_rel_in untouched_equal laid_out_equal
             "flex" t x (tabs (deref st g)) 0%nat);
      [intros; by apply layout_tab_related
      |intros; by apply layout_tab_related, laid_out_untouched|done|].
    unfold tabObject in *. by rewrite Hs1, Hs0.
  - rewrite activateSplitView_others by (by rewrite activateSplitView_deref).
    apply visibly_same_tab_refl.
Qed.

End Twice.

Section UpdateTwice.

Implicit Types (st : State) (t : Tab).

Lemma find_group_ext st st' tab :
  _data st' = _data st → heap st' = heap st →
  find_group st' tab = find_group st tab.
Proof.
  intros Hd Hh. destruct tab as [t|]; [|done].
  unfold find_group, deref. by rewrite Hd, Hh.
Qed.

Lemma find_group_member st t r :
  r ∈ _data st → t ∈ tabs (deref st r) →
  ∃ k g, find_group st (Some t) = Some (k, g).
Proof.
  intros Hr Ht. destruct (find_group st (Some t)) as [[k g]|] eqn:Hf; [eauto|].
  destruct (proj1 (find_group_None st t) Hf r Hr Ht).
Qed.

End UpdateTwice.

(** C6, as stated, fails on the text of the [style] attribute: every
    activation appends the two visibility declarations to what is there.
    With {A,B} active, the container of A carries them twice after one
    [updateSplitView(A)] and three times after two. *)
Lemma updateSplitView_twice_counterexample :
  data_at split_AB (currentView split_AB) = Some 0%nat ∧
  0%nat ∈ tabs (deref split_AB 0%nat) ∧
  ∃ st1 st2,
    updateSplitView (Some 0%nat) split_AB = Normal st1 ∧
    updateSplitView (Some 0%nat) st1 = Normal st2 ∧
    styleOf st1 0%nat =
      Some [Css.Decl "flex" "1"; Css.Decl "order" "0";
            Css.Decl "-moz-subtree-hidden-only-visually" "0";
            Css.Decl "visibility" "visible !important";
            Css.Decl "-moz-subtree-hidden-only-visually" "0";
            Css.Decl "visibility" "visible !important"] ∧
    styleOf st2 0%nat =
      Some [Css.Decl "flex" "1"; Css.Decl "order" "0";
            Css.Decl "-moz-subtree-hidden-only-visually" "0";
            Css.Decl "visibility" "visible !important";
            Css.Decl "-moz-subtree-hidden-only-visually" "0";
            Css.Decl "visibility" "visible !important";
            Css.Decl "-moz-subtree-hidden-only-visually" "0";
            Css.Decl "visibility" "visible !important"] ∧
    styleOf st2 0%nat ≠ styleOf st1 0%nat ∧
    st2 ≠ st1.
Proof.
  split; [reflexivity|]. split; [vm_compute; repeat constructor|].
  eexists. eexists.
  split; [vm_compute; reflexivity|].
  split; [vm_compute; reflexivity|].
  split; [reflexivity|]. split; [reflexivity|].
  split.
  - vm_compute. discriminate.
  - intros H. apply (f_equal (λ s, styleOf s 0%nat)) in H.
    vm_compute in H. discriminate.
Qed.

(** C6, amended. For a tab of the active group, in a state whose groups
    have the flex type [splitTabs] gives them, two calls of
    [updateSplitView] in a row both return, and the second changes nothing
    that can be seen: groups, [currentView], panel, preference flag and
    selected tab are equal, and so are, for every tab, the flags, the
    docshell state, the container attributes, class and listener, and the
    declared value of every inline style property.  (The text of the
    members' [style] attributes is not part of this.) *)
Theorem updateSplitView_twice (st : State) (t : Tab) (active : nat) :
  data_at st (currentView st) = Some active →
  t ∈ tabs (deref st active) →
  (∀ r, r ∈ _data st → flexType (deref st r) = "flex") →
  ∃ st1 st2,
    updateSplitView (Some t) st = Normal st1 ∧
    updateSplitView (Some t) st1 = Normal st2 ∧
    visibly_same st2 st1.
Proof.
  intros Hact Ht Hflex.
  assert (Hin : active ∈ _data st).
  { unfold data_at in Hact. case_decide; [|done].
    by eapply list_elem_of_lookup_2. }
  destruct (find_group_member st t active Hin Ht) as (k & g & Hf).
  pose proof Hf as (Hk & Htg & _)%find_group_Some.
  exists (activateSplitView g t st),
         (activateSplitView g t (activateSplitView g t st)).
  split_and!.
  - apply (updateSplitView_activate st t k g Hf). right. eauto.
  - apply (updateSplitView_activate _ t k g).
    + rewrite (find_group_ext st (activateSplitView g t st));
        [done|apply activateSplitView_data|apply activateSplitView_heap].
    + right. exists g.
      rewrite activateSplitView_currentView, (find_group_indexOf st t k g Hf).
      rewrite (data_at_of_nat (activateSplitView g t st) k).
      by rewrite activateSplitView_data, activateSplitView_deref.
  - apply activateSplitView_twice. apply Hflex.
    by eapply list_elem_of_lookup_2.
Qed.

Lemma updateSplitView_twice_witness :
  ∃ st1 st2,
    updateSplitView (Some 1%nat) split_ABC = Normal st1 ∧
    updateSplitView (Some 1%nat) st1 = Normal st2 ∧
    visibly_same st2 st1.
Proof.
  apply (updateSplitView_twice split_ABC 1%nat 0%nat).
  - reflexivity.
  - vm_compute. repeat constructor.
  - intros r Hr. vm_compute in Hr. apply list_elem_of_singleton in Hr as ->.
    reflexivity.
Defined.

(** ** Tabs of no group *)

Lemma ungrouped_split_AB : ungrouped split_AB 2%nat.
Proof.
  intros r Hr. vm_compute in Hr. apply list_elem_of_singleton in Hr as ->.
  vm_compute. intros H. repeat (apply elem_of_cons in H as [H|H]; [done|]).
  by apply elem_of_nil in H.
Qed.

Lemma ungrouped_constructed (t : Tab) : ungrouped constructed t.
Proof. intros r Hr. vm_compute in Hr. by apply elem_of_nil in Hr. Qed.

(** C3, as stated, fails for [updateSplitView]: with the group of A and B
    active, [updateSplitView] of a tab C of no group deactivates the group. *)
Lemma updateSplitView_ungrouped_counterexample :
  ungrouped split_AB 2%nat ∧
  currentView split_AB = 0 ∧
  docShellActive split_AB 0%nat = true ∧
  ∃ st', updateSplitView (Some 2%nat) split_AB = Normal st' ∧
         st' ≠ split_AB ∧
         currentView st' = -1 ∧
         docShellActive st' 0%nat = false ∧
         pref_working st' = false.
Proof.
  split_and!; [apply ungrouped_split_AB|reflexivity..|].
  eexists. split; [vm_compute; reflexivity|].
  split_and!; [|reflexivity..].
  intros H. apply (f_equal currentView) in H. vm_compute in H. done.
Qed.

(** C3, amended. For a tab of no group: [handleTabClose] returns with the
    state unchanged; [updateSplitView] returns with the state unchanged when
    no group is active; and when [currentView] is the index of a group,
    [updateSplitView] returns normally having done exactly what
    [deactivateSplitView] does: [currentView] is -1 afterwards and the
    preference flag is off, while the groups and their members stay. *)
Theorem ungrouped_tab_events (st : State) (t : Tab) (forUnsplit : bool) :
  ungrouped st t →
  handleTabClose t forUnsplit st = Normal st ∧
  (currentView st < 0 → updateSplitView (Some t) st = Normal st) ∧
  (is_Some (data_at st (currentView st)) →
   ∃ st', updateSplitView (Some t) st = Normal st' ∧
          deactivateSplitView st = Normal st' ∧
          currentView st' = -1 ∧ pref_working st' = false ∧
          _data st' = _data st ∧ heap st' = heap st ∧
          selectedTab st' = selectedTab st).
Proof.
  intros Hu. apply find_group_None in Hu.
  split_and!.
  - unfold handleTabClose. by rewrite Hu.
  - intros Hcv. unfold updateSplitView. rewrite Hu.
    by rewrite decide_False by lia.
  - intros [r Hr]. unfold updateSplitView. rewrite Hu.
    assert (0 ≤ currentView st) as Hcv.
    { unfold data_at in Hr. by case_decide. }
    rewrite decide_True by done.
    destruct (deactivateSplitView_eq st r Hr) as [m ->].
    eexists. split_and!; reflexivity.
Qed.

Lemma ungrouped_tab_events_witness :
  handleTabClose 2%nat false split_AB = Normal split_AB ∧
  updateSplitView (Some 2%nat) constructed = Normal constructed.
Proof.
  split.
  - apply (ungrouped_tab_events split_AB 2%nat false ungrouped_split_AB).
  - apply (ungrouped_tab_events constructed 2%nat false (ungrouped_constructed _)).
    reflexivity.
Defined.

(** ** Splitting *)

(** C4 (defect).  [splitTabs] looks for a tab of an existing group through
    the [splitView] flag: it takes the first input tab that carries the flag
    and looks up the group of that one tab only.  The flag goes stale:
    closing C while {C,D} is not the active group removes the group without
    resetting D (closing C while {C,D} is active does reset D), so D is in
    no group and still flagged.  From there [splitTabs([A, D])] re-activates
    {A,B} and creates nothing, as the claim says, but [splitTabs([D, A])]
    stops at D, finds no group for it and creates {D,A}: A is in two groups.
    The menu command does the same with D as the context tab and A
    selected. *)
Theorem splitTabs_stale_flag_second_group :
  memberships closed_C = [[0; 1]]%nat ∧
  currentView closed_C = 0 ∧
  find_group closed_C (Some 3%nat) = None ∧
  splitView (tabObject closed_C 3%nat) = true ∧
  splitView (tabObject (state_of (handleTabClose 2%nat false split_AB_CD)) 3%nat)
    = false ∧
  (∃ st', splitTabs [0; 3]%nat closed_C = Normal st' ∧
          memberships st' = [[0; 1]]%nat) ∧
  (∃ st', splitTabs [3; 0]%nat closed_C = Normal st' ∧
          memberships st' = [[0; 1]; [3; 0]]%nat ∧
          length (_data st') ≠ length (_data closed_C) ∧
          ¬ groups_disjoint st') ∧
  (∃ st', contextSplitTabs 3%nat (set_selectedTab (Some 0%nat) closed_C)
          = Some (Normal st') ∧
          memberships st' = [[0; 1]; [3; 0]]%nat).
Proof.
  split_and!; [reflexivity..| | |].
  - eexists. split; [vm_compute; reflexivity|]. reflexivity.
  - eexists. split; [vm_compute; reflexivity|].
    split_and!; [reflexivity|vm_compute; lia|].
    intros Hdis.
    assert (H : 0%nat = 1%nat); [|done].
    apply (Hdis 0%nat 1%nat 0%nat 2%nat 0%nat);
      [reflexivity|reflexivity|vm_compute; repeat constructor..].
  - eexists. split; [vm_compute; reflexivity|]. reflexivity.
Qed.

(** The path of [splitTabs] that creates nothing.  When the first input tab
    that carries the [splitView] flag belongs to a group, and [currentView]
    is none or an index of [this._data], the call returns normally,
    activates the first group that contains that tab with that tab as the
    active one, and creates nothing: [this._data] and every group object are
    what they were. *)
Theorem splitTabs_existing_group (st : State) (ts : list Tab) (i : nat) (t : Tab) :
  ts !! i = Some t →
  splitView (tabObject st t) = true →
  (∀ j t', ts !! j = Some t' → (j < i)%nat → splitView (tabObject st t') ≠ true) →
  ¬ ungrouped st t →
  currentView_valid st →
  ∃ k g st',
    find_group st (Some t) = Some (k, g) ∧
    splitTabs ts st = Normal st' ∧
    _data st' = _data st ∧ heap st' = heap st ∧
    memberships st' = memberships st ∧
    currentView st' = Z.of_nat k ∧
    (∀ m, m ∈ tabs (deref st g) →
          docShellActive st' m = true ∧ (splitActive st' m = true ↔ m = t)).
Proof.
  intros Hi Hflag Hfirst Hgrouped Hcv.
  assert (Hfind : list_find (λ tab, splitView (tabObject st tab) = true) ts
                  = Some (i, t)) by (by apply list_find_Some).
  destruct (find_group st (Some t)) as [[k g]|] eqn:Hg;
    [|destruct Hgrouped; exact (proj1 (find_group_None st t) Hg)].
  assert (Hact : ∀ st1, _data st1 = _data st → heap st1 = heap st →
            let st' := activateSplitView g t st1 in
            _data st' = _data st ∧ heap st' = heap st ∧
            memberships st' = memberships st ∧
            currentView st' = Z.of_nat k ∧
            (∀ m, m ∈ tabs (deref st g) →
               docShellActive st' m = true ∧ (splitActive st' m = true ↔ m = t))).
  { intros st1 Hd Hh st'. unfold st'.
    assert (Hderef : ∀ r, deref st1 r = deref st r)
      by (intros r; unfold deref; by rewrite Hh).
    split_and!.
    - by rewrite activateSplitView_data.
    - by rewrite activateSplitView_heap.
    - unfold memberships. rewrite activateSplitView_data, Hd.
      apply map_ext. intros r. by rewrite activateSplitView_deref, Hderef.
    - rewrite activateSplitView_currentView, Hd.
      by apply (find_group_indexOf st t).
    - intros m Hm. rewrite <- Hderef in Hm.
      destruct (activateSplitView_members g t st1 m Hm) as [-> ->].
      split; [done|]. apply bool_decide_eq_true. }
  exists k, g. unfold splitTabs. rewrite Hfind, Hg.
  destruct Hcv as [Hnone|[rc Hrc]].
  - eexists. split; [done|]. split.
    + apply (updateSplitView_activate st t k g Hg). left. lia.
    + by apply Hact.
  - destruct (decide (t ∈ tabs (deref st rc))) as [Hin|Hnin].
    + eexists. split; [done|]. split.
      * apply (updateSplitView_activate st t k g Hg). right. eauto.
      * by apply Hact.
    + destruct (updateSplitView_switch st t k g rc Hg Hrc Hnin)
        as (st1 & Hd & ->).
      eexists. split; [done|]. split; [done|].
      destruct (deactivateSplitView_eq st rc Hrc) as [mm Hmm].
      rewrite Hmm in Hd. injection Hd as <-. by apply Hact.
Qed.

Lemma splitTabs_existing_group_witness :
  ∃ k g st',
    find_group split_AB_CD (Some 1%nat) = Some (k, g) ∧
    splitTabs [4; 1]%nat split_AB_CD = Normal st' ∧
    _data st' = _data split_AB_CD ∧ heap st' = heap split_AB_CD ∧
    memberships st' = memberships split_AB_CD ∧
    currentView st' = Z.of_nat k ∧
    (∀ m, m ∈ tabs (deref split_AB_CD g) →
          docShellActive st' m = true ∧ (splitActive st' m = true ↔ m = 1%nat)).
Proof.
  apply (splitTabs_existing_group split_AB_CD [4; 1]%nat 1 1%nat).
  - reflexivity.
  - reflexivity.
  - intros j t' Hj Hlt. assert (j = 0)%nat as -> by lia.
    injection Hj as <-. vm_compute. discriminate.
  - intros Hu. apply (Hu 0%nat).
    + vm_compute. repeat constructor.
    + vm_compute. repeat constructor.
  - right. by eexists.
Defined.

Section Creation.

Implicit Types (st : State) (ts : list Tab).

(** With no input tab in a group, [splitTabs] pushes a new group object,
    whatever the flags say and however the activation that follows ends. *)
Lemma splitTabs_creates ts st :
  (∀ t, t ∈ ts → ungrouped st t) →
  _data (state_of (splitTabs ts st)) = _data st ++ [length (heap st)] ∧
  heap (state_of (splitTabs ts st)) = heap st ++ [mkGroup ts "flex"].
Proof.
  intros Hu. unfold splitTabs.
  set (create := updateSplitView _ _).
  assert (Hc : _data (state_of create) = _data st ++ [length (heap st)] ∧
               heap (state_of create) = heap st ++ [mkGroup ts "flex"]).
  { unfold create.
    destruct (updateSplitView_frame (head ts)
      (set_selectedTab (head ts)
         (set_data (_data (set_heap (heap st ++ [mkGroup ts "flex"]) st) ++
                    [length (heap st)])
            (set_heap (heap st ++ [mkGroup ts "flex"]) st))))
      as (-> & -> & _). done. }
  destruct (list_find _ ts) as [[j e]|] eqn:Hfind; [|done].
  apply list_find_Some in Hfind as (Hj & _ & _).
  assert (He : find_group st (Some e) = None).
  { apply find_group_None. apply Hu. by eapply list_elem_of_lookup_2. }
  by rewrite He.
Qed.

Lemma memberships_push st st1 ts :
  references_allocated st →
  _data st1 = _data st ++ [length (heap st)] →
  heap st1 = heap st ++ [mkGroup ts "flex"] →
  memberships st1 = memberships st ++ [ts] ∧ references_allocated st1 ∧
  (∀ t, ungrouped st t → t ∉ ts → ungrouped st1 t).
Proof.
  intros Hal Hd Hh.
  assert (Hold : ∀ r, r ∈ _data st → deref st1 r = deref st r).
  { intros r Hr. unfold deref. rewrite Hh.
    rewrite !list_lookup_total_alt, lookup_app_l; [done|by apply Hal]. }
  assert (Hnew : deref st1 (length (heap st)) = mkGroup ts "flex").
  { unfold deref. rewrite Hh, list_lookup_total_alt.
    by rewrite list_lookup_middle. }
  split_and!.
  - unfold memberships. rewrite Hd, map_app. simpl. rewrite Hnew. simpl.
    f_equal. apply map_ext_in. intros r Hr%list_elem_of_In.
    by rewrite Hold.
  - intros r. rewrite Hd, Hh, length_app. simpl.
    intros [Hr| ->%list_elem_of_singleton]%elem_of_app; [|lia].
    specialize (Hal r Hr). lia.
  - intros t Hu Hnt r. rewrite Hd.
    intros [Hr| ->%list_elem_of_singleton]%elem_of_app.
    + rewrite Hold by done. by apply Hu.
    + by rewrite Hnew.
Qed.

Lemma currentView_valid_ext st st' :
  currentView st' = currentView st →
  (∀ i r, _data st !! i = Some r → _data st' !! i = Some r) →
  currentView_valid st → currentView_valid st'.
Proof.
  intros Hcv Hd [Hnone|[r Hr]]; [left; congruence|].
  right. exists r. unfold data_at in *. rewrite Hcv.
  case_decide; [|done]. by apply Hd.
Qed.

(** From a sound [currentView], [splitTabs] returns on either of its paths,
    and [currentView] is sound afterwards. *)
Lemma splitTabs_returns ts st :
  currentView_valid st →
  ∃ st', splitTabs ts st = Normal st' ∧ currentView_valid st'.
Proof.
  intros Hcv. unfold splitTabs.
  set (st2 := set_selectedTab (head ts) _).
  assert (Hcv2 : currentView_valid st2).
  { apply (currentView_valid_ext st); [done| |done].
    intros i r Hi. by apply lookup_app_l_Some. }
  pose proof (updateSplitView_returns (head ts) st2 Hcv2) as Hcreate.
  destruct (list_find _ ts) as [[j e]|]; [|done].
  destruct (find_group st (Some e)); [|done].
  by apply updateSplitView_returns.
Qed.

Lemma calls_cons_Normal op ops st st1 :
  op st = Normal st1 → calls (op :: ops) st = calls ops st1.
Proof. intros H. unfold calls. simpl. by rewrite H. Qed.

End Creation.

(** C5. A sequence of [splitTabs] calls whose inputs share no tab with each
    other nor with the groups already there appends one group per call:
    the number of groups grows by the number of calls (and equals it when
    there were none before), the groups already there keep their members, and
    the i-th new group has exactly the tabs of the i-th input, in input
    order.  When [currentView] is none or an index at the start, every call
    of the sequence returns normally. *)
Theorem splitTabs_disjoint_sequence (inputs : list (list Tab)) (st : State) :
  references_allocated st →
  (∀ ts t, ts ∈ inputs → t ∈ ts → ungrouped st t) →
  (∀ i j tsi tsj t, inputs !! i = Some tsi → inputs !! j = Some tsj →
                    t ∈ tsi → t ∈ tsj → i = j) →
  let st' := events (map splitTabs inputs) st in
  length (_data st') = (length (_data st) + length inputs)%nat ∧
  memberships st' = memberships st ++ inputs ∧
  (_data st = [] → length (_data st') = length inputs ∧ memberships st' = inputs) ∧
  (currentView_valid st → calls (map splitTabs inputs) st = Normal st').
Proof.
  intros Hal Hu Hdisj st'.
  assert (Hboth : memberships st' = memberships st ++ inputs ∧
            (currentView_valid st →
             calls (map splitTabs inputs) st = Normal st')).
  { unfold st'. clear st'.
    revert st Hal Hu. induction inputs as [|ts inputs IH]; intros st Hal Hu.
    - simpl. by rewrite app_nil_r.
    - change (events (map splitTabs (ts :: inputs)) st)
        with (events (map splitTabs inputs) (state_of (splitTabs ts st))).
      assert (Hts : ∀ t, t ∈ ts → ungrouped st t).
      { intros t Ht. apply (Hu ts); [apply list_elem_of_here|done]. }
      destruct (splitTabs_creates ts st Hts) as [Hd Hh].
      destruct (memberships_push st _ ts Hal Hd Hh) as (Hm & Hal1 & Hu1).
      destruct (IH) with (st := state_of (splitTabs ts st)) as [IHm IHr];
        [|done|..].
      + intros i j tsi tsj t Hi Hj Hti Htj.
        assert (S i = S j) by (by apply (Hdisj (S i) (S j) tsi tsj t)).
        lia.
      + intros ts' t Hts' Ht. apply Hu1.
        * apply (Hu ts'); [by apply list_elem_of_further|done].
        * intros Hin. apply list_elem_of_lookup in Hts' as [j Hj].
          assert (0 = S j)%nat by (by apply (Hdisj 0%nat (S j) ts ts' t)).
          lia.
      + split.
        * rewrite IHm, Hm, <- app_assoc. done.
        * intros Hcv.
          destruct (splitTabs_returns ts st Hcv) as (st1 & Hst1 & Hcv1).
          cbn [map]. rewrite (calls_cons_Normal _ _ st st1 Hst1).
          rewrite Hst1 in IHr |- *. by apply IHr. }
  destruct Hboth as [Hmem Hret].
  assert (Hlen : length (_data st') = (length (_data st) + length inputs)%nat).
  { apply (f_equal length) in Hmem.
    unfold memberships in Hmem.
    by rewrite length_app, !length_map in Hmem. }
  split_and!; [done..| |done].
  intros Hnil. rewrite Hlen, Hmem. unfold memberships. by rewrite Hnil.
Qed.

Lemma splitTabs_disjoint_sequence_witness :
  length (_data (events (map splitTabs [[4; 5]; [6; 7; 8]]%nat) split_AB_CD)) = 4%nat ∧
  memberships (events (map splitTabs [[4; 5]; [6; 7; 8]]%nat) split_AB_CD) =
    [[0; 1]; [2; 3]; [4; 5]; [6; 7; 8]]%nat.
Proof.
  destruct (splitTabs_disjoint_sequence [[4; 5]; [6; 7; 8]]%nat split_AB_CD)
    as (Hlen & Hmem & _ & _).
  - intros r Hr. vm_compute in Hr.
    apply elem_of_cons in Hr as [->|Hr]; [vm_compute; lia|].
    apply list_elem_of_singleton in Hr as ->. vm_compute; lia.
  - intros ts t Hts Ht r Hr Hin. vm_compute in Hr.
    assert (Hge : (4 ≤ t)%nat).
    { apply elem_of_cons in Hts as [->|Hts].
      - apply elem_of_cons in Ht as [->|Ht]; [lia|].
        apply list_elem_of_singleton in Ht as ->. lia.
      - apply list_elem_of_singleton in Hts as ->.
        repeat (apply elem_of_cons in Ht as [->|Ht]; [lia|]).
        by apply elem_of_nil in Ht. }
    apply elem_of_cons in Hr as [->|Hr].
    + vm_compute in Hin.
      repeat (apply elem_of_cons in Hin as [->|Hin]; [lia|]).
      by apply elem_of_nil in Hin.
    + apply list_elem_of_singleton in Hr as ->. vm_compute in Hin.
      repeat (apply elem_of_cons in Hin as [->|Hin]; [lia|]).
      by apply elem_of_nil in Hin.
  - intros i j tsi tsj t Hi Hj Hti Htj.
    destruct i as [|[|i]]; destruct j as [|[|j]]; try done;
      simpl in Hi, Hj; injection Hi as <-; injection Hj as <-;
      repeat (apply elem_of_cons in Hti as [->|Hti];
              [repeat (apply elem_of_cons in Htj as [Htj|Htj]; [lia|]);
               by apply elem_of_nil in Htj|]);
      by apply elem_of_nil in Hti.
  - split; [exact Hlen|exact Hmem].
Defined.

(** A sound [currentView] stays sound under [updateSplitView] and
    [splitTabs], which then return normally, whatever their argument. *)
Theorem currentView_valid_kept (st : State) :
  currentView_valid st →
  (∀ tab, ∃ st', updateSplitView tab st = Normal st' ∧ currentView_valid st') ∧
  (∀ ts, ∃ st', splitTabs ts st = Normal st' ∧ currentView_valid st').
Proof.
  intros Hcv. split.
  - intros tab. by apply updateSplitView_returns.
  - intros ts. by apply splitTabs_returns.
Qed.

Lemma currentView_valid_kept_witness :
  (∀ tab, ∃ st', updateSplitView tab split_AB_CD = Normal st' ∧
                 currentView_valid st') ∧
  (∀ ts, ∃ st', splitTabs ts split_AB_CD = Normal st' ∧ currentView_valid st').
Proof.
  apply (currentView_valid_kept split_AB_CD). right. by eexists.
Defined.

(** ** Closing a tab of a group *)

Section Closing.

Implicit Types (st : State) (g : nat) (t m a : Tab).

Lemma elem_of_remaining (t m : Tab) (l1 l2 : list Tab) :
  m ∈ l1 ++ l2 → m ∈ l1 ++ t :: l2.
Proof.
  rewrite !elem_of_app, elem_of_cons. intros [?|?]; auto.
Qed.

Lemma indexOf_splice (t : Tab) (l1 l2 : list Tab) :
  t ∉ l1 → splice1 (indexOf t (l1 ++ t :: l2)) (l1 ++ t :: l2) = l1 ++ l2.
Proof.
  intros Ht.
  assert (Hi : indexOf t (l1 ++ t :: l2) = Z.of_nat (length l1)).
  { apply indexOf_first; [by rewrite list_lookup_middle|].
    intros j Hj Hl. rewrite lookup_app_l in Hl by done.
    apply Ht. by eapply list_elem_of_lookup_2. }
  rewrite Hi. unfold splice1.
  rewrite decide_False by lia.
  rewrite length_app. simpl.
  rewrite Z.min_l by lia. rewrite Nat2Z.id. apply delete_middle.
Qed.

(** A reference that yields members is allocated. *)
Lemma member_allocated st g t :
  t ∈ tabs (deref st g) → (g < length (heap st))%nat.
Proof.
  intros Ht. destruct (decide (g < length (heap st))%nat) as [|Hge]; [done|].
  unfold deref in Ht. rewrite list_lookup_total_alt in Ht.
  rewrite lookup_ge_None_2 in Ht by lia. by apply elem_of_nil in Ht.
Qed.

Lemma handleTabClose_unfold st t forUnsplit i g :
  find_group st (Some t) = Some (i, g) →
  ∃ l1 l2,
    tabs (deref st g) = l1 ++ t :: l2 ∧ (t ∉ l1) ∧
    handleTabClose t forUnsplit st =
      if decide (length (l1 ++ l2) < 2)%nat
      then removeGroup i (spliced t forUnsplit g (l1 ++ l2) st)
      else updateSplitView (last (l1 ++ l2)) (spliced t forUnsplit g (l1 ++ l2) st).
Proof.
  intros Hf. pose proof Hf as (Hi & Ht & _)%find_group_Some.
  destruct (list_elem_of_split_l _ _ Ht) as (l1 & l2 & Hl & Hnot).
  exists l1, l2. split_and!; [done..|].
  unfold handleTabClose. rewrite Hf. unfold removeTabFromGroup. rewrite Hi.
  rewrite Hl, indexOf_splice by done. reflexivity.
Qed.

Lemma spliced_data t fu g l st : _data (spliced t fu g l st) = _data st.
Proof. done. Qed.
Lemma spliced_currentView t fu g l st :
  currentView (spliced t fu g l st) = currentView st.
Proof. done. Qed.
Lemma spliced_data_at t fu g l st z :
  data_at (spliced t fu g l st) z = data_at st z.
Proof. done. Qed.
Lemma spliced_deref_eq t fu g l st :
  (g < length (heap st))%nat → tabs (deref (spliced t fu g l st) g) = l.
Proof.
  intros Hg. unfold deref, spliced. simpl.
  by rewrite list_lookup_total_insert_eq.
Qed.
Lemma spliced_deref_ne t fu g l st r :
  r ≠ g → deref (spliced t fu g l st) r = deref st r.
Proof.
  intros Hr. unfold deref, spliced. simpl.
  by rewrite list_lookup_total_insert_ne.
Qed.

Lemma removeGroup_eq st i g :
  _data st !! i = Some g →
  ∃ st', removeGroup i st = Normal st' ∧
         _data st' = delete i (_data st) ∧ heap st' = heap st ∧
         selectedTab st' = selectedTab st ∧
         currentView st' =
           (if decide (currentView st = Z.of_nat i) then -1 else currentView st).
Proof.
  intros Hi. unfold removeGroup. case_decide as Hcv.
  - destruct (resetSplitView_eq st g) as [mm ->].
    { by rewrite Hcv, data_at_of_nat. }
    eexists. split; [reflexivity|]. done.
  - eexists. split; [reflexivity|]. done.
Qed.

(** In a state with disjoint groups, two positions of [this._data] that hold
    groups with a common member are one position. *)
Lemma disjoint_other_group st i g t j r :
  groups_disjoint st → _data st !! i = Some g → t ∈ tabs (deref st g) →
  _data st !! j = Some r → j ≠ i →
  r ≠ g ∧ ∀ m, m ∈ tabs (deref st g) → m ∉ tabs (deref st r).
Proof.
  intros Hdis Hi Ht Hj Hne. split.
  - intros ->. by apply Hne, (Hdis j i g g t).
  - intros m Hm Hm'. by apply Hne, (Hdis j i r g m).
Qed.

(** After the splice, the new last member is found in the shrunken group. *)
Lemma spliced_find_group st t fu i g l1 l2 a :
  groups_disjoint st →
  find_group st (Some t) = Some (i, g) →
  tabs (deref st g) = l1 ++ t :: l2 →
  a ∈ (l1 ++ l2) →
  find_group (spliced t fu g (l1 ++ l2) st) (Some a) = Some (i, g).
Proof.
  intros Hdis (Hi & Ht & Hmin)%find_group_Some Hl Ha.
  assert (Hag : a ∈ tabs (deref st g)).
  { rewrite Hl. by apply elem_of_remaining. }
  apply find_group_Some. rewrite spliced_data. split_and!; [done| |].
  - rewrite spliced_deref_eq; [done|by eapply member_allocated].
  - intros j r Hj Hlt.
    destruct (disjoint_other_group st i g t j r) as [Hr Hnot]; [done..|lia|].
    rewrite spliced_deref_ne by done. by apply Hnot.
Qed.

End Closing.

Section ClosingTheorems.

Implicit Types (st : State) (g : nat) (t m a : Tab).

Lemma elem_of_delete_lookup {A} (l : list A) (i : nat) (x : A) :
  x ∈ delete i l → ∃ j, j ≠ i ∧ l !! j = Some x.
Proof.
  intros [k Hk]%list_elem_of_lookup.
  destruct (decide (k < i)%nat).
  - exists k. rewrite list_lookup_delete_lt in Hk by done. split; [lia|done].
  - exists (S k). rewrite list_lookup_delete_ge in Hk by lia. split; [lia|done].
Qed.

Lemma shrunk_three (l1 l2 : list Tab) (t : Tab) :
  (3 ≤ length (l1 ++ t :: l2))%nat →
  ¬ (length (l1 ++ l2) < 2)%nat ∧ ∃ a, last (l1 ++ l2) = Some a ∧ a ∈ l1 ++ l2.
Proof.
  rewrite !length_app. simpl. intros Hlen. split; [lia|].
  destruct (last (l1 ++ l2)) as [a|] eqn:Hlast.
  - exists a. split; [done|]. by apply last_Some_elem_of.
  - apply last_None in Hlast. apply (f_equal length) in Hlast.
    rewrite length_app in Hlast. simpl in Hlast. lia.
Qed.

End ClosingTheorems.

(** Closing by the size of the group.  In a state where no tab belongs to
    two groups, let [t] be a tab of the group [g].  If [g] has two members, [handleTabClose] of [t] returns
    with [g] gone from [this._data], and no group is found for either former
    member afterwards.  If [g] has three or more members and [currentView]
    is none or an index, the call returns with [this._data] as it was, with
    [g] holding exactly the other tabs in their order (the first occurrence
    of [t] is the one removed) and every other group untouched, and with the
    layout recomputed by [activateSplitView] for [g] with the new last
    member as the active tab: [g] is the current view, all its members are
    docshell-active, and [split-active] is on the new last member only. *)
Theorem handleTabClose_by_group_size (st : State) (t : Tab) (forUnsplit : bool)
    (i g : nat) :
  groups_disjoint st →
  find_group st (Some t) = Some (i, g) →
  (length (tabs (deref st g)) = 2%nat →
   ∃ st', handleTabClose t forUnsplit st = Normal st' ∧
          _data st' = delete i (_data st) ∧
          (g ∉ _data st') ∧
          ∀ m, m ∈ tabs (deref st g) → find_group st' (Some m) = None) ∧
  ((3 ≤ length (tabs (deref st g)))%nat → currentView_valid st →
   ∃ l1 l2 a st0 st',
     tabs (deref st g) = l1 ++ t :: l2 ∧ (t ∉ l1) ∧
     last (l1 ++ l2) = Some a ∧
     handleTabClose t forUnsplit st = Normal st' ∧
     _data st' = _data st ∧
     tabs (deref st' g) = l1 ++ l2 ∧
     (∀ r, r ≠ g → deref st' r = deref st r) ∧
     st' = activateSplitView g a st0 ∧
     currentView st' = Z.of_nat i ∧
     ∀ m, m ∈ tabs (deref st' g) →
          docShellActive st' m = true ∧ (splitActive st' m = true ↔ m = a)).
Proof.
  intros Hdis Hf. pose proof Hf as (Hi & Ht & Hmin)%find_group_Some.
  pose proof (member_allocated st g t Ht) as Halloc.
  destruct (handleTabClose_unfold st t forUnsplit i g Hf)
    as (l1 & l2 & Hl & Hnot & Hclose).
  split.
  - intros Hlen. rewrite Hl, length_app in Hlen. simpl in Hlen.
    rewrite decide_True in Hclose by (rewrite length_app; lia).
    destruct (removeGroup_eq (spliced t forUnsplit g (l1 ++ l2) st) i g Hi)
      as (st' & Hrm & Hd & Hh & _).
    exists st'. rewrite Hclose. split_and!; [done..| |].
    + rewrite Hd, spliced_data. intros (j & Hj & Hlj)%elem_of_delete_lookup.
      by destruct (disjoint_other_group st i g t j g Hdis Hi Ht Hlj Hj).
    + intros m Hm. apply find_group_None. intros r.
      rewrite Hd, spliced_data. intros (j & Hj & Hlj)%elem_of_delete_lookup.
      destruct (disjoint_other_group st i g t j r Hdis Hi Ht Hlj Hj) as [Hr Hdisj].
      assert (deref st' r = deref st r) as ->.
      { unfold deref. rewrite Hh. by apply spliced_deref_ne. }
      by apply Hdisj.
  - intros Hlen Hcv. rewrite Hl in Hlen.
    destruct (shrunk_three l1 l2 t Hlen) as (Hge & a & Hlast & Ha).
    rewrite decide_False, Hlast in Hclose by done.
    set (st2 := spliced t forUnsplit g (l1 ++ l2) st) in *.
    assert (Hf2 : find_group st2 (Some a) = Some (i, g))
      by (by apply (spliced_find_group st t forUnsplit i g l1 l2 a)).
    destruct (updateSplitView_grouped st2 a i g Hf2 Hcv)
      as (st0 & Hup & Hd0 & Hh0 & _ & _).
    assert (Hderef : ∀ r, deref (activateSplitView g a st0) r = deref st2 r).
    { intros r. rewrite activateSplitView_deref. unfold deref. by rewrite Hh0. }
    assert (Htabs : tabs (deref (activateSplitView g a st0) g) = l1 ++ l2).
    { rewrite Hderef. by apply spliced_deref_eq. }
    exists l1, l2, a, st0, (activateSplitView g a st0).
    rewrite Hclose, Hup. split_and!; [done..| | | | |done| |].
    + done.
    + by rewrite activateSplitView_data, Hd0.
    + done.
    + intros r Hr. rewrite Hderef. by apply spliced_deref_ne.
    + rewrite activateSplitView_currentView, Hd0.
      by apply (find_group_indexOf st2 a).
    + intros m Hm. rewrite activateSplitView_deref in Hm.
      destruct (activateSplitView_members g a st0 m Hm) as [-> ->].
      split; [done|]. apply bool_decide_eq_true.
Qed.

(** Closing in a group that is not the active one.  In a state where no
    tab belongs to two groups, with the group at [currentView] active and [t] a tab of another group [h] that has three
    or more members, [handleTabClose] of [t] returns with [currentView]
    moved to [h]: the members of the group that was active are
    docshell-inactive and without [split-active], the remaining members of
    [h] are docshell-active, and [split-active] is on the new last member of
    [h] only. *)
Theorem handleTabClose_inactive_group_activates (st : State) (t : Tab)
    (forUnsplit : bool) (active : nat) (i h : nat) :
  groups_disjoint st →
  data_at st (currentView st) = Some active →
  find_group st (Some t) = Some (i, h) →
  currentView st ≠ Z.of_nat i →
  (3 ≤ length (tabs (deref st h)))%nat →
  ∃ a st',
    handleTabClose t forUnsplit st = Normal st' ∧
    last (tabs (deref st' h)) = Some a ∧
    currentView st' = Z.of_nat i ∧
    currentView st' ≠ currentView st ∧
    (∀ m, m ∈ tabs (deref st active) →
          docShellActive st' m = false ∧ splitActive st' m = false) ∧
    (∀ m, m ∈ tabs (deref st' h) →
          docShellActive st' m = true ∧ (splitActive st' m = true ↔ m = a)).
Proof.
  intros Hdis Hact Hf Hne Hlen.
  pose proof Hf as (Hi & Ht & Hmin)%find_group_Some.
  pose proof (member_allocated st h t Ht) as Halloc.
  destruct (handleTabClose_unfold st t forUnsplit i h Hf)
    as (l1 & l2 & Hl & Hnot & Hclose).
  rewrite Hl in Hlen.
  destruct (shrunk_three l1 l2 t Hlen) as (Hge & a & Hlast & Ha).
  rewrite decide_False, Hlast in Hclose by done.
  set (st2 := spliced t forUnsplit h (l1 ++ l2) st) in *.
  assert (Hf2 : find_group st2 (Some a) = Some (i, h))
    by (by apply (spliced_find_group st t forUnsplit i h l1 l2 a)).
  (* the active group sits at another position *)
  assert (Hcv : 0 ≤ currentView st) by (unfold data_at in Hact; by case_decide).
  assert (Hj : _data st !! Z.to_nat (currentView st) = Some active).
  { unfold data_at in Hact. by rewrite decide_True in Hact. }
  destruct (disjoint_other_group st i h t (Z.to_nat (currentView st)) active)
    as [Hrne Hdisj]; [done..|lia|].
  assert (Hsub : ∀ m, m ∈ l1 ++ l2 → m ∈ tabs (deref st h)).
  { intros m Hm. rewrite Hl. by apply elem_of_remaining. }
  assert (Hact2 : data_at st2 (currentView st2) = Some active) by done.
  assert (Hderef2 : deref st2 active = deref st active)
    by (by apply spliced_deref_ne).
  destruct (updateSplitView_switch st2 a i h active Hf2 Hact2)
    as (st1 & Hde & Hup).
  { rewrite Hderef2. by apply Hdisj, Hsub. }
  destruct (deactivateSplitView_eq st2 active Hact2) as [mm Hmm].
  assert (Hd1 : _data st1 = _data st ∧ heap st1 = heap st2).
  { rewrite Hmm in Hde. by injection Hde as <-. }
  destruct Hd1 as [Hd1 Hh1].
  assert (Hderef : ∀ r, deref (activateSplitView h a st1) r = deref st2 r).
  { intros r. rewrite activateSplitView_deref. unfold deref. by rewrite Hh1. }
  assert (Htabs : tabs (deref (activateSplitView h a st1) h) = l1 ++ l2).
  { rewrite Hderef. by apply spliced_deref_eq. }
  exists a, (activateSplitView h a st1). rewrite Hclose, Hup.
  assert (Hnew : currentView (activateSplitView h a st1) = Z.of_nat i).
  { rewrite activateSplitView_currentView, Hd1.
    by apply (find_group_indexOf st2 a). }
  split_and!; [done|by rewrite Htabs|done|by rewrite Hnew| |].
  - intros m Hm.
    assert (Hm1 : m ∉ tabs (deref st1 h)).
    { rewrite activateSplitView_deref in Htabs. rewrite Htabs.
      intros Hin. by apply (Hdisj m (Hsub m Hin)). }
    unfold docShellActive, splitActive.
    rewrite activateSplitView_others by done.
    apply (deactivateSplitView_members st2 active st1 m Hact2 Hde).
    by rewrite Hderef2.
  - intros m Hm. rewrite activateSplitView_deref in Hm.
    destruct (activateSplitView_members h a st1 m Hm) as [-> ->].
    split; [done|]. apply bool_decide_eq_true.
Qed.

(** Membership in a written-out list, by cases. *)
Ltac elem_cases H :=
  repeat (apply elem_of_cons in H as [H|H]; [try subst|]);
  [..|by apply elem_of_nil in H].

Lemma groups_disjoint_one_group (st : State) (g : nat) :
  _data st = [g] → groups_disjoint st.
Proof.
  intros Hd i j ri rj t Hi Hj _ _. rewrite Hd in Hi, Hj.
  destruct i as [|i]; [|by destruct i].
  destruct j as [|j]; [done|by destruct j].
Qed.

Lemma groups_disjoint_split_CDE_AB : groups_disjoint split_CDE_AB.
Proof.
  intros i j ri rj t Hi Hj Hti Htj.
  assert (Hd : _data split_CDE_AB = [0; 1]%nat) by reflexivity.
  rewrite Hd in Hi, Hj.
  destruct i as [|[|i]]; destruct j as [|[|j]]; try done;
    simpl in Hi, Hj; injection Hi as <-; injection Hj as <-;
    vm_compute in Hti, Htj; elem_cases Hti; elem_cases Htj; done.
Qed.

Lemma handleTabClose_by_group_size_witness :
  (∃ st', handleTabClose 0%nat false split_AB = Normal st' ∧
          _data st' = delete 0%nat (_data split_AB) ∧
          (0%nat ∉ _data st') ∧
          ∀ m, m ∈ tabs (deref split_AB 0%nat) → find_group st' (Some m) = None) ∧
  (∃ l1 l2 a st0 st',
     tabs (deref split_ABC 0%nat) = l1 ++ 1%nat :: l2 ∧ (1%nat ∉ l1) ∧
     last (l1 ++ l2) = Some a ∧
     handleTabClose 1%nat false split_ABC = Normal st' ∧
     _data st' = _data split_ABC ∧
     tabs (deref st' 0%nat) = l1 ++ l2 ∧
     (∀ r, r ≠ 0%nat → deref st' r = deref split_ABC r) ∧
     st' = activateSplitView 0%nat a st0 ∧
     currentView st' = Z.of_nat 0 ∧
     ∀ m, m ∈ tabs (deref st' 0%nat) →
          docShellActive st' m = true ∧ (splitActive st' m = true ↔ m = a)).
Proof.
  split.
  - apply (handleTabClose_by_group_size split_AB 0%nat false 0%nat 0%nat).
    + by apply (groups_disjoint_one_group _ 0%nat).
    + reflexivity.
    + reflexivity.
  - apply (handleTabClose_by_group_size split_ABC 1%nat false 0%nat 0%nat).
    + by apply (groups_disjoint_one_group _ 0%nat).
    + reflexivity.
    + vm_compute. lia.
    + right. by eexists.
Defined.

Lemma handleTabClose_inactive_group_activates_witness :
  ∃ a st',
    handleTabClose 2%nat false split_CDE_AB = Normal st' ∧
    last (tabs (deref st' 0%nat)) = Some a ∧
    currentView st' = Z.of_nat 0 ∧
    currentView st' ≠ currentView split_CDE_AB ∧
    (∀ m, m ∈ tabs (deref split_CDE_AB 1%nat) →
          docShellActive st' m = false ∧ splitActive st' m = false) ∧
    (∀ m, m ∈ tabs (deref st' 0%nat) →
          docShellActive st' m = true ∧ (splitActive st' m = true ↔ m = a)).
Proof.
  apply (handleTabClose_inactive_group_activates split_CDE_AB 2%nat false
           1%nat 0%nat 0%nat).
  - apply groups_disjoint_split_CDE_AB.
  - reflexivity.
  - reflexivity.
  - vm_compute. discriminate.
  - vm_compute. lia.
Defined.

(** ** Scenarios of the specification *)

(** Split A and B, then close A as an ordinary close: the group is removed
    and [currentView] is none; A is hidden and docshell-inactive; the style
    attribute of B's container is gone. *)
Theorem close_one_of_two :
  memberships split_AB = [[0; 1]]%nat ∧ currentView split_AB = 0 ∧
  ∃ st', handleTabClose 0%nat false split_AB = Normal st' ∧
         memberships st' = [] ∧ currentView st' = -1 ∧
         pref_working st' = false ∧
         styleOf st' 0%nat = Some [Css.Decl "display" "none"] ∧
         docShellActive st' 0%nat = false ∧
         styleOf st' 1%nat = None ∧
         splitView (tabObject st' 1%nat) = false.
Proof.
  split_and!; [reflexivity..|].
  eexists. split; [vm_compute; reflexivity|]. split_and!; reflexivity.
Qed.

(** Split A, B and C, then close B: the group holds A and C, C is the
    active member of the recomputed layout, and [currentView] stays 0. *)
Theorem close_one_of_three :
  memberships split_ABC = [[0; 1; 2]]%nat ∧ currentView split_ABC = 0 ∧
  ∃ st', handleTabClose 1%nat false split_ABC = Normal st' ∧
         memberships st' = [[0; 2]]%nat ∧ currentView st' = 0 ∧
         splitActive st' 2%nat = true ∧ splitActive st' 0%nat = false ∧
         docShellActive st' 0%nat = true ∧ docShellActive st' 2%nat = true ∧
         Css.declared (styleOf st' 0%nat) "order" = Some "0" ∧
         Css.declared (styleOf st' 2%nat) "order" = Some "1".
Proof.
  split_and!; [reflexivity..|].
  eexists. split; [vm_compute; reflexivity|]. split_and!; reflexivity.
Qed.

(** ** Removing a group that is not the active one *)

(** C1 (defect). [removeGroup] resets [currentView] only when the removed
    index is the active one; removing a group at a lower index shifts the
    active group down while [currentView] stays.  With {A,B} at index 0 and
    {C,D} active at index 1, closing A leaves one group and [currentView] 1:
    not an index any more, and the next [updateSplitView] throws.  With a
    third group {E,F} behind, [currentView] 1 becomes the index of {E,F},
    whose tabs are not docshell-active, while C and D still are. *)
Theorem handleTabClose_stale_currentView :
  (currentView_valid split_AB_CD ∧
   memberships split_AB_CD = [[0; 1]; [2; 3]]%nat ∧
   currentView split_AB_CD = 1 ∧
   ∃ st', handleTabClose 0%nat false split_AB_CD = Normal st' ∧
          memberships st' = [[2; 3]]%nat ∧
          currentView st' = 1 ∧
          data_at st' (currentView st') = None ∧
          ¬ currentView_valid st' ∧
          updateSplitView (Some 2%nat) st' = Throw st') ∧
  (memberships split_AB_CD_EF = [[0; 1]; [2; 3]; [4; 5]]%nat ∧
   currentView split_AB_CD_EF = 1 ∧
   ∃ st', handleTabClose 0%nat false split_AB_CD_EF = Normal st' ∧
          memberships st' = [[2; 3]; [4; 5]]%nat ∧
          currentView st' = 1 ∧
          docShellActive st' 4%nat = false ∧ docShellActive st' 5%nat = false ∧
          docShellActive st' 2%nat = true ∧ docShellActive st' 3%nat = true).
Proof.
  split.
  - split_and!; [right; by eexists|reflexivity..|].
    eexists. split; [vm_compute; reflexivity|].
    split_and!; [reflexivity..| |reflexivity].
    intros [Hcv|[r Hr]]; [vm_compute in Hcv|vm_compute in Hr]; done.
  - split_and!; [reflexivity..|].
    eexists. split; [vm_compute; reflexivity|].
    split_and!; reflexivity.
Qed.

(** ** Closing in the states the defects leave *)

(** C7 (defect).  What the claim says of [handleTabClose] holds where no tab
    belongs to two groups and [currentView] is none or an index, and the
    class leaves both: [splitTabs] can put a tab into a second group, and
    [removeGroup] can leave [currentView] behind.  With A in {A,B} and
    in {D,A}, closing A removes {A,B}, the first group found, and A is still
    found in {D,A}: the next [updateSplitView] for A activates that group.
    With {C,D,E} and {F,G} left and [currentView] 2, closing D takes D out
    of its group and then throws in [updateSplitView]: E, the new last
    member, is not made the active tab and nothing is laid out. *)
Theorem handleTabClose_after_defects :
  (memberships shared_A = [[0; 1]; [3; 0]]%nat ∧ currentView shared_A = 0 ∧
   ∃ st', handleTabClose 0%nat false shared_A = Normal st' ∧
          memberships st' = [[3; 0]]%nat ∧
          find_group st' (Some 0%nat) = Some (0%nat, 2%nat) ∧
          ∃ st'', updateSplitView (Some 0%nat) st' = Normal st'' ∧
                  currentView st'' = 0 ∧
                  splitView (tabObject st'' 0%nat) = true ∧
                  docShellActive st'' 0%nat = true) ∧
  (memberships stale_CDE_FG = [[2; 3; 4]; [5; 6]]%nat ∧
   currentView stale_CDE_FG = 2 ∧
   ∃ st', handleTabClose 3%nat false stale_CDE_FG = Throw st' ∧
          memberships st' = [[2; 4]; [5; 6]]%nat ∧
          currentView st' = 2 ∧
          splitActive st' 4%nat = false ∧
          docShellActive st' 4%nat = false ∧
          styleOf st' 4%nat = None).
Proof.
  split.
  - split_and!; [reflexivity..|].
    eexists. split; [vm_compute; reflexivity|].
    split_and!; [reflexivity..|].
    eexists. split; [vm_compute; reflexivity|]. split_and!; reflexivity.
  - split_and!; [reflexivity..|].
    eexists. split; [vm_compute; reflexivity|]. split_and!; reflexivity.
Qed.

(** C10 (defect).  The switch the claim describes happens where no tab
    belongs to two groups, which [splitTabs] does not keep.  With {A,B}
    active and A also in {D,A,E}, closing E calls [updateSplitView] for A,
    the new last member of {D,A}; the search finds {A,B} first, which is the
    active group, so nothing is deactivated and {D,A} is not activated:
    [currentView] stays 0, A and B stay docshell-active, D stays
    docshell-inactive. *)
Theorem handleTabClose_shared_tab_no_switch :
  memberships shared_A_three = [[0; 1]; [3; 0; 4]]%nat ∧
  currentView shared_A_three = 0 ∧
  ∃ st', handleTabClose 4%nat false shared_A_three = Normal st' ∧
         memberships st' = [[0; 1]; [3; 0]]%nat ∧
         currentView st' = 0 ∧
         docShellActive st' 0%nat = true ∧ docShellActive st' 1%nat = true ∧
         splitActive st' 0%nat = true ∧
         docShellActive st' 3%nat = false ∧ splitActive st' 3%nat = false.
Proof.
  split_and!; [reflexivity..|].
  eexists. split; [vm_compute; reflexivity|]. split_and!; reflexivity.
Qed.

(** ** Unsplitting *)

Section UnsplitTermination.

Implicit Types (st : State) (t : Tab) (g r : nat).

(** [handleTabClose] never makes a [tabs] array longer. *)
Lemma handleTabClose_lengths t forUnsplit st r :
  (length (tabs (deref (state_of (handleTabClose t forUnsplit st)) r))
   ≤ length (tabs (deref st r)))%nat.
Proof.
  destruct (find_group st (Some t)) as [[i g]|] eqn:Hf.
  - pose proof Hf as (Hi & Ht & _)%find_group_Some.
    destruct (handleTabClose_unfold st t forUnsplit i g Hf)
      as (l1 & l2 & Hl & _ & ->).
    set (st2 := spliced t forUnsplit g (l1 ++ l2) st).
    assert (H2 : (length (tabs (deref st2 r)) ≤ length (tabs (deref st r)))%nat).
    { destruct (decide (r = g)) as [->|Hne].
      - unfold st2. rewrite spliced_deref_eq by (by eapply member_allocated).
        rewrite Hl, !length_app. simpl. lia.
      - unfold st2. by rewrite spliced_deref_ne. }
    assert (Hh : heap (state_of
                (if decide (length (l1 ++ l2) < 2)%nat
                 then removeGroup i st2
                 else updateSplitView (last (l1 ++ l2)) st2)) = heap st2).
    { case_decide.
      - destruct (removeGroup_eq st2 i g Hi) as (st' & -> & _ & Hh & _). done.
      - apply updateSplitView_frame. }
    unfold deref at 1. rewrite Hh. exact H2.
  - unfold handleTabClose. by rewrite Hf.
Qed.

Lemma unsplit_loop_returns fuel g i st :
  (length (tabs (deref st g)) ≤ fuel + i)%nat →
  is_Some (unsplit_loop fuel g i st).
Proof.
  revert i st; induction fuel as [|fuel IH]; intros i st Hlen.
  - simpl. destruct (tabs (deref st g) !! i) eqn:Hi; [|by eexists].
    apply lookup_lt_Some in Hi. lia.
  - simpl. destruct (tabs (deref st g) !! i) eqn:Hi; [|by eexists].
    pose proof (handleTabClose_lengths t true st g) as Hle.
    destruct (handleTabClose t true st) as [st1|st1]; [|by eexists].
    simpl in Hle.
    destruct (IH (S i) st1) as [[visited c] ->]; [lia|]. by eexists.
Qed.

(** The loop of [unsplitCurrentView] ends within as many rounds as the
    group has members at the start: the call always returns or throws. *)
Lemma unsplitCurrentView_returns st : is_Some (unsplitCurrentView st).
Proof.
  unfold unsplitCurrentView, unsplitCurrentView_run.
  destruct (data_at st (currentView st)) as [g|]; [|by eexists].
  destruct (unsplit_loop_returns (length (tabs (deref st g))) g 0 st)
    as [[visited c] ->]; [lia|]. by eexists.
Qed.

End UnsplitTermination.

(** C9. With no group active ([currentView] is -1), [unsplitCurrentView()]
    does not return silently: [this._data[-1]] is undefined, reading its
    [tabs] throws, and nothing has been changed by then. *)
Theorem unsplitCurrentView_none_throws (st : State) :
  currentView st = -1 → unsplitCurrentView st = Some (Throw st).
Proof.
  intros Hcv. unfold unsplitCurrentView, unsplitCurrentView_run.
  rewrite data_at_negative by lia. reflexivity.
Qed.

Lemma unsplitCurrentView_none_throws_witness :
  currentView constructed = -1 ∧
  unsplitCurrentView constructed = Some (Throw constructed).
Proof.
  split; [reflexivity|].
  apply (unsplitCurrentView_none_throws constructed). reflexivity.
Defined.

(** C2 (defect). [unsplitCurrentView] walks the very array that
    [handleTabClose] splices, so every other member is stepped over.  For
    the active group {A,B,C,D} the handler is invoked for A and C only;
    the call returns with the group {B,D} still in [this._data] and still
    the active one, B and D still split and docshell-active.  The selected
    tab is what it was. *)
Theorem unsplitCurrentView_skips_members :
  memberships split_ABCD = [[0; 1; 2; 3]]%nat ∧
  currentView split_ABCD = 0 ∧
  ∃ st', unsplitCurrentView_run split_ABCD = Some ([0; 2]%nat, Normal st') ∧
         memberships st' = [[1; 3]]%nat ∧
         currentView st' = 0 ∧
         pref_working st' = true ∧
         splitView (tabObject st' 1%nat) = true ∧
         splitView (tabObject st' 3%nat) = true ∧
         docShellActive st' 1%nat = true ∧
         docShellActive st' 3%nat = true ∧
         selectedTab st' = selectedTab split_ABCD.
Proof.
  split_and!; [reflexivity..|].
  eexists. split; [vm_compute; reflexivity|].
  split_and!; reflexivity.
Qed.

(** With two members the second one is stepped over as well, but the group
    is dissolved all the same: removing A removes the group, and
    [resetSplitView] resets B. *)
Lemma unsplitCurrentView_two_members :
  ∃ st', unsplitCurrentView_run split_AB = Some ([0]%nat, Normal st') ∧
         memberships st' = [] ∧ currentView st' = -1 ∧
         splitView (tabObject st' 1%nat) = false.
Proof. eexists. split; [vm_compute; reflexivity|]. split_and!; reflexivity. Qed.

(** Whenever [unsplitCurrentView] returns, the selected tab is the one from
    before the call. *)
Lemma unsplitCurrentView_selectedTab (st st' : State) :
  unsplitCurrentView st = Some (Normal st') → selectedTab st' = selectedTab st.
Proof.
  unfold unsplitCurrentView, unsplitCurrentView_run.
  destruct (data_at st (currentView st)) as [g|]; [|done].
  destruct (unsplit_loop _ g 0 st) as [[v [s|s]]|]; simpl; [|done..].
  by intros [= <-].
Qed.

Lemma unsplitCurrentView_selectedTab_witness :
  ∃ st', unsplitCurrentView split_AB = Some (Normal st') ∧
         selectedTab st' = selectedTab split_AB.
Proof.
  eexists. split; [vm_compute; reflexivity|].
  apply (unsplitCurrentView_selectedTab split_AB). vm_compute. reflexivity.
Defined.

(** ** Resetting tabs *)

Section Resetting.

Implicit Types (st : State) (o : TabObject) (t m x : Tab) (ts : list Tab).

(** What [resetTabState] leaves of a tab's object after an unsplit: a plain
    tab. *)
Lemma resetTabState_object_unsplit o :
  resetTabState_object true o =
  mkTabObject false
    (mkBrowser false (docShellIsActive (linkedBrowser o))
       (mkContainer false
          (attr_split_active (container (linkedBrowser o)))
          (attr_split_anim (container (linkedBrowser o)))
          (class_deck_selected (container (linkedBrowser o)))
          (click_handleTabClick (container (linkedBrowser o))) None)).
Proof. reflexivity. Qed.

Lemma resetTabState_object_plain o : plain_tab (resetTabState_object true o).
Proof. by rewrite resetTabState_object_unsplit. Qed.

(** A loop whose body does to a tab what doing it twice does leaves every
    tab it passes as one application leaves it. *)
Lemma foldl_insert_idem (F : Tab → TabObject → TabObject) ts
    (objs : gmap Tab TabObject) x :
  (∀ o, F x (F x o) = F x o) → x ∈ ts →
  foldl (λ acc tab, <[tab := F tab (acc !!! tab)]> acc) objs ts !!! x
  = F x (objs !!! x).
Proof.
  intros Hidem. revert objs; induction ts as [|t ts IH]; intros objs Hx;
    [by inversion Hx|].
  simpl. destruct (decide (x ∈ ts)) as [Hin|Hnin].
  - rewrite IH by done. destruct (decide (x = t)) as [->|Hne].
    + by rewrite lookup_total_insert_eq, Hidem.
    + by rewrite lookup_total_insert_ne.
  - apply elem_of_cons in Hx as [->|Hx]; [|done].
    rewrite lookup_total_alt, foldl_insert_notin by done.
    by rewrite lookup_insert_eq.
Qed.

Lemma resetTabState_tabObject t forUnsplit st x :
  tabObject (resetTabState t forUnsplit st) x =
  if decide (x = t) then resetTabState_object forUnsplit (tabObject st t)
  else tabObject st x.
Proof. apply tabObject_update_tab. Qed.

(** [resetSplitView], member by member. *)
Lemma resetSplitView_tabObjects st r st1 :
  data_at st (currentView st) = Some r →
  resetSplitView st = Normal st1 →
  (∀ m, m ∈ tabs (deref st r) →
        tabObject st1 m = resetTabState_object true (tabObject st m)) ∧
  (∀ x, x ∉ tabs (deref st r) → tabObject st1 x = tabObject st x).
Proof.
  intros Hr Hreset. unfold resetSplitView in Hreset. rewrite Hr in Hreset.
  injection Hreset as <-. unfold resetTabState.
  rewrite (foldl_update_tab (λ _, resetTabState_object true)).
  unfold tabObject. simpl. split.
  - intros m Hm.
    by apply (foldl_insert_idem (λ _, resetTabState_object true)).
  - intros x Hx. rewrite !lookup_total_alt.
    by rewrite (foldl_insert_notin (λ _, resetTabState_object true)).
Qed.

End Resetting.

(** After [resetSplitView()] with a group active: [currentView] is none,
    the preference is off, and the panel has lost [split-view] and its
    [display] and [flexDirection] styles.  The group stays in [this._data]
    with its members.  Every member has lost the [splitView] flag, the
    [split] attribute and its whole [style] attribute; its docshell state,
    [split-active], [split-anim] and the click listener are what they were.
    No other tab is touched. *)
Theorem resetSplitView_spec (st : State) (active : nat) :
  data_at st (currentView st) = Some active →
  ∃ st', resetSplitView st = Normal st' ∧
    currentView st' = -1 ∧ pref_working st' = false ∧
    attr_split_view (tabBrowserPanel st') = false ∧
    style_display (tabBrowserPanel st') = "" ∧
    style_flexDirection (tabBrowserPanel st') = "" ∧
    _data st' = _data st ∧ heap st' = heap st ∧
    (∀ m, m ∈ tabs (deref st active) →
       splitView (tabObject st' m) = false ∧
       attr_split (container (linkedBrowser (tabObject st' m))) = false ∧
       styleOf st' m = None ∧
       docShellActive st' m = docShellActive st m ∧
       splitActive st' m = splitActive st m ∧
       attr_split_anim (container (linkedBrowser (tabObject st' m))) =
         attr_split_anim (container (linkedBrowser (tabObject st m))) ∧
       click_handleTabClick (container (linkedBrowser (tabObject st' m))) =
         click_handleTabClick (container (linkedBrowser (tabObject st m)))) ∧
    (∀ x, x ∉ tabs (deref st active) → tabObject st' x = tabObject st x).
Proof.
  intros Hact. destruct (resetSplitView_eq st active Hact) as [mm Heq].
  destruct (resetSplitView_tabObjects st active _ Hact Heq) as [Hmem Hoth].
  eexists. split; [exact Heq|]. split_and!; [done..| |done].
  intros m Hm. unfold styleOf, docShellActive, splitActive.
  rewrite (Hmem m Hm). by split_and!.
Qed.

Lemma resetSplitView_spec_witness :
  ∃ st', resetSplitView split_ABC = Normal st' ∧
    currentView st' = -1 ∧ pref_working st' = false ∧
    attr_split_view (tabBrowserPanel st') = false ∧
    style_display (tabBrowserPanel st') = "" ∧
    style_flexDirection (tabBrowserPanel st') = "" ∧
    _data st' = _data split_ABC ∧ heap st' = heap split_ABC ∧
    (∀ m, m ∈ tabs (deref split_ABC 0%nat) →
       splitView (tabObject st' m) = false ∧
       attr_split (container (linkedBrowser (tabObject st' m))) = false ∧
       styleOf st' m = None ∧
       docShellActive st' m = docShellActive split_ABC m ∧
       splitActive st' m = splitActive split_ABC m ∧
       attr_split_anim (container (linkedBrowser (tabObject st' m))) =
         attr_split_anim (container (linkedBrowser (tabObject split_ABC m))) ∧
       click_handleTabClick (container (linkedBrowser (tabObject st' m))) =
         click_handleTabClick (container (linkedBrowser (tabObject split_ABC m)))) ∧
    (∀ x, x ∉ tabs (deref split_ABC 0%nat) →
       tabObject st' x = tabObject split_ABC x).
Proof. apply (resetSplitView_spec split_ABC 0%nat). reflexivity. Defined.

(** ** One round of closing in the active group *)

Section ActiveGroup.

Implicit Types (st : State) (o : TabObject) (t m x a : Tab) (l p s : list Tab)
  (idx g : nat).

Lemma find_group_active st idx g l t :
  active_group st idx g l → t ∈ l → find_group st (Some t) = Some (idx, g).
Proof.
  intros (Hcv & Hidx & Hl & Hdis) Ht. apply find_group_Some.
  split_and!; [done|by rewrite Hl|].
  intros j r Hj Hlt Hin.
  assert (j = idx); [|lia].
  apply (Hdis j idx r g t); [done..|by rewrite Hl].
Qed.

Lemma groups_disjoint_shrink st st' :
  groups_disjoint st → _data st' = _data st →
  (∀ r t, t ∈ tabs (deref st' r) → t ∈ tabs (deref st r)) →
  groups_disjoint st'.
Proof.
  intros Hdis Hd Hsub i j ri rj t Hi Hj Hti Htj. rewrite Hd in Hi, Hj.
  apply (Hdis i j ri rj t); auto.
Qed.

Lemma groups_disjoint_delete st st' k :
  groups_disjoint st → _data st' = delete k (_data st) →
  (∀ r t, t ∈ tabs (deref st' r) → t ∈ tabs (deref st r)) →
  groups_disjoint st'.
Proof.
  intros Hdis Hd Hsub i j ri rj t Hi Hj Hti Htj. rewrite Hd in Hi, Hj.
  rewrite list_lookup_delete in Hi, Hj.
  repeat case_decide;
    match goal with
    | |- ?a = ?b =>
        first [ apply (Hdis a b ri rj t); by auto
              | assert (S a = S b) by (apply (Hdis (S a) (S b) ri rj t); auto); lia
              | assert (a = S b) by (apply (Hdis a (S b) ri rj t); auto); lia
              | assert (S a = b) by (apply (Hdis (S a) b ri rj t); auto); lia ]
    end.
Qed.

(** [handleTabClose] of a tab whose place in its group is known. *)
Lemma handleTabClose_at st t forUnsplit idx g p s :
  find_group st (Some t) = Some (idx, g) →
  tabs (deref st g) = p ++ t :: s → t ∉ p →
  handleTabClose t forUnsplit st =
    if decide (length (p ++ s) < 2)%nat
    then removeGroup idx (spliced t forUnsplit g (p ++ s) st)
    else updateSplitView (last (p ++ s)) (spliced t forUnsplit g (p ++ s) st).
Proof.
  intros Hf Hl Hnot. pose proof Hf as (Hi & _)%find_group_Some.
  unfold handleTabClose. rewrite Hf. unfold removeTabFromGroup. rewrite Hi.
  rewrite Hl, indexOf_splice by done. reflexivity.
Qed.

Lemma spliced_tabObject t forUnsplit g l st x :
  tabObject (spliced t forUnsplit g l st) x =
  if decide (x = t) then resetTabState_object forUnsplit (tabObject st t)
  else tabObject st x.
Proof. unfold spliced. by rewrite resetTabState_tabObject. Qed.

Lemma activateSplitView_splitView g t st m :
  m ∈ tabs (deref st g) →
  splitView (tabObject (activateSplitView g t st) m) = true.
Proof.
  intros Hm. unfold tabObject, activateSplitView.
  rewrite setTabsDocShellState_eq. simpl.
  apply (foldl_insert_preserved (λ _, setTabsDocShellState_object true)
           (λ o, splitView o = true)); [done|].
  unfold applyFlexBoxLayout.
  by apply (applyFlexBoxLayout_from_in (λ o, splitView o = true)).
Qed.

(** The group keeps two members or more: the tab is taken out and reset, and
    the group is laid out again with its last member as the active tab. *)
Lemma handleTabClose_active_shrinks st idx g p s t forUnsplit :
  active_group st idx g (p ++ t :: s) → NoDup (p ++ t :: s) →
  (2 ≤ length (p ++ s))%nat →
  ∃ st', handleTabClose t forUnsplit st = Normal st' ∧
    active_group st' idx g (p ++ s) ∧
    _data st' = _data st ∧ selectedTab st' = selectedTab st ∧
    pref_working st' = true ∧
    (∀ r, r ≠ g → deref st' r = deref st r) ∧
    tabObject st' t = resetTabState_object forUnsplit (tabObject st t) ∧
    (∀ x, x ∉ p ++ t :: s → tabObject st' x = tabObject st x) ∧
    (∀ m, m ∈ p ++ s →
       docShellActive st' m = true ∧ splitView (tabObject st' m) = true).
Proof.
  intros Hag Hnd Hlen. pose proof Hag as (Hcv & Hidx & Hl & Hdis).
  assert (Hnp : t ∉ p).
  { apply NoDup_app in Hnd as (_ & Hnd & _). intros Hin.
    apply (Hnd t Hin). apply list_elem_of_here. }
  assert (Hns : t ∉ p ++ s).
  { apply NoDup_app in Hnd as (_ & Hps & [Hts _]%NoDup_cons).
    intros [?|?]%elem_of_app; [done..]. }
  assert (Ht : t ∈ p ++ t :: s).
  { apply elem_of_app. right. apply list_elem_of_here. }
  pose proof (find_group_active st idx g _ t Hag Ht) as Hf.
  assert (Halloc : (g < length (heap st))%nat).
  { apply (member_allocated st g t). by rewrite Hl. }
  rewrite (handleTabClose_at st t forUnsplit idx g p s Hf Hl Hnp).
  rewrite decide_False by lia.
  destruct (last (p ++ s)) as [a|] eqn:Hlast.
  2:{ apply last_None in Hlast. rewrite Hlast in Hlen. simpl in Hlen. lia. }
  pose proof (last_Some_elem_of _ _ Hlast) as Ha.
  set (st2 := spliced t forUnsplit g (p ++ s) st).
  assert (Hf2 : find_group st2 (Some a) = Some (idx, g))
    by (by apply (spliced_find_group st t forUnsplit idx g p s a)).
  assert (Ht2 : tabs (deref st2 g) = p ++ s) by (by apply spliced_deref_eq).
  rewrite (updateSplitView_activate st2 a idx g Hf2).
  2:{ right. exists g. split; [|by rewrite Ht2].
      unfold st2. by rewrite spliced_data_at, spliced_currentView, Hcv, data_at_of_nat. }
  exists (activateSplitView g a st2).
  assert (Hderef : ∀ r, deref (activateSplitView g a st2) r = deref st2 r)
    by (intros r; apply activateSplitView_deref).
  split_and!.
  - done.
  - split_and!.
    + rewrite activateSplitView_currentView.
      by apply (find_group_indexOf st2 a).
    + by rewrite activateSplitView_data.
    + by rewrite Hderef.
    + apply (groups_disjoint_shrink st); [done|by rewrite activateSplitView_data|].
      intros r x. rewrite Hderef. destruct (decide (r = g)) as [->|Hr].
      * rewrite Ht2, Hl. apply elem_of_remaining.
      * unfold st2. by rewrite spliced_deref_ne.
  - by rewrite activateSplitView_data.
  - by rewrite activateSplitView_selectedTab.
  - by destruct (activateSplitView_eq g a st2) as [mm ->].
  - intros r Hr. rewrite Hderef. unfold st2. by rewrite spliced_deref_ne.
  - rewrite activateSplitView_others by (by rewrite Ht2).
    unfold st2. by rewrite spliced_tabObject, decide_True.
  - intros x Hx. rewrite activateSplitView_others.
    + unfold st2. rewrite spliced_tabObject, decide_False; [done|].
      intros ->. by apply Hx.
    + rewrite Ht2. intros Hin. by apply Hx, elem_of_remaining.
  - intros m Hm. rewrite <- Ht2 in Hm. split.
    + by apply activateSplitView_members.
    + by apply activateSplitView_splitView.
Qed.

(** Fewer than two members would be left: the group is removed, after
    [resetSplitView] has reset whoever is left in it. *)
Lemma handleTabClose_active_removes st idx g p s t forUnsplit :
  active_group st idx g (p ++ t :: s) → NoDup (p ++ t :: s) →
  (length (p ++ s) < 2)%nat →
  ∃ st', handleTabClose t forUnsplit st = Normal st' ∧
    _data st' = delete idx (_data st) ∧ currentView st' = -1 ∧
    pref_working st' = false ∧
    attr_split_view (tabBrowserPanel st') = false ∧
    selectedTab st' = selectedTab st ∧
    groups_disjoint st' ∧
    tabs (deref st' g) = p ++ s ∧
    (∀ r, r ≠ g → deref st' r = deref st r) ∧
    tabObject st' t = resetTabState_object forUnsplit (tabObject st t) ∧
    (∀ m, m ∈ p ++ s →
       tabObject st' m = resetTabState_object true (tabObject st m)) ∧
    (∀ x, x ∉ p ++ t :: s → tabObject st' x = tabObject st x).
Proof.
  intros Hag Hnd Hlen. pose proof Hag as (Hcv & Hidx & Hl & Hdis).
  assert (Hnp : t ∉ p).
  { apply NoDup_app in Hnd as (_ & Hnd & _). intros Hin.
    apply (Hnd t Hin). apply list_elem_of_here. }
  assert (Hns : t ∉ p ++ s).
  { apply NoDup_app in Hnd as (_ & Hps & [Hts _]%NoDup_cons).
    intros [?|?]%elem_of_app; [done..]. }
  assert (Ht : t ∈ p ++ t :: s).
  { apply elem_of_app. right. apply list_elem_of_here. }
  pose proof (find_group_active st idx g _ t Hag Ht) as Hf.
  assert (Halloc : (g < length (heap st))%nat).
  { apply (member_allocated st g t). by rewrite Hl. }
  rewrite (handleTabClose_at st t forUnsplit idx g p s Hf Hl Hnp).
  rewrite decide_True by done.
  set (st2 := spliced t forUnsplit g (p ++ s) st).
  assert (Ht2 : tabs (deref st2 g) = p ++ s) by (by apply spliced_deref_eq).
  assert (Hact2 : data_at st2 (currentView st2) = Some g).
  { unfold st2. by rewrite spliced_data_at, spliced_currentView, Hcv, data_at_of_nat. }
  unfold removeGroup.
  rewrite decide_True by (unfold st2; by rewrite spliced_currentView).
  destruct (resetSplitView_eq st2 g Hact2) as [mm Heq].
  destruct (resetSplitView_tabObjects st2 g _ Hact2 Heq) as [Hmem Hoth].
  rewrite Heq. simpl. eexists. split; [reflexivity|].
  rewrite Ht2 in Hmem, Hoth.
  split_and!; try done.
  - apply (groups_disjoint_delete st _ idx); [done..|].
    intros r x. unfold deref at 1. simpl.
    change (x ∈ tabs (deref st2 r) → x ∈ tabs (deref st r)).
    destruct (decide (r = g)) as [->|Hr].
    + rewrite Ht2, Hl. apply elem_of_remaining.
    + unfold st2. by rewrite spliced_deref_ne.
  - intros r Hr. unfold deref at 1. simpl.
    change (deref st2 r = deref st r). unfold st2. by rewrite spliced_deref_ne.
  - change (tabObject (mkState (delete idx (_data st2)) (-1) (heap st2) mm
              (mkPanel false "" "" (style_flexTemplateAreas (tabBrowserPanel st2)))
              false (selectedTab st2)) t = resetTabState_object forUnsplit (tabObject st t)).
    assert (Hsame : ∀ x, tabObject (mkState (delete idx (_data st2)) (-1) (heap st2) mm
              (mkPanel false "" "" (style_flexTemplateAreas (tabBrowserPanel st2)))
              false (selectedTab st2)) x
            = tabObject (mkState (_data st2) (-1) (heap st2) mm
              (mkPanel false "" "" (style_flexTemplateAreas (tabBrowserPanel st2)))
              false (selectedTab st2)) x) by done.
    rewrite Hsame, (Hoth t Hns). unfold st2.
    by rewrite spliced_tabObject, decide_True.
  - intros m Hm.
    change (tabObject (mkState (_data st2) (-1) (heap st2) mm
              (mkPanel false "" "" (style_flexTemplateAreas (tabBrowserPanel st2)))
              false (selectedTab st2)) m = resetTabState_object true (tabObject st m)).
    rewrite (Hmem m Hm). unfold st2. rewrite spliced_tabObject, decide_False; [done|].
    intros ->. done.
  - intros x Hx.
    change (tabObject (mkState (_data st2) (-1) (heap st2) mm
              (mkPanel false "" "" (style_flexTemplateAreas (tabBrowserPanel st2)))
              false (selectedTab st2)) x = tabObject st x).
    rewrite Hoth.
    + unfold st2. rewrite spliced_tabObject, decide_False; [done|].
      intros ->. by apply Hx.
    + intros Hin. by apply Hx, elem_of_remaining.
Qed.

End ActiveGroup.

(** ** The layout activation gives the members *)

Section Layout.

Implicit Types (st : State) (o : TabObject) (t m x a : Tab) (ts l p s : list Tab)
  (g k i : nat).

(** Each tab of a list without repetitions is laid out, and has its docshell
    state set, exactly once. *)
Lemma applyFlexBoxLayout_from_lookup ts : ∀ i k ft a st m,
  NoDup ts → ts !! k = Some m →
  tabObject (applyFlexBoxLayout_from i ts ft a st) m =
  applyFlexBoxLayout_tab ft a (i + k) m (tabObject st m).
Proof.
  induction ts as [|x ts IH]; intros i k ft a st m Hnd Hk; [done|].
  apply NoDup_cons in Hnd as [Hx Hnd]. destruct k as [|k]; simpl in Hk.
  - injection Hk as ->. simpl. unfold tabObject at 1.
    rewrite lookup_total_alt, applyFlexBoxLayout_from_notin by done.
    rewrite <- lookup_total_alt. fold (tabObject (update_tab m
      (applyFlexBoxLayout_tab ft a i m) st) m).
    rewrite tabObject_update_tab, decide_True by done.
    by rewrite Nat.add_0_r.
  - simpl. rewrite (IH (S i) k) by done.
    rewrite tabObject_update_tab, decide_False.
    + f_equal. lia.
    + intros ->. apply Hx. by eapply list_elem_of_lookup_2.
Qed.

Lemma foldl_insert_once (F : TabObject → TabObject) ts :
  ∀ (objs : gmap Tab TabObject) m,
  NoDup ts → m ∈ ts →
  foldl (λ acc tab, <[tab := F (acc !!! tab)]> acc) objs ts !!! m = F (objs !!! m).
Proof.
  induction ts as [|x ts IH]; intros objs m Hnd Hm; [by apply elem_of_nil in Hm|].
  apply NoDup_cons in Hnd as [Hx Hnd]. simpl.
  apply elem_of_cons in Hm as [->|Hm].
  - rewrite lookup_total_alt.
    rewrite (foldl_insert_notin (λ _, F)) by done.
    by rewrite lookup_insert_eq.
  - rewrite IH by done. rewrite lookup_total_insert_ne; [done|].
    intros ->. done.
Qed.

(** The object of a member after [activateSplitView], for a group without
    repetitions. *)
Lemma activateSplitView_member_object g t st k m :
  NoDup (tabs (deref st g)) → tabs (deref st g) !! k = Some m →
  tabObject (activateSplitView g t st) m =
  setTabsDocShellState_object true
    (applyFlexBoxLayout_tab
       (if decide (flexType (deref st g) = "") then "flex" else flexType (deref st g))
       t k m (tabObject st m)).
Proof.
  intros Hnd Hk.
  destruct (activateSplitView_loops g t st) as (s' & Hs' & ->).
  rewrite setTabsDocShellState_eq. unfold tabObject at 1. simpl.
  rewrite (foldl_insert_once (setTabsDocShellState_object true));
    [|done|by eapply list_elem_of_lookup_2].
  fold (tabObject (applyFlexBoxLayout_from 0 (tabs (deref st g))
          (if decide (flexType (deref st g) = "") then "flex"
           else flexType (deref st g)) t s') m).
  rewrite (applyFlexBoxLayout_from_lookup _ 0 k) by done.
  unfold tabObject. by rewrite Hs'.
Qed.

(** What that object shows, for the flex layout. *)
Lemma flex_member_layout t k m o :
  let o' := setTabsDocShellState_object true
              (applyFlexBoxLayout_tab "flex" t k m o) in
  Css.declared (attr_style (container (linkedBrowser o'))) "flex" = Some "1" ∧
  Css.declared (attr_style (container (linkedBrowser o'))) "order"
    = Some (NilZero.string_of_uint (Nat.to_uint k)) ∧
  Css.declared (attr_style (container (linkedBrowser o'))) "visibility"
    = Some "visible !important" ∧
  Css.declared (attr_style (container (linkedBrowser o')))
    "-moz-subtree-hidden-only-visually" = Some "0" ∧
  attr_split (container (linkedBrowser o')) = true ∧
  attr_split_anim (container (linkedBrowser o')) = true ∧
  attr_split_active (container (linkedBrowser o')) = bool_decide (m = t) ∧
  click_handleTabClick (container (linkedBrowser o')) = true ∧
  splitView o' = true ∧ spliting (linkedBrowser o') = true ∧
  docShellIsActive (linkedBrowser o') = true.
Proof.
  unfold setTabsDocShellState_object, applyFlexBoxLayout_tab, styleContainer.
  simpl.
  destruct (setProperty_keeps_Some "order" (NilZero.string_of_uint (Nat.to_uint k))
              (Css.setProperty "flex" "1"
                 (attr_style (container (linkedBrowser o)))))
    as [text Htext]; [by apply setProperty_is_Some|].
  rewrite Htext. rewrite !declared_style_template. simpl.
  rewrite <- Htext. rewrite !declared_setProperty. simpl.
  rewrite (decide_False (P := NilZero.string_of_uint (Nat.to_uint k) = ""))
    by apply string_of_uint_not_empty.
  done.
Qed.

End Layout.

(** The layout of an active group.  After [activateSplitView] of a group
    whose [tabs] hold no tab twice (its [flexType] is ["flex"], as in every
    group [splitTabs] creates), the container of the member at position [k]
    declares [flex: 1], [order: k], [visibility: visible !important] and
    [-moz-subtree-hidden-only-visually: 0], and carries [split],
    [split-anim] and the click listener; the member is flagged, and the
    panel is a column with [split-view] set. *)
Theorem activateSplitView_layout (st : State) (g : nat) (t : Tab) (k : nat)
    (m : Tab) :
  NoDup (tabs (deref st g)) → flexType (deref st g) = "flex" →
  tabs (deref st g) !! k = Some m →
  let st' := activateSplitView g t st in
  Css.declared (styleOf st' m) "flex" = Some "1" ∧
  Css.declared (styleOf st' m) "order"
    = Some (NilZero.string_of_uint (Nat.to_uint k)) ∧
  Css.declared (styleOf st' m) "visibility" = Some "visible !important" ∧
  Css.declared (styleOf st' m) "-moz-subtree-hidden-only-visually" = Some "0" ∧
  attr_split (container (linkedBrowser (tabObject st' m))) = true ∧
  attr_split_anim (container (linkedBrowser (tabObject st' m))) = true ∧
  click_handleTabClick (container (linkedBrowser (tabObject st' m))) = true ∧
  splitView (tabObject st' m) = true ∧
  style_flexDirection (tabBrowserPanel st') = "column" ∧
  attr_split_view (tabBrowserPanel st') = true.
Proof.
  intros Hnd Hft Hk st'. unfold st', styleOf.
  rewrite (activateSplitView_member_object g t st k m Hnd Hk).
  rewrite Hft, decide_False by done.
  destruct (flex_member_layout t k m (tabObject st m))
    as (Hflex & Horder & Hvis & Hmoz & Hsplit & Hanim & _ & Hclick & Hsv & _).
  destruct (activateSplitView_eq g t st) as [mm ->]. simpl.
  split_and!; done.
Qed.

Lemma activateSplitView_layout_witness :
  Css.declared (styleOf (activateSplitView 0 0%nat split_ABC) 2%nat) "flex"
    = Some "1" ∧
  Css.declared (styleOf (activateSplitView 0 0%nat split_ABC) 2%nat) "order"
    = Some "2".
Proof.
  destruct (activateSplitView_layout split_ABC 0%nat 0%nat 2%nat 2%nat)
    as (Hflex & Horder & _).
  - vm_compute. repeat (apply NoDup_cons; split; [intros H; elem_cases H; lia|]).
    apply NoDup_nil_2.
  - reflexivity.
  - reflexivity.
  - split; [exact Hflex|exact Horder].
Defined.

(** ** Closing a tab of the active group *)

Section ActiveClose.

Implicit Types (st : State) (o : TabObject) (t m x a : Tab) (l p s : list Tab)
  (idx g r : nat).

Lemma spliced_flexType t forUnsplit g l st :
  (g < length (heap st))%nat →
  flexType (deref (spliced t forUnsplit g l st) g) = flexType (deref st g).
Proof.
  intros Hg. unfold deref at 1, spliced. simpl.
  by rewrite list_lookup_total_insert_eq.
Qed.

(** With two members or more left, the call ends in the activation of the
    group for its new last member. *)
Lemma handleTabClose_active_activates st idx g p s t forUnsplit :
  active_group st idx g (p ++ t :: s) → NoDup (p ++ t :: s) →
  (2 ≤ length (p ++ s))%nat →
  ∃ a, last (p ++ s) = Some a ∧
    handleTabClose t forUnsplit st =
    Normal (activateSplitView g a (spliced t forUnsplit g (p ++ s) st)).
Proof.
  intros Hag Hnd Hlen. pose proof Hag as (Hcv & Hidx & Hl & Hdis).
  assert (Hnp : t ∉ p).
  { apply NoDup_app in Hnd as (_ & Hnd & _). intros Hin.
    apply (Hnd t Hin). apply list_elem_of_here. }
  assert (Ht : t ∈ p ++ t :: s).
  { apply elem_of_app. right. apply list_elem_of_here. }
  pose proof (find_group_active st idx g _ t Hag Ht) as Hf.
  assert (Halloc : (g < length (heap st))%nat).
  { apply (member_allocated st g t). by rewrite Hl. }
  rewrite (handleTabClose_at st t forUnsplit idx g p s Hf Hl Hnp).
  rewrite decide_False by lia.
  destruct (last (p ++ s)) as [a|] eqn:Hlast.
  2:{ apply last_None in Hlast. rewrite Hlast in Hlen. simpl in Hlen. lia. }
  pose proof (last_Some_elem_of _ _ Hlast) as Ha.
  exists a. split; [done|].
  set (st2 := spliced t forUnsplit g (p ++ s) st).
  assert (Hf2 : find_group st2 (Some a) = Some (idx, g))
    by (by apply (spliced_find_group st t forUnsplit idx g p s a)).
  apply (updateSplitView_activate st2 a idx g Hf2).
  right. exists g. split.
  - unfold st2. by rewrite spliced_data_at, spliced_currentView, Hcv, data_at_of_nat.
  - unfold st2. by rewrite spliced_deref_eq.
Qed.

Lemma NoDup_remaining p s t : NoDup (p ++ t :: s) → NoDup (p ++ s) ∧ t ∉ p ++ s.
Proof.
  intros Hnd. apply NoDup_app in Hnd as (Hp & Hps & [Hts Hs]%NoDup_cons). split.
  - apply NoDup_app. split_and!; [done| |done].
    intros x Hx Hin. apply (Hps x Hx). by apply list_elem_of_further.
  - intros [Hin|Hin]%elem_of_app; [|done].
    apply (Hps t Hin). apply list_elem_of_here.
Qed.

(** What [resetTabState] leaves to be seen of the tab it is given. *)
Lemma resetTabState_object_seen forUnsplit o :
  splitView (resetTabState_object forUnsplit o) = false ∧
  attr_split (container (linkedBrowser (resetTabState_object forUnsplit o))) = false ∧
  (if forUnsplit
   then attr_style (container (linkedBrowser (resetTabState_object forUnsplit o)))
          = None ∧
        docShellIsActive (linkedBrowser (resetTabState_object forUnsplit o))
          = docShellIsActive (linkedBrowser o)
   else attr_style (container (linkedBrowser (resetTabState_object forUnsplit o)))
          = Some [Css.Decl "display" "none"] ∧
        docShellIsActive (linkedBrowser (resetTabState_object forUnsplit o))
          = false).
Proof. by destruct forUnsplit. Qed.

End ActiveClose.

(** Closing a tab of the active group when fewer than two tabs would be
    left.  The call returns with the group removed from [this._data], no
    group active, the preference off and [split-view] gone from the panel.
    The closed tab has lost its flag and its [split] attribute; closed for
    an unsplit it has no style attribute and keeps its docshell state,
    closed otherwise it is hidden ([display: none]) and docshell-inactive.
    A tab left behind is a plain tab of no group, with the docshell state it
    had.  Tabs outside the group are untouched. *)
Theorem handleTabClose_active_last (st : State) (idx g : nat) (p s : list Tab)
    (t : Tab) (forUnsplit : bool) :
  active_group st idx g (p ++ t :: s) → NoDup (p ++ t :: s) →
  (length (p ++ s) < 2)%nat →
  ∃ st', handleTabClose t forUnsplit st = Normal st' ∧
    _data st' = delete idx (_data st) ∧ currentView st' = -1 ∧
    pref_working st' = false ∧
    attr_split_view (tabBrowserPanel st') = false ∧
    selectedTab st' = selectedTab st ∧
    splitView (tabObject st' t) = false ∧
    attr_split (container (linkedBrowser (tabObject st' t))) = false ∧
    (if forUnsplit
     then styleOf st' t = None ∧ docShellActive st' t = docShellActive st t
     else styleOf st' t = Some [Css.Decl "display" "none"] ∧
          docShellActive st' t = false) ∧
    (∀ m, m ∈ p ++ s →
       plain_tab (tabObject st' m) ∧
       docShellActive st' m = docShellActive st m ∧ ungrouped st' m) ∧
    (∀ x, x ∉ p ++ t :: s → tabObject st' x = tabObject st x).
Proof.
  intros Hag Hnd Hlen. pose proof Hag as (Hcv & Hidx & Hl & Hdis).
  destruct (handleTabClose_active_removes st idx g p s t forUnsplit Hag Hnd Hlen)
    as (st' & Hclose & Hd & Hcv' & Hpref & Hpanel & Hsel & Hdis' & Ht' & Hder
        & Htab & Hmem & Hout).
  exists st'. split_and!; try done.
  - rewrite Htab. apply resetTabState_object_seen.
  - rewrite Htab. apply resetTabState_object_seen.
  - unfold styleOf, docShellActive. rewrite Htab.
    apply resetTabState_object_seen.
  - intros m Hm. unfold docShellActive. rewrite (Hmem m Hm). split_and!.
    + apply resetTabState_object_plain.
    + done.
    + intros r Hr. rewrite Hd in Hr.
      apply elem_of_delete_lookup in Hr as (j & Hj & Hlook).
      assert (Hm' : m ∈ tabs (deref st g)).
      { rewrite Hl. by apply elem_of_remaining. }
      destruct (disjoint_other_group st idx g m j r Hdis Hidx Hm' Hlook Hj)
        as [Hne Hnot].
      rewrite Hder by done. by apply Hnot.
Qed.

Lemma handleTabClose_active_last_witness :
  ∃ st', handleTabClose 0%nat false split_AB = Normal st' ∧
    _data st' = delete 0%nat (_data split_AB) ∧ currentView st' = -1 ∧
    pref_working st' = false ∧
    attr_split_view (tabBrowserPanel st') = false ∧
    selectedTab st' = selectedTab split_AB ∧
    splitView (tabObject st' 0%nat) = false ∧
    attr_split (container (linkedBrowser (tabObject st' 0%nat))) = false ∧
    (styleOf st' 0%nat = Some [Css.Decl "display" "none"] ∧
     docShellActive st' 0%nat = false) ∧
    (∀ m, m ∈ [] ++ [1%nat] →
       plain_tab (tabObject st' m) ∧
       docShellActive st' m = docShellActive split_AB m ∧ ungrouped st' m) ∧
    (∀ x, x ∉ [] ++ 0%nat :: [1%nat] → tabObject st' x = tabObject split_AB x).
Proof.
  apply (handleTabClose_active_last split_AB 0%nat 0%nat [] [1%nat] 0%nat false).
  - split_and!; [reflexivity..|].
    by apply (groups_disjoint_one_group _ 0%nat).
  - repeat (apply NoDup_cons; split; [intros H; elem_cases H; lia|]).
    apply NoDup_nil_2.
  - simpl. lia.
Defined.

(** Closing a tab of the active group when two tabs or more are left.  The
    call returns with the group still the current view, holding the other
    tabs in their order, all flagged and docshell-active.  The layout is
    renumbered: the tab now at position [k] declares [order: k] and
    [flex: 1], so the tabs that followed the closed one move up by one, and
    [split-active] is on the new last tab only.  The closed tab has lost its
    flag; closed for an unsplit it has no style attribute, closed otherwise
    it is hidden and docshell-inactive.  Tabs outside the group are
    untouched. *)
Theorem handleTabClose_active_relayout (st : State) (idx g : nat)
    (p s : list Tab) (t : Tab) (forUnsplit : bool) :
  active_group st idx g (p ++ t :: s) → NoDup (p ++ t :: s) →
  (2 ≤ length (p ++ s))%nat → flexType (deref st g) = "flex" →
  ∃ a st', handleTabClose t forUnsplit st = Normal st' ∧
    last (p ++ s) = Some a ∧
    active_group st' idx g (p ++ s) ∧ _data st' = _data st ∧
    members_active st' (p ++ s) ∧
    (∀ k m, (p ++ s) !! k = Some m →
       Css.declared (styleOf st' m) "order"
         = Some (NilZero.string_of_uint (Nat.to_uint k)) ∧
       Css.declared (styleOf st' m) "flex" = Some "1" ∧
       (splitActive st' m = true ↔ m = a)) ∧
    splitView (tabObject st' t) = false ∧
    (if forUnsplit
     then styleOf st' t = None ∧ docShellActive st' t = docShellActive st t
     else styleOf st' t = Some [Css.Decl "display" "none"] ∧
          docShellActive st' t = false) ∧
    (∀ x, x ∉ p ++ t :: s → tabObject st' x = tabObject st x).
Proof.
  intros Hag Hnd Hlen Hft. pose proof Hag as (Hcv & Hidx & Hl & Hdis).
  destruct (handleTabClose_active_activates st idx g p s t forUnsplit Hag Hnd Hlen)
    as (a & Hlast & Heq).
  destruct (handleTabClose_active_shrinks st idx g p s t forUnsplit Hag Hnd Hlen)
    as (st' & Hclose & Hag' & Hd & Hsel & Hpref & Hder & Htab & Hout & Hmem).
  destruct (NoDup_remaining p s t Hnd) as [Hnd' Hnot].
  assert (Halloc : (g < length (heap st))%nat).
  { apply (member_allocated st g t). rewrite Hl.
    apply elem_of_app. right. apply list_elem_of_here. }
  exists a, st'. split_and!; try done.
  - intros k m Hk. rewrite Heq in Hclose. injection Hclose as <-.
    set (st2 := spliced t forUnsplit g (p ++ s) st) in *.
    assert (Ht2 : tabs (deref st2 g) = p ++ s) by (by apply spliced_deref_eq).
    assert (Hft2 : flexType (deref st2 g) = "flex").
    { unfold st2. by rewrite spliced_flexType. }
    unfold styleOf, splitActive.
    rewrite (activateSplitView_member_object g a st2 k m)
      by (by rewrite Ht2).
    rewrite Hft2, decide_False by done.
    destruct (flex_member_layout a k m (tabObject st2 m))
      as (Hflex & Horder & _ & _ & _ & _ & Hact & _).
    split_and!; [done..|].
    rewrite Hact. apply bool_decide_eq_true.
  - rewrite Htab. apply resetTabState_object_seen.
  - unfold styleOf, docShellActive. rewrite Htab.
    apply resetTabState_object_seen.
Qed.

Lemma handleTabClose_active_relayout_witness :
  ∃ a st', handleTabClose 1%nat false split_ABCD = Normal st' ∧
    last ([0%nat] ++ [2; 3]%nat) = Some a ∧
    active_group st' 0%nat 0%nat ([0%nat] ++ [2; 3]%nat) ∧
    _data st' = _data split_ABCD ∧
    members_active st' ([0%nat] ++ [2; 3]%nat) ∧
    (∀ k m, ([0%nat] ++ [2; 3]%nat) !! k = Some m →
       Css.declared (styleOf st' m) "order"
         = Some (NilZero.string_of_uint (Nat.to_uint k)) ∧
       Css.declared (styleOf st' m) "flex" = Some "1" ∧
       (splitActive st' m = true ↔ m = a)) ∧
    splitView (tabObject st' 1%nat) = false ∧
    (styleOf st' 1%nat = Some [Css.Decl "display" "none"] ∧
     docShellActive st' 1%nat = false) ∧
    (∀ x, x ∉ [0%nat] ++ 1%nat :: [2; 3]%nat →
       tabObject st' x = tabObject split_ABCD x).
Proof.
  apply (handleTabClose_active_relayout split_ABCD 0%nat 0%nat [0%nat]
           [2; 3]%nat 1%nat false).
  - split_and!; [reflexivity..|].
    by apply (groups_disjoint_one_group _ 0%nat).
  - repeat (apply NoDup_cons; split; [intros H; elem_cases H; lia|]).
    apply NoDup_nil_2.
  - simpl. lia.
  - reflexivity.
Defined.

(** ** What closing a tab does to the groups *)

Section CloseGroups.

Implicit Types (st : State) (t m x : Tab) (p s : list Tab) (i g r : nat).

(** The groups after [handleTabClose] of a tab that has one, however the
    call ends. *)
Lemma handleTabClose_groups st t forUnsplit i g :
  find_group st (Some t) = Some (i, g) →
  ∃ p s, tabs (deref st g) = p ++ t :: s ∧ (t ∉ p) ∧
    _data (state_of (handleTabClose t forUnsplit st)) =
      (if decide (length (p ++ s) < 2)%nat then delete i (_data st) else _data st) ∧
    tabs (deref (state_of (handleTabClose t forUnsplit st)) g) = p ++ s ∧
    (∀ r, r ≠ g →
       deref (state_of (handleTabClose t forUnsplit st)) r = deref st r) ∧
    selectedTab (state_of (handleTabClose t forUnsplit st)) = selectedTab st.
Proof.
  intros Hf. pose proof Hf as (Hi & Ht & _)%find_group_Some.
  pose proof (member_allocated st g t Ht) as Halloc.
  destruct (handleTabClose_unfold st t forUnsplit i g Hf)
    as (p & s & Hl & Hnot & ->).
  exists p, s. split; [done|]. split; [done|].
  set (st2 := spliced t forUnsplit g (p ++ s) st).
  assert (Hsel2 : selectedTab st2 = selectedTab st) by done.
  assert (Hh : heap (state_of
              (if decide (length (p ++ s) < 2)%nat
               then removeGroup i st2
               else updateSplitView (last (p ++ s)) st2)) = heap st2 ∧
           selectedTab (state_of
              (if decide (length (p ++ s) < 2)%nat
               then removeGroup i st2
               else updateSplitView (last (p ++ s)) st2)) = selectedTab st ∧
           _data (state_of
              (if decide (length (p ++ s) < 2)%nat
               then removeGroup i st2
               else updateSplitView (last (p ++ s)) st2)) =
           (if decide (length (p ++ s) < 2)%nat
            then delete i (_data st) else _data st)).
  { case_decide.
    - destruct (removeGroup_eq st2 i g Hi) as (st' & -> & Hd & Hh & Hsel & _).
      simpl. by rewrite Hh, Hsel, Hd.
    - destruct (updateSplitView_frame (last (p ++ s)) st2) as (-> & -> & ->).
      done. }
  destruct Hh as (Hh & Hsel & Hd).
  split_and!; [done| | |done].
  - unfold deref at 1. rewrite Hh.
    change (tabs (deref st2 g) = p ++ s). unfold st2. by apply spliced_deref_eq.
  - intros r Hr. unfold deref at 1. rewrite Hh.
    change (deref st2 r = deref st r). unfold st2. by apply spliced_deref_ne.
Qed.

(** The tabs of every group after the call were tabs of it before, and the
    entries of [this._data] were entries at the same or the next index. *)
Lemma handleTabClose_shrinks st t forUnsplit :
  (∀ r x, x ∈ tabs (deref (state_of (handleTabClose t forUnsplit st)) r) →
          x ∈ tabs (deref st r)) ∧
  (_data (state_of (handleTabClose t forUnsplit st)) = _data st ∨
   ∃ i g, find_group st (Some t) = Some (i, g) ∧
          (length (tabs (deref st g)) ≤ 2)%nat ∧
          _data (state_of (handleTabClose t forUnsplit st)) = delete i (_data st)).
Proof.
  destruct (find_group st (Some t)) as [[i g]|] eqn:Hf.
  - destruct (handleTabClose_groups st t forUnsplit i g Hf)
      as (p & s & Hl & Hnot & Hd & Hg & Hr & _).
    split.
    + intros r x. destruct (decide (r = g)) as [->|Hne].
      * rewrite Hg, Hl. apply elem_of_remaining.
      * by rewrite Hr.
    + case_decide; [right|by left]. exists i, g. split_and!; [done| |done].
      rewrite Hl. rewrite length_app in *. simpl. lia.
  - unfold handleTabClose. rewrite Hf. simpl. split; [done|by left].
Qed.

End CloseGroups.

(** [handleTabClose] keeps the groups sound: if no tab belongs to two
    groups and every group has two tabs or more before the call, the same
    holds after it, whichever tab is closed, whether or not it belongs to a
    group, and however the call ends. *)
Theorem handleTabClose_keeps_groups_sound (st : State) (t : Tab)
    (forUnsplit : bool) :
  groups_disjoint st → groups_populated st →
  groups_disjoint (state_of (handleTabClose t forUnsplit st)) ∧
  groups_populated (state_of (handleTabClose t forUnsplit st)).
Proof.
  intros Hdis Hpop.
  destruct (handleTabClose_shrinks st t forUnsplit) as [Hsub Hd].
  destruct (find_group st (Some t)) as [[i g]|] eqn:Hf.
  2:{ unfold handleTabClose. rewrite Hf. by split. }
  pose proof Hf as (Hi & Ht & _)%find_group_Some.
  destruct (handleTabClose_groups st t forUnsplit i g Hf)
    as (p & s & Hl & Hnot & Hd' & Hg & Hr & _).
  split.
  - destruct Hd as [Hd|(i' & g' & [= <- <-] & _ & Hd)].
    + by apply (groups_disjoint_shrink st).
    + by apply (groups_disjoint_delete st _ i).
  - intros r Hin. rewrite Hd' in Hin.
    destruct (decide (r = g)) as [->|Hne].
    + rewrite Hg. case_decide as Hlen; [|lia].
      apply elem_of_delete_lookup in Hin as (j & Hj & Hlook).
      destruct Hj. by apply (Hdis j i g g t).
    + rewrite Hr by done. apply Hpop.
      case_decide; [|done].
      apply elem_of_delete_lookup in Hin as (j & _ & Hlook).
      by eapply list_elem_of_lookup_2.
Qed.

Lemma handleTabClose_keeps_groups_sound_witness :
  groups_disjoint (state_of (handleTabClose 2%nat false split_CDE_AB)) ∧
  groups_populated (state_of (handleTabClose 2%nat false split_CDE_AB)).
Proof.
  apply (handleTabClose_keeps_groups_sound split_CDE_AB 2%nat false).
  - apply groups_disjoint_split_CDE_AB.
  - intros r Hr.
    assert (Hd : _data split_CDE_AB = [0; 1]%nat) by reflexivity.
    rewrite Hd in Hr. elem_cases Hr; vm_compute; lia.
Defined.

(** A tab is taken out of its group once.  In a state where no tab belongs
    to two groups and no group lists a tab twice, after [handleTabClose] has
    returned for a tab, that tab is in no group, and a second
    [handleTabClose] for it (the [TabClose] event that follows an unsplit,
    say) returns without changing anything. *)
Theorem handleTabClose_second_time (st st' : State) (t : Tab)
    (forUnsplit forUnsplit' : bool) :
  groups_disjoint st →
  (∀ r, r ∈ _data st → NoDup (tabs (deref st r))) →
  handleTabClose t forUnsplit st = Normal st' →
  ungrouped st' t ∧ handleTabClose t forUnsplit' st' = Normal st'.
Proof.
  intros Hdis Hnd Hclose.
  assert (Hu : ungrouped st' t).
  { destruct (find_group st (Some t)) as [[i g]|] eqn:Hf.
    2:{ unfold handleTabClose in Hclose. rewrite Hf in Hclose.
        injection Hclose as <-. exact (proj1 (find_group_None st t) Hf). }
    pose proof Hf as (Hi & Ht & _)%find_group_Some.
    destruct (handleTabClose_groups st t forUnsplit i g Hf)
      as (p & s & Hl & Hnot & Hd & Hg & Hr & _).
    rewrite Hclose in Hd, Hg, Hr. simpl in Hd, Hg, Hr.
    assert (Hold : ∀ r, r ∈ _data st' → r ∈ _data st).
    { intros r Hin. rewrite Hd in Hin. case_decide; [|done].
      apply elem_of_delete_lookup in Hin as (j & _ & Hlook).
      by eapply list_elem_of_lookup_2. }
    intros r Hin. destruct (decide (r = g)) as [->|Hne].
    - rewrite Hg. specialize (Hnd g (Hold g Hin)). rewrite Hl in Hnd.
      apply NoDup_app in Hnd as (_ & Hps & [Hts _]%NoDup_cons).
      intros [Hp|Hs]%elem_of_app; [done|done].
    - rewrite Hr by done. intros Hin'.
      apply Hold, list_elem_of_lookup in Hin as [j Hj].
      apply Hne. assert (j = i) by (by apply (Hdis j i r g t)).
      subst j. congruence. }
  split; [done|].
  unfold handleTabClose.
  by rewrite (proj2 (find_group_None st' t) Hu).
Qed.

Lemma handleTabClose_second_time_witness :
  ∃ st', handleTabClose 1%nat true split_ABC = Normal st' ∧
         ungrouped st' 1%nat ∧ handleTabClose 1%nat false st' = Normal st'.
Proof.
  eexists. split; [vm_compute; reflexivity|].
  apply (handleTabClose_second_time split_ABC _ 1%nat true false).
  - by apply (groups_disjoint_one_group _ 0%nat).
  - intros r Hr.
    assert (Hd : _data split_ABC = [0]%nat) by reflexivity.
    rewrite Hd in Hr. elem_cases Hr. vm_compute.
    repeat (apply NoDup_cons; split; [intros H; elem_cases H; lia|]).
    apply NoDup_nil_2.
  - vm_compute. reflexivity.
Defined.

(** From a sound [currentView], [handleTabClose] returns normally for any
    tab.  [currentView] is sound again afterwards unless the call removes a
    group that sits before the active one: it is whenever the tab's group,
    if it is down to two tabs or fewer, is the active one or one after it
    (or no group is active). *)
Theorem handleTabClose_returns (st : State) (t : Tab) (forUnsplit : bool) :
  currentView_valid st →
  ∃ st', handleTabClose t forUnsplit st = Normal st' ∧
    ((∀ i g, find_group st (Some t) = Some (i, g) →
        (length (tabs (deref st g)) ≤ 2)%nat → currentView st ≤ Z.of_nat i) →
     currentView_valid st').
Proof.
  intros Hcv.
  destruct (find_group st (Some t)) as [[i g]|] eqn:Hf.
  2:{ exists st. unfold handleTabClose. rewrite Hf. by split. }
  pose proof Hf as (Hi & Ht & _)%find_group_Some.
  destruct (handleTabClose_unfold st t forUnsplit i g Hf)
    as (p & s & Hl & Hnot & ->).
  set (st2 := spliced t forUnsplit g (p ++ s) st).
  assert (Hcv2 : currentView_valid st2).
  { apply (currentView_valid_ext st); [done| |done].
    intros j r. unfold st2. by rewrite spliced_data. }
  case_decide as Hlen.
  - destruct (removeGroup_eq st2 i g Hi) as (st' & -> & Hd & _ & _ & Hcv').
    exists st'. split; [done|]. intros Hle.
    specialize (Hle i g eq_refl).
    rewrite Hl in Hle. rewrite length_app in Hle, Hlen. simpl in Hle.
    specialize (Hle ltac:(lia)).
    change (currentView st2) with (currentView st) in Hcv'.
    change (_data st2) with (_data st) in Hd.
    destruct (decide (currentView st = Z.of_nat i)) as [Heq|Hne];
      [by left|].
    destruct Hcv as [Hnone|[rc Hrc]]; [left; congruence|].
    right. exists rc. unfold data_at in *. rewrite Hcv', Hd.
    case_decide; [|done].
    rewrite list_lookup_delete_lt by lia. done.
  - destruct (updateSplitView_returns (last (p ++ s)) st2 Hcv2)
      as (st' & -> & Hv).
    exists st'. by split.
Qed.

Lemma handleTabClose_returns_witness :
  ∃ st', handleTabClose 0%nat false split_CDE_AB = Normal st' ∧
    ((∀ i g, find_group split_CDE_AB (Some 0%nat) = Some (i, g) →
        (length (tabs (deref split_CDE_AB g)) ≤ 2)%nat →
        currentView split_CDE_AB ≤ Z.of_nat i) →
     currentView_valid st').
Proof.
  apply (handleTabClose_returns split_CDE_AB 0%nat false).
  right. by eexists.
Defined.

(** Closing a tab of a group that is not the active one, when fewer than
    two tabs would be left.  The group is removed from [this._data], but
    [removeGroup] resets the tabs of the active group only: apart from the
    closed tab, no tab object is touched, so the tab left behind keeps its
    [splitView] flag, its attributes and its style, though it is in no group
    any more.  [currentView], the preference and the panel stay as they
    were; so when the group removed sat before the active one,
    [this._data[this.currentView]] is now the entry that followed the active
    group, or nothing, and when it sat after it, the active group is still
    the one at [currentView]. *)
Theorem handleTabClose_inactive_last (st : State) (t : Tab) (i g : nat)
    (forUnsplit : bool) :
  groups_disjoint st →
  find_group st (Some t) = Some (i, g) → currentView st ≠ Z.of_nat i →
  (length (tabs (deref st g)) ≤ 2)%nat →
  ∃ st', handleTabClose t forUnsplit st = Normal st' ∧
    _data st' = delete i (_data st) ∧ currentView st' = currentView st ∧
    pref_working st' = pref_working st ∧
    tabBrowserPanel st' = tabBrowserPanel st ∧
    tabObject st' t = resetTabState_object forUnsplit (tabObject st t) ∧
    (∀ x, x ≠ t → tabObject st' x = tabObject st x) ∧
    (∀ m, m ∈ tabs (deref st g) → m ≠ t → ungrouped st' m) ∧
    (Z.of_nat i < currentView st →
     data_at st' (currentView st') = data_at st (currentView st + 1)) ∧
    (currentView st < Z.of_nat i →
     data_at st' (currentView st') = data_at st (currentView st)).
Proof.
  intros Hdis Hf Hne Hlen. pose proof Hf as (Hi & Ht & _)%find_group_Some.
  pose proof (member_allocated st g t Ht) as Halloc.
  destruct (handleTabClose_unfold st t forUnsplit i g Hf)
    as (p & s & Hl & Hnot & ->).
  rewrite Hl, length_app in Hlen. simpl in Hlen.
  rewrite decide_True by (rewrite length_app; lia).
  set (st2 := spliced t forUnsplit g (p ++ s) st).
  unfold removeGroup.
  rewrite decide_False by (unfold st2; by rewrite spliced_currentView).
  simpl. eexists. split; [reflexivity|].
  assert (Hobj : ∀ x, tabObject (set_data (delete i (_data st2)) st2) x
                      = tabObject st2 x) by done.
  split_and!; try done.
  - rewrite Hobj. unfold st2. by rewrite spliced_tabObject, decide_True.
  - intros x Hx. rewrite Hobj. unfold st2.
    by rewrite spliced_tabObject, decide_False.
  - intros m Hm Hmt r Hr. simpl in Hr.
    change (_data st2) with (_data st) in Hr.
    apply elem_of_delete_lookup in Hr as (j & Hj & Hlook).
    destruct (disjoint_other_group st i g m j r Hdis Hi Hm Hlook Hj)
      as [Hrg Hnin].
    change (m ∉ tabs (deref st2 r)). unfold st2.
    rewrite spliced_deref_ne by done. by apply Hnin.
  - intros Hlt. unfold data_at. simpl.
    change (currentView st2) with (currentView st).
    change (_data st2) with (_data st).
    rewrite !decide_True by lia.
    rewrite list_lookup_delete_ge by lia. f_equal. lia.
  - intros Hlt. unfold data_at. simpl.
    change (currentView st2) with (currentView st).
    change (_data st2) with (_data st).
    case_decide; [|done]. by rewrite list_lookup_delete_lt by lia.
Qed.

Lemma groups_disjoint_split_AB_CD : groups_disjoint split_AB_CD.
Proof.
  intros i j ri rj t Hi Hj Hti Htj.
  assert (Hd : _data split_AB_CD = [0; 1]%nat) by reflexivity.
  rewrite Hd in Hi, Hj.
  destruct i as [|[|i]]; destruct j as [|[|j]]; try done;
    simpl in Hi, Hj; injection Hi as <-; injection Hj as <-;
    vm_compute in Hti, Htj; elem_cases Hti; elem_cases Htj; done.
Qed.

Lemma handleTabClose_inactive_last_witness :
  ∃ st', handleTabClose 0%nat false split_AB_CD = Normal st' ∧
    _data st' = delete 0%nat (_data split_AB_CD) ∧
    currentView st' = currentView split_AB_CD ∧
    pref_working st' = pref_working split_AB_CD ∧
    tabBrowserPanel st' = tabBrowserPanel split_AB_CD ∧
    tabObject st' 0%nat = resetTabState_object false (tabObject split_AB_CD 0%nat) ∧
    (∀ x, x ≠ 0%nat → tabObject st' x = tabObject split_AB_CD x) ∧
    (∀ m, m ∈ tabs (deref split_AB_CD 0%nat) → m ≠ 0%nat → ungrouped st' m) ∧
    (Z.of_nat 0 < currentView split_AB_CD →
     data_at st' (currentView st')
     = data_at split_AB_CD (currentView split_AB_CD + 1)) ∧
    (currentView split_AB_CD < Z.of_nat 0 →
     data_at st' (currentView st')
     = data_at split_AB_CD (currentView split_AB_CD)).
Proof.
  apply (handleTabClose_inactive_last split_AB_CD 0%nat 0%nat 0%nat false).
  - apply groups_disjoint_split_AB_CD.
  - reflexivity.
  - vm_compute. discriminate.
  - vm_compute. lia.
Defined.

(** ** The loop of [unsplitCurrentView] on the active group *)

Section UnsplitLoop.

Implicit Types (st : State) (t m x : Tab) (l p s : list Tab) (idx g : nat).

Lemma length_odd_positions {A} (l : list A) :
  length (odd_positions l) = Nat.div2 (length l).
Proof.
  assert (H : ∀ n (k : list A), (length k ≤ n)%nat →
            length (odd_positions k) = Nat.div2 (length k)).
  { intros n. induction n as [|n IH]; intros k Hk.
    - destruct k; [done|simpl in Hk; lia].
    - destruct k as [|x [|y k]]; [done..|]. simpl. f_equal.
      apply IH. simpl in Hk. lia. }
  by apply (H (length l)).
Qed.

Lemma unsplit_loop_end fuel g k st :
  tabs (deref st g) !! k = None → unsplit_loop fuel g k st = Some ([], Normal st).
Proof. intros H. destruct fuel; simpl; by rewrite H. Qed.

(** While the group keeps two members the loop goes on, taking out every
    other member. [p] are the members the loop has passed and left in, [s]
    those still ahead of it. *)
Lemma unsplit_loop_survives idx g fuel : ∀ p s st,
  active_group st idx g (p ++ s) → NoDup (p ++ s) →
  (s = [] ∨ (3 ≤ length p + length s ∧ (length p = 0 → 4 ≤ length s) ∧
             (length p = 1 → 2 ≤ length s)))%nat →
  (length s ≤ fuel)%nat →
  ∃ st', unsplit_loop fuel g (length p) st = Some (even_positions s, Normal st') ∧
    active_group st' idx g (p ++ odd_positions s) ∧
    _data st' = _data st ∧ selectedTab st' = selectedTab st ∧
    (∀ r, r ≠ g → deref st' r = deref st r) ∧
    (∀ x, x ∈ even_positions s → plain_tab (tabObject st' x)) ∧
    (∀ x, x ∉ p ++ s → tabObject st' x = tabObject st x) ∧
    (s ≠ [] ∨ members_active st (p ++ s) →
     members_active st' (p ++ odd_positions s)).
Proof.
  assert (Hnil : ∀ fuel' p st, active_group st idx g (p ++ []) →
    ∃ st', unsplit_loop fuel' g (length p) st = Some (even_positions [], Normal st') ∧
      active_group st' idx g (p ++ odd_positions []) ∧
      _data st' = _data st ∧ selectedTab st' = selectedTab st ∧
      (∀ r, r ≠ g → deref st' r = deref st r) ∧
      (∀ x, x ∈ even_positions [] → plain_tab (tabObject st' x)) ∧
      (∀ x, x ∉ p ++ [] → tabObject st' x = tabObject st x) ∧
      ([] ≠ @nil Tab ∨ members_active st (p ++ []) →
       members_active st' (p ++ odd_positions []))).
  { intros fuel' p st Hag. exists st. pose proof Hag as (_ & _ & Hl & _).
    rewrite unsplit_loop_end
      by (rewrite Hl; apply lookup_ge_None_2; rewrite length_app; simpl; lia).
    split_and!; try done.
    - intros x Hx. by apply elem_of_nil in Hx.
    - intros [?|?]; done. }
  induction fuel as [|fuel IH]; intros p s st Hag Hnd HQ Hfuel.
  - destruct s; [|simpl in Hfuel; lia]. by apply Hnil.
  - destruct s as [|t rest]; [by apply Hnil|].
    pose proof Hag as (_ & _ & Hl & _).
    assert (Hlen : (2 ≤ length (p ++ rest))%nat).
    { destruct HQ as [?|HQ]; [done|]. rewrite length_app. simpl in HQ. lia. }
    destruct (handleTabClose_active_shrinks st idx g p rest t true Hag Hnd Hlen)
      as (st1 & Hclose & Hag1 & Hd1 & Hsel1 & Hpref1 & Hder1 & Ht1 & Hout1 & Hmem1).
    assert (Hnd1 : NoDup (p ++ rest)).
    { apply NoDup_app in Hnd as (Hp & Hps & [_ Hrest]%NoDup_cons).
      apply NoDup_app. split_and!; [done| |done].
      intros x Hx Hin. apply (Hps x Hx). by apply list_elem_of_further. }
    assert (Htp : t ∉ p ++ rest).
    { apply NoDup_app in Hnd as (Hp & Hps & [Htr _]%NoDup_cons).
      intros [Hin|Hin]%elem_of_app; [|done].
      apply (Hps t Hin). apply list_elem_of_here. }
    cbn [unsplit_loop]. rewrite Hl, list_lookup_middle by done. rewrite Hclose.
    destruct rest as [|y r].
    + pose proof Hag1 as (_ & _ & Hl1 & _).
      rewrite unsplit_loop_end
        by (rewrite Hl1; apply lookup_ge_None_2; rewrite length_app; simpl; lia).
      exists st1. simpl. split_and!; try done.
      intros x ->%list_elem_of_singleton. rewrite Ht1.
      apply resetTabState_object_plain.
    + assert (Hag1' : active_group st1 idx g ((p ++ [y]) ++ r))
        by (by rewrite <- app_assoc).
      assert (Hnd1' : NoDup ((p ++ [y]) ++ r)) by (by rewrite <- app_assoc).
      destruct (IH (p ++ [y]) r st1 Hag1' Hnd1')
        as (st' & Hloop & Hag' & Hd' & Hsel' & Hder' & Hvis' & Hout' & Hmem').
      { destruct HQ as [?|HQ]; [done|]. destruct r; [by left|right].
        rewrite length_app. simpl in *. lia. }
      { simpl in Hfuel. lia. }
      replace (length (p ++ [y])) with (S (length p)) in Hloop
        by (rewrite length_app; simpl; lia).
      rewrite Hloop. simpl.
      exists st'. rewrite <- !app_assoc in *. simpl in *.
      split_and!; try done; try congruence.
      * intros r' Hr'. by rewrite Hder', Hder1.
      * intros x [->|Hx]%elem_of_cons; [|by apply Hvis'].
        rewrite Hout' by done. rewrite Ht1. apply resetTabState_object_plain.
      * intros x Hx. rewrite Hout', Hout1; [done|done|].
        intros Hin. apply Hx.
        apply elem_of_app in Hin as [?|Hin]; apply elem_of_app; [by left|right].
        by apply list_elem_of_further.
      * intros _. apply Hmem'. right. by split.
Qed.

End UnsplitLoop.

(** In a state where no tab belongs to two groups, an active group of four
    tabs or more, no tab twice, survives [unsplitCurrentView()]: the loop
    hands the tabs at the even positions (first, third, ...) to
    [handleTabClose] and steps over the others, and the call returns with
    the group still in [this._data], still the current view, now holding
    the tabs that were at the odd positions, half of the members rounded
    down.  The tabs taken out are plain tabs again; those left are still
    flagged and docshell-active and the preference is still on.  The
    selected tab is what it was. *)
Theorem unsplitCurrentView_large_group (st : State) (idx g : nat) (l : list Tab) :
  groups_disjoint st →
  currentView st = Z.of_nat idx → _data st !! idx = Some g →
  tabs (deref st g) = l → NoDup l → (4 ≤ length l)%nat →
  ∃ st', unsplitCurrentView_run st = Some (even_positions l, Normal st') ∧
    _data st' = _data st ∧ currentView st' = currentView st ∧
    tabs (deref st' g) = odd_positions l ∧ groups_disjoint st' ∧
    length (odd_positions l) = Nat.div2 (length l) ∧
    (∀ r, r ≠ g → deref st' r = deref st r) ∧
    selectedTab st' = selectedTab st ∧
    members_active st' (odd_positions l) ∧
    (∀ x, x ∈ even_positions l → plain_tab (tabObject st' x)) ∧
    (∀ x, x ∉ l → tabObject st' x = tabObject st x).
Proof.
  intros Hdis Hcv Hidx Hl Hnd Hlen.
  assert (Hag : active_group st idx g l) by done.
  destruct (unsplit_loop_survives idx g (length l) [] l st)
    as (st' & Hloop & (Hcv' & Hidx' & Hl' & Hdis') & Hd' & Hsel' & Hder' & Hvis'
        & Hout' & Hmem'); [done..| |done|].
  { right. simpl. lia. }
  unfold unsplitCurrentView_run.
  rewrite Hcv, data_at_of_nat, Hidx, Hl. simpl in Hloop. rewrite Hloop. simpl.
  eexists. split; [reflexivity|]. simpl in *.
  split_and!; try done.
  - apply length_odd_positions.
  - assert (Hne : l ≠ []) by (intros ->; simpl in Hlen; lia).
    exact (Hmem' (or_introl Hne)).
Qed.

Lemma unsplitCurrentView_large_group_witness :
  ∃ st', unsplitCurrentView_run split_ABCD
         = Some (even_positions [0; 1; 2; 3]%nat, Normal st') ∧
    _data st' = _data split_ABCD ∧ currentView st' = currentView split_ABCD ∧
    tabs (deref st' 0%nat) = odd_positions [0; 1; 2; 3]%nat ∧
    groups_disjoint st' ∧
    length (odd_positions [0; 1; 2; 3]%nat) = Nat.div2 (length [0; 1; 2; 3]%nat) ∧
    (∀ r, r ≠ 0%nat → deref st' r = deref split_ABCD r) ∧
    selectedTab st' = selectedTab split_ABCD ∧
    members_active st' (odd_positions [0; 1; 2; 3]%nat) ∧
    (∀ x, x ∈ even_positions [0; 1; 2; 3]%nat → plain_tab (tabObject st' x)) ∧
    (∀ x, x ∉ [0; 1; 2; 3]%nat → tabObject st' x = tabObject split_ABCD x).
Proof.
  apply (unsplitCurrentView_large_group split_ABCD 0%nat 0%nat [0; 1; 2; 3]%nat).
  - by apply (groups_disjoint_one_group _ 0%nat).
  - reflexivity.
  - reflexivity.
  - reflexivity.
  - repeat (apply NoDup_cons; split;
            [intros H; repeat (apply elem_of_cons in H as [H|H]; [done|]);
             by apply elem_of_nil in H|]).
    apply NoDup_nil_2.
  - simpl. lia.
Defined.

(** ** A new group, and its way back *)

Section NewGroup.

Implicit Types (st : State) (t m x a b : Tab) (ts l p s : list Tab) (idx g r : nat).

(** Activation leaves [split-anim] and the click listener on every member. *)
Lemma activateSplitView_listening g t st m :
  m ∈ tabs (deref st g) →
  attr_split_anim (container (linkedBrowser (tabObject (activateSplitView g t st) m)))
    = true ∧
  click_handleTabClick
    (container (linkedBrowser (tabObject (activateSplitView g t st) m))) = true.
Proof.
  intros Hm. unfold tabObject, activateSplitView.
  rewrite setTabsDocShellState_eq. simpl.
  apply (foldl_insert_preserved (λ _, setTabsDocShellState_object true)
           (λ o, attr_split_anim (container (linkedBrowser o)) = true ∧
                 click_handleTabClick (container (linkedBrowser o)) = true)).
  { by intros o [? ?]. }
  unfold applyFlexBoxLayout.
  apply (applyFlexBoxLayout_from_in
           (λ o, attr_split_anim (container (linkedBrowser o)) = true ∧
                 click_handleTabClick (container (linkedBrowser o)) = true));
    [|done].
  intros j o. unfold applyFlexBoxLayout_tab, styleContainer. simpl.
  by case_decide.
Qed.

(** [splitTabs] of tabs of no group, the first of them [a]: the new group
    is the last entry of [this._data] and the active one. *)
Lemma splitTabs_fresh st a ts :
  references_allocated st → groups_disjoint st → currentView_valid st →
  (∀ t, t ∈ a :: ts → ungrouped st t) →
  ∃ st1, splitTabs (a :: ts) st = Normal st1 ∧
    active_group st1 (length (_data st)) (length (heap st)) (a :: ts) ∧
    _data st1 = _data st ++ [length (heap st)] ∧
    heap st1 = heap st ++ [mkGroup (a :: ts) "flex"] ∧
    selectedTab st1 = Some a ∧
    members_active st1 (a :: ts) ∧
    (∀ m, m ∈ a :: ts → splitActive st1 m = bool_decide (m = a)) ∧
    (∀ m, m ∈ a :: ts →
       attr_split_anim (container (linkedBrowser (tabObject st1 m))) = true ∧
       click_handleTabClick (container (linkedBrowser (tabObject st1 m))) = true) ∧
    (∀ rc m, data_at st (currentView st) = Some rc → m ∈ tabs (deref st rc) →
       docShellActive st1 m = false ∧ splitActive st1 m = false) ∧
    (∀ x, x ∉ a :: ts →
       (∀ rc, data_at st (currentView st) = Some rc → x ∉ tabs (deref st rc)) →
       tabObject st1 x = tabObject st x).
Proof.
  intros Hal Hdis Hcv Hu.
  set (n := length (_data st)). set (h := length (heap st)).
  set (st2 := set_selectedTab (Some a)
                (set_data (_data st ++ [h])
                   (set_heap (heap st ++ [mkGroup (a :: ts) "flex"]) st))).
  assert (Hsplit : splitTabs (a :: ts) st = updateSplitView (Some a) st2).
  { unfold splitTabs.
    destruct (list_find _ (a :: ts)) as [[j e]|] eqn:Hfind; [|done].
    apply list_find_Some in Hfind as (Hj & _ & _).
    assert (He : find_group st (Some e) = None).
    { apply find_group_None. apply Hu. by eapply list_elem_of_lookup_2. }
    by rewrite He. }
  assert (Hold : ∀ r, r ∈ _data st → deref st2 r = deref st r).
  { intros r Hr. unfold deref, st2. simpl.
    rewrite !list_lookup_total_alt, lookup_app_l; [done|by apply Hal]. }
  assert (Hnew : deref st2 h = mkGroup (a :: ts) "flex").
  { unfold deref, st2. simpl. rewrite list_lookup_total_alt.
    by rewrite list_lookup_middle. }
  assert (Hn : _data st2 !! n = Some h).
  { unfold st2. simpl. by rewrite list_lookup_middle. }
  assert (Hf : find_group st2 (Some a) = Some (n, h)).
  { apply find_group_Some. split_and!; [done| |].
    - rewrite Hnew. simpl. apply list_elem_of_here.
    - intros j r' Hj Hlt. unfold st2 in Hj. simpl in Hj.
      rewrite lookup_app_l in Hj by done.
      assert (Hr' : r' ∈ _data st) by (by eapply list_elem_of_lookup_2).
      rewrite Hold by done. apply (Hu a); [apply list_elem_of_here|done]. }
  assert (Hcv2 : currentView_valid st2).
  { apply (currentView_valid_ext st); [done| |done].
    intros i r Hi. unfold st2. simpl. by apply lookup_app_l_Some. }
  assert (Hdis2 : groups_disjoint st2).
  { assert (Hcase : ∀ i r x, _data st2 !! i = Some r → x ∈ tabs (deref st2 r) →
              (_data st !! i = Some r ∧ x ∈ tabs (deref st r)) ∨
              (i = n ∧ x ∈ a :: ts)).
    { intros i r x Hi Hx. unfold st2 in Hi. simpl in Hi.
      apply lookup_app_Some in Hi as [Hi|[Hge Hi]].
      - left. split; [done|]. rewrite <- Hold; [done|].
        by eapply list_elem_of_lookup_2.
      - right. fold n in Hge, Hi.
        destruct (i - n)%nat as [|k] eqn:Hk; [|by destruct k].
        simpl in Hi. injection Hi as <-. rewrite Hnew in Hx.
        split; [lia|done]. }
    intros i j ri rj x Hi Hj Hxi Hxj.
    destruct (Hcase i ri x Hi Hxi) as [[Hi' Hxi']|[-> Hxi']];
      destruct (Hcase j rj x Hj Hxj) as [[Hj' Hxj']|[-> Hxj']].
    - by apply (Hdis i j ri rj x).
    - destruct (Hu x Hxj' ri); [by eapply list_elem_of_lookup_2|done].
    - destruct (Hu x Hxi' rj); [by eapply list_elem_of_lookup_2|done].
    - done. }
  assert (Hup : ∃ st0,
            updateSplitView (Some a) st2 = Normal (activateSplitView h a st0) ∧
            _data st0 = _data st2 ∧ heap st0 = heap st2 ∧
            selectedTab st0 = selectedTab st2 ∧
            ((currentView st = -1 ∧ st0 = st2) ∨
             ∃ rc, data_at st (currentView st) = Some rc ∧
                   data_at st2 (currentView st2) = Some rc ∧
                   deref st2 rc = deref st rc ∧
                   deactivateSplitView st2 = Normal st0)).
  { destruct Hcv as [Hnone|[rc Hrc]].
    - exists st2. split.
      + apply (updateSplitView_activate st2 a n h Hf). left.
        unfold st2. simpl. lia.
      + split_and!; try done. by left.
    - assert (Hin : rc ∈ _data st).
      { unfold data_at in Hrc. case_decide; [|done].
        by eapply list_elem_of_lookup_2. }
      assert (Hrc2 : data_at st2 (currentView st2) = Some rc).
      { unfold data_at in *. unfold st2. simpl. case_decide; [|done].
        by apply lookup_app_l_Some. }
      destruct (updateSplitView_switch st2 a n h rc Hf Hrc2) as (st1 & Hde & Hup).
      { rewrite Hold by done. apply (Hu a); [apply list_elem_of_here|done]. }
      exists st1. split; [done|].
      destruct (deactivateSplitView_eq st2 rc Hrc2) as [mm Hmm].
      pose proof Hde as Hde'. rewrite Hmm in Hde'. injection Hde' as <-.
      split_and!; try done. right. exists rc. split_and!; try done.
      by apply Hold. }
  destruct Hup as (st0 & Hup & Hd0 & Hh0 & Hsel0 & Hst0).
  rewrite Hsplit, Hup. exists (activateSplitView h a st0).
  assert (Hder0 : ∀ r, deref st0 r = deref st2 r).
  { intros r. unfold deref. by rewrite Hh0. }
  assert (Ht0 : tabs (deref st0 h) = a :: ts) by (by rewrite Hder0, Hnew).
  assert (Hf0 : find_group st0 (Some a) = Some (n, h)).
  { by rewrite (find_group_ext st2 st0). }
  split_and!.
  - done.
  - split_and!.
    + rewrite activateSplitView_currentView. by apply (find_group_indexOf st0 a).
    + by rewrite activateSplitView_data, Hd0.
    + by rewrite activateSplitView_deref.
    + apply (groups_disjoint_shrink st2); [done| |].
      * by rewrite activateSplitView_data.
      * intros r x. by rewrite activateSplitView_deref, Hder0.
  - by rewrite activateSplitView_data, Hd0.
  - by rewrite activateSplitView_heap, Hh0.
  - by rewrite activateSplitView_selectedTab, Hsel0.
  - split.
    + by destruct (activateSplitView_eq h a st0) as [mm ->].
    + intros m Hm. rewrite <- Ht0 in Hm. split.
      * by apply activateSplitView_members.
      * by apply activateSplitView_splitView.
  - intros m Hm. rewrite <- Ht0 in Hm.
    by apply activateSplitView_members.
  - intros m Hm. rewrite <- Ht0 in Hm.
    by apply activateSplitView_listening.
  - intros rc m Hrc Hm.
    destruct Hst0 as [[Hnone _]|(rc' & Hrc' & Hrc2 & Hderc & Hde)].
    { rewrite Hnone in Hrc. done. }
    rewrite Hrc in Hrc'. injection Hrc' as <-.
    assert (Hnot : m ∉ a :: ts).
    { intros Hin. apply (Hu m Hin rc); [|done].
      unfold data_at in Hrc. case_decide; [|done].
      by eapply list_elem_of_lookup_2. }
    unfold docShellActive, splitActive.
    rewrite activateSplitView_others by (by rewrite Ht0).
    apply (deactivateSplitView_members st2 rc st0 m Hrc2 Hde).
    by rewrite Hderc.
  - intros x Hx Hout.
    rewrite activateSplitView_others by (by rewrite Ht0).
    destruct Hst0 as [[_ ->]|(rc' & Hrc' & Hrc2 & Hderc & Hde)]; [done|].
    rewrite (deactivateSplitView_others st2 rc' st0 x Hrc2 Hde); [done|].
    rewrite Hderc. by apply Hout.
Qed.

End NewGroup.

(** ** Unsplitting a group of up to three tabs *)

Section Dissolve.

Implicit Types (st : State) (t m x a b : Tab) (l p s : list Tab) (idx g r : nat).

(** The round of the loop that takes the group below two members is its
    last one: the group is removed, everyone left in it is reset, and the
    loop finds nothing at the next position. *)
Lemma unsplit_loop_last_round idx g fuel p s t st :
  active_group st idx g (p ++ t :: s) → NoDup (p ++ t :: s) →
  (length (p ++ s) < 2)%nat →
  ∃ st', unsplit_loop (S fuel) g (length p) st = Some ([t], Normal st') ∧
    _data st' = delete idx (_data st) ∧ currentView st' = -1 ∧
    pref_working st' = false ∧
    attr_split_view (tabBrowserPanel st') = false ∧
    selectedTab st' = selectedTab st ∧
    groups_disjoint st' ∧
    (∀ r, r ≠ g → deref st' r = deref st r) ∧
    (∀ m, m ∈ p ++ t :: s →
       tabObject st' m = resetTabState_object true (tabObject st m)) ∧
    (∀ x, x ∉ p ++ t :: s → tabObject st' x = tabObject st x).
Proof.
  intros Hag Hnd Hlen. pose proof Hag as (_ & _ & Hl & _).
  destruct (handleTabClose_active_removes st idx g p s t true Hag Hnd Hlen)
    as (st' & Hclose & Hd & Hcv & Hpref & Hpanel & Hsel & Hdis & Ht' & Hder
        & Htab & Hmem & Hout).
  exists st'. cbn [unsplit_loop].
  rewrite Hl, list_lookup_middle by done. rewrite Hclose.
  rewrite unsplit_loop_end.
  2:{ rewrite Ht'. apply lookup_ge_None_2. rewrite length_app in *. lia. }
  simpl. split_and!; try done.
  intros m [Hm|[->|Hm]%elem_of_cons]%elem_of_app; [|done|].
  - apply Hmem. apply elem_of_app. by left.
  - apply Hmem. apply elem_of_app. by right.
Qed.

Lemma unsplit_loop_small idx g l st :
  active_group st idx g l → NoDup l → (1 ≤ length l ≤ 3)%nat →
  ∃ st', unsplit_loop (length l) g 0 st = Some (even_positions l, Normal st') ∧
    _data st' = delete idx (_data st) ∧ currentView st' = -1 ∧
    pref_working st' = false ∧
    attr_split_view (tabBrowserPanel st') = false ∧
    selectedTab st' = selectedTab st ∧
    groups_disjoint st' ∧
    (∀ r, r ≠ g → deref st' r = deref st r) ∧
    (∀ m, m ∈ l → plain_tab (tabObject st' m)) ∧
    (∀ x, x ∉ l → tabObject st' x = tabObject st x) ∧
    ((length l ≤ 2)%nat →
     ∀ m, m ∈ l → tabObject st' m = resetTabState_object true (tabObject st m)).
Proof.
  intros Hag Hnd Hlen.
  destruct l as [|a [|b [|c [|d l]]]]; simpl in Hlen; try lia.
  - destruct (unsplit_loop_last_round idx g 0 [] [] a st Hag Hnd)
      as (st' & Hloop & Hd & Hcv & Hpref & Hpanel & Hsel & Hdis & Hder & Hmem & Hout);
      [simpl; lia|].
    exists st'. split_and!; try done.
    intros m Hm. rewrite (Hmem m Hm). apply resetTabState_object_plain.
  - destruct (unsplit_loop_last_round idx g 1 [] [b] a st Hag Hnd)
      as (st' & Hloop & Hd & Hcv & Hpref & Hpanel & Hsel & Hdis & Hder & Hmem & Hout);
      [simpl; lia|].
    exists st'. split_and!; try done.
    intros m Hm. rewrite (Hmem m Hm). apply resetTabState_object_plain.
  - pose proof Hag as (_ & _ & Hl & _).
    destruct (handleTabClose_active_shrinks st idx g [] [b; c] a true Hag Hnd)
      as (st1 & Hclose & Hag1 & Hd1 & Hsel1 & Hpref1 & Hder1 & Ht1 & Hout1 & Hmem1);
      [simpl; lia|].
    assert (Hnd1 : NoDup ([b] ++ c :: [])) by (by apply NoDup_cons in Hnd as [_ ?]).
    destruct (unsplit_loop_last_round idx g 1 [b] [] c st1 Hag1 Hnd1)
      as (st' & Hloop & Hd & Hcv & Hpref & Hpanel & Hsel & Hdis & Hder & Hmem & Hout);
      [simpl; lia|].
    exists st'. cbn [unsplit_loop length]. rewrite Hl. cbn [lookup list_lookup].
    rewrite Hclose. simpl in Hloop. rewrite Hloop. simpl.
    assert (Hab : a ∉ [b; c]) by (by apply NoDup_cons in Hnd as [? _]).
    split_and!; try done; try congruence.
    + intros r Hr. by rewrite Hder, Hder1.
    + intros m [->|Hm]%elem_of_cons.
      * rewrite Hout by done. simpl in Ht1. rewrite Ht1.
        apply resetTabState_object_plain.
      * rewrite (Hmem m Hm). apply resetTabState_object_plain.
    + intros x Hx. rewrite Hout, Hout1; [done|done|].
      intros Hin. apply Hx. by apply list_elem_of_further.
    + lia.
Qed.

End Dissolve.

(** In a state where no tab belongs to two groups, [unsplitCurrentView()]
    dissolves an active group of one, two or three tabs, no tab twice.  The
    handler is invoked for the tabs at the even positions only,
    but the round that leaves fewer than two tabs removes the group, and
    [resetSplitView] resets whoever is still in it.  Afterwards the group is
    gone from [this._data], no group is active, the preference is off, every
    former member is a plain tab of no group, and the selected tab is what
    it was; tabs outside the group are untouched. *)
Theorem unsplitCurrentView_small_group (st : State) (idx g : nat) (l : list Tab) :
  groups_disjoint st →
  currentView st = Z.of_nat idx → _data st !! idx = Some g →
  tabs (deref st g) = l → NoDup l → (1 ≤ length l ≤ 3)%nat →
  ∃ st', unsplitCurrentView_run st = Some (even_positions l, Normal st') ∧
    _data st' = delete idx (_data st) ∧ currentView st' = -1 ∧
    pref_working st' = false ∧
    attr_split_view (tabBrowserPanel st') = false ∧
    selectedTab st' = selectedTab st ∧
    (∀ m, m ∈ l → plain_tab (tabObject st' m) ∧ ungrouped st' m) ∧
    (∀ x, x ∉ l → tabObject st' x = tabObject st x) ∧
    (∀ r, r ≠ g → deref st' r = deref st r).
Proof.
  intros Hdis Hcv Hidx Hl Hnd Hlen.
  assert (Hag : active_group st idx g l) by done.
  destruct (unsplit_loop_small idx g l st Hag Hnd Hlen)
    as (st' & Hloop & Hd & Hcv' & Hpref & Hpanel & Hsel & Hdis' & Hder & Hmem
        & Hout & _).
  unfold unsplitCurrentView_run.
  rewrite Hcv, data_at_of_nat, Hidx, Hl. rewrite Hloop. simpl.
  eexists. split; [reflexivity|]. simpl.
  split_and!; try done.
  intros m Hm. split; [by apply Hmem|].
  intros r Hr. simpl in Hr. rewrite Hd in Hr.
  apply elem_of_delete_lookup in Hr as (j & Hj & Hlook).
  rewrite <- Hl in Hm.
  destruct (disjoint_other_group st idx g m j r Hdis Hidx Hm Hlook Hj)
    as [Hne Hnot].
  change (m ∉ tabs (deref st' r)). rewrite Hder by done. by apply Hnot.
Qed.

Lemma unsplitCurrentView_small_group_witness :
  ∃ st', unsplitCurrentView_run split_ABC
         = Some (even_positions [0; 1; 2]%nat, Normal st') ∧
    _data st' = delete 0%nat (_data split_ABC) ∧ currentView st' = -1 ∧
    pref_working st' = false ∧
    attr_split_view (tabBrowserPanel st') = false ∧
    selectedTab st' = selectedTab split_ABC ∧
    (∀ m, m ∈ [0; 1; 2]%nat → plain_tab (tabObject st' m) ∧ ungrouped st' m) ∧
    (∀ x, x ∉ [0; 1; 2]%nat → tabObject st' x = tabObject split_ABC x) ∧
    (∀ r, r ≠ 0%nat → deref st' r = deref split_ABC r).
Proof.
  apply (unsplitCurrentView_small_group split_ABC 0%nat 0%nat [0; 1; 2]%nat).
  - by apply (groups_disjoint_one_group _ 0%nat).
  - reflexivity.
  - reflexivity.
  - reflexivity.
  - repeat (apply NoDup_cons; split; [intros H; elem_cases H; lia|]).
    apply NoDup_nil_2.
  - simpl. lia.
Defined.

(** The menu command [contextSplitTabs()].  On the selected tab itself it
    does nothing.  On another tab, both tabs being in no group, it returns
    with a new group of the context tab and the selected tab, in this order,
    as the last entry of [this._data] and as the current view: both tabs are
    flagged and docshell-active, the context tab is the one with
    [split-active] and has become the selected tab, and the members of the
    group that was active before are docshell-inactive. *)
Theorem contextSplitTabs_spec (st : State) (contextTab selected : Tab) :
  references_allocated st → groups_disjoint st → currentView_valid st →
  selectedTab st = Some selected →
  (contextTab = selected → contextSplitTabs contextTab st = Some (Normal st)) ∧
  (contextTab ≠ selected → ungrouped st contextTab → ungrouped st selected →
   ∃ st', contextSplitTabs contextTab st = Some (Normal st') ∧
     memberships st' = memberships st ++ [[contextTab; selected]] ∧
     currentView st' = Z.of_nat (length (_data st)) ∧
     selectedTab st' = Some contextTab ∧
     members_active st' [contextTab; selected] ∧
     splitActive st' contextTab = true ∧ splitActive st' selected = false ∧
     groups_disjoint st' ∧
     (∀ rc m, data_at st (currentView st) = Some rc → m ∈ tabs (deref st rc) →
        docShellActive st' m = false ∧ splitActive st' m = false)).
Proof.
  intros Hal Hdis Hcv Hsel. unfold contextSplitTabs. rewrite Hsel. split.
  - intros ->. by rewrite decide_True.
  - intros Hne Hu1 Hu2. rewrite decide_False by done.
    destruct (splitTabs_fresh st contextTab [selected] Hal Hdis Hcv)
      as (st1 & -> & Hag & Hd & Hh & Hsel1 & Hmem & Hact & _ & Hold & _).
    { intros t Ht. elem_cases Ht; done. }
    exists st1. split; [done|].
    destruct (memberships_push st st1 [contextTab; selected] Hal Hd Hh)
      as (Hm & _ & _).
    destruct Hag as (Hcv1 & _ & _ & Hdis1).
    split_and!; try done.
    + rewrite Hact by apply list_elem_of_here. by apply bool_decide_eq_true.
    + rewrite Hact by (apply list_elem_of_further, list_elem_of_here).
      apply bool_decide_eq_false. congruence.
Qed.

Lemma contextSplitTabs_spec_witness :
  ∃ st', contextSplitTabs 2%nat (set_selectedTab (Some 3%nat) split_AB)
         = Some (Normal st') ∧
     memberships st' =
       memberships (set_selectedTab (Some 3%nat) split_AB) ++ [[2; 3]]%nat ∧
     currentView st' =
       Z.of_nat (length (_data (set_selectedTab (Some 3%nat) split_AB))) ∧
     selectedTab st' = Some 2%nat ∧
     members_active st' [2; 3]%nat ∧
     splitActive st' 2%nat = true ∧ splitActive st' 3%nat = false ∧
     groups_disjoint st' ∧
     (∀ rc m, data_at (set_selectedTab (Some 3%nat) split_AB)
                (currentView (set_selectedTab (Some 3%nat) split_AB)) = Some rc →
        m ∈ tabs (deref (set_selectedTab (Some 3%nat) split_AB) rc) →
        docShellActive st' m = false ∧ splitActive st' m = false).
Proof.
  apply (contextSplitTabs_spec (set_selectedTab (Some 3%nat) split_AB)
           2%nat 3%nat).
  - intros r Hr. change (r ∈ [0%nat]) in Hr. elem_cases Hr. vm_compute. lia.
  - by apply (groups_disjoint_one_group _ 0%nat).
  - right. by eexists.
  - reflexivity.
  - lia.
  - intros r Hr. change (r ∈ [0%nat]) in Hr. elem_cases Hr.
    vm_compute. intros H. elem_cases H; lia.
  - intros r Hr. change (r ∈ [0%nat]) in Hr. elem_cases Hr.
    vm_compute. intros H. elem_cases H; lia.
Defined.

(** Split, then unsplit.  In a state where every entry of [this._data]
    refers to a group object, no tab belongs to two groups and [currentView]
    is none or an index, with the selected tab and the context tab distinct
    and in no group, [contextSplitTabs()] followed by
    [unsplitCurrentView()] returns
    with the groups as they were before the two commands, no group active
    and the preference off; both tabs are plain tabs again.  The way back is
    not complete: the context tab, not the tab selected at the start, is the
    selected tab; both tabs stay docshell-active, keep [split-anim] and the
    click listener, and the context tab keeps [split-active], none of which
    [resetTabState] takes back. *)
Theorem contextSplitTabs_unsplitCurrentView (st : State)
    (contextTab selected : Tab) :
  references_allocated st → groups_disjoint st → currentView_valid st →
  selectedTab st = Some selected → contextTab ≠ selected →
  ungrouped st contextTab → ungrouped st selected →
  ∃ st1 st2,
    contextSplitTabs contextTab st = Some (Normal st1) ∧
    unsplitCurrentView st1 = Some (Normal st2) ∧
    _data st2 = _data st ∧ memberships st2 = memberships st ∧
    currentView st2 = -1 ∧ pref_working st2 = false ∧
    selectedTab st2 = Some contextTab ∧
    (∀ m, m ∈ [contextTab; selected] →
       plain_tab (tabObject st2 m) ∧ docShellActive st2 m = true ∧
       attr_split_anim (container (linkedBrowser (tabObject st2 m))) = true ∧
       click_handleTabClick (container (linkedBrowser (tabObject st2 m))) = true) ∧
    splitActive st2 contextTab = true ∧
    (∀ x, x ∉ [contextTab; selected] → tabObject st2 x = tabObject st1 x).
Proof.
  intros Hal Hdis Hcv Hsel Hne Hu1 Hu2.
  unfold contextSplitTabs. rewrite Hsel, decide_False by done.
  destruct (splitTabs_fresh st contextTab [selected] Hal Hdis Hcv)
    as (st1 & -> & Hag & Hd & Hh & Hsel1 & Hmem & Hact & Hlis & _ & _).
  { intros t Ht. elem_cases Ht; done. }
  assert (Hnd : NoDup [contextTab; selected]).
  { apply NoDup_cons. split; [intros H; elem_cases H; done|].
    apply NoDup_cons. split; [intros H; by apply elem_of_nil in H|].
    apply NoDup_nil_2. }
  destruct (unsplit_loop_small _ _ _ st1 Hag Hnd)
    as (st2 & Hloop & Hd2 & Hcv2 & Hpref2 & Hpanel2 & Hsel2 & Hdis2 & Hder2
        & Hplain & Hout & Hexact); [simpl; lia|].
  specialize (Hexact ltac:(simpl; lia)).
  pose proof Hag as (Hcv1 & Hidx1 & Hl1 & _).
  exists st1. eexists. split; [done|].
  unfold unsplitCurrentView, unsplitCurrentView_run.
  rewrite Hcv1, data_at_of_nat, Hidx1, Hl1. rewrite Hloop. simpl.
  split; [reflexivity|]. simpl.
  assert (Hdata : _data st2 = _data st).
  { rewrite Hd2, Hd. replace (_data st ++ [length (heap st)])
      with (_data st ++ length (heap st) :: []) by done.
    by rewrite delete_middle, app_nil_r. }
  split_and!; try done.
  - unfold memberships. simpl. rewrite Hdata.
    apply map_ext_in. intros r Hr%list_elem_of_In.
    specialize (Hal r Hr).
    change (tabs (deref st2 r) = tabs (deref st r)).
    rewrite Hder2 by lia. unfold deref. rewrite Hh.
    by rewrite !list_lookup_total_alt, lookup_app_l.
  - intros m Hm. destruct Hmem as [_ Hmem].
    destruct (Hmem m Hm) as [Hds _]. destruct (Hlis m Hm) as [Han Hcl].
    split; [by apply Hplain|].
    unfold docShellActive in *.
    change (tabObject (set_selectedTab (selectedTab st1) st2) m)
      with (tabObject st2 m).
    rewrite (Hexact m Hm), resetTabState_object_unsplit. simpl. done.
  - unfold splitActive.
    change (tabObject (set_selectedTab (selectedTab st1) st2) contextTab)
      with (tabObject st2 contextTab).
    rewrite (Hexact contextTab) by apply list_elem_of_here.
    rewrite resetTabState_object_unsplit. simpl.
    specialize (Hact contextTab (list_elem_of_here _ _)).
    unfold splitActive in Hact. rewrite Hact. by apply bool_decide_eq_true.
Qed.

Lemma contextSplitTabs_unsplitCurrentView_witness :
  ∃ st1 st2,
    contextSplitTabs 2%nat (set_selectedTab (Some 3%nat) split_AB)
      = Some (Normal st1) ∧
    unsplitCurrentView st1 = Some (Normal st2) ∧
    _data st2 = _data (set_selectedTab (Some 3%nat) split_AB) ∧
    memberships st2 = memberships (set_selectedTab (Some 3%nat) split_AB) ∧
    currentView st2 = -1 ∧ pref_working st2 = false ∧
    selectedTab st2 = Some 2%nat ∧
    (∀ m, m ∈ [2; 3]%nat →
       plain_tab (tabObject st2 m) ∧ docShellActive st2 m = true ∧
       attr_split_anim (container (linkedBrowser (tabObject st2 m))) = true ∧
       click_handleTabClick (container (linkedBrowser (tabObject st2 m))) = true) ∧
    splitActive st2 2%nat = true ∧
    (∀ x, x ∉ [2; 3]%nat → tabObject st2 x = tabObject st1 x).
Proof.
  apply (contextSplitTabs_unsplitCurrentView
           (set_selectedTab (Some 3%nat) split_AB) 2%nat 3%nat).
  - intros r Hr. change (r ∈ [0%nat]) in Hr. elem_cases Hr. vm_compute. lia.
  - by apply (groups_disjoint_one_group _ 0%nat).
  - right. by eexists.
  - reflexivity.
  - lia.
  - intros r Hr. change (r ∈ [0%nat]) in Hr. elem_cases Hr.
    vm_compute. intros H. elem_cases H; lia.
  - intros r Hr. change (r ∈ [0%nat]) in Hr. elem_cases Hr.
    vm_compute. intros H. elem_cases H; lia.
Defined.

(** ** Switching between groups *)

Section Switching.

Implicit Types (st : State) (o : TabObject) (t m x : Tab) (r g h i : nat).

(** What [deactivateSplitView] leaves of a member: no style attribute, no
    [split] attribute, no click listener; the [splitView] flag is not
    touched. *)
Lemma deactivateSplitView_member_reset st r st1 m :
  data_at st (currentView st) = Some r →
  deactivateSplitView st = Normal st1 →
  m ∈ tabs (deref st r) →
  styleOf st1 m = None ∧
  attr_split (container (linkedBrowser (tabObject st1 m))) = false ∧
  click_handleTabClick (container (linkedBrowser (tabObject st1 m))) = false ∧
  splitView (tabObject st1 m) = splitView (tabObject st m).
Proof.
  intros Hr Hd Hm. unfold deactivateSplitView in Hd. rewrite Hr in Hd.
  injection Hd as <-.
  rewrite setTabsDocShellState_eq.
  rewrite (foldl_update_tab (λ _, with_container _)).
  unfold styleOf, tabObject. simpl. split_and!.
  - by apply (foldl_insert_in (λ _, setTabsDocShellState_object false)
                (λ o, attr_style (container (linkedBrowser o)) = None)).
  - by apply (foldl_insert_in (λ _, setTabsDocShellState_object false)
                (λ o, attr_split (container (linkedBrowser o)) = false)).
  - apply (foldl_insert_preserved (λ _, setTabsDocShellState_object false)
             (λ o, click_handleTabClick (container (linkedBrowser o)) = false)).
    + intros o Ho. destruct o as [? [? ? []]]. exact Ho.
    + by apply (foldl_insert_in (λ _, with_container _)
                  (λ o, click_handleTabClick (container (linkedBrowser o)) = false)).
  - apply (foldl_insert_preserved (λ _, setTabsDocShellState_object false)
             (λ o, splitView o = splitView (tabObjects st !!! m))).
    + intros o Ho. exact Ho.
    + apply (foldl_insert_preserved (λ _, with_container _)
               (λ o, splitView o = splitView (tabObjects st !!! m))).
      * intros o Ho. exact Ho.
      * done.
Qed.

End Switching.

(** [onLocationChange] never changes the groups or the selected tab,
    whichever tab the browser belongs to and however the call ends; for a
    browser of no tab it changes nothing at all. *)
Theorem onLocationChange_keeps_groups (tab : option Tab) (st : State) :
  _data (state_of (onLocationChange tab st)) = _data st ∧
  heap (state_of (onLocationChange tab st)) = heap st ∧
  memberships (state_of (onLocationChange tab st)) = memberships st ∧
  selectedTab (state_of (onLocationChange tab st)) = selectedTab st ∧
  (tab = None → onLocationChange tab st = Normal st).
Proof.
  assert (H : _data (state_of (onLocationChange tab st)) = _data st ∧
              heap (state_of (onLocationChange tab st)) = heap st ∧
              selectedTab (state_of (onLocationChange tab st)) = selectedTab st).
  { destruct tab as [t|]; [|done]. apply updateSplitView_frame. }
  destruct H as (Hd & Hh & Hsel). split_and!; try done.
  - unfold memberships, deref. by rewrite Hd, Hh.
  - by intros ->.
Qed.

(** A location change in a tab of a group other than the active one
    switches the view.  With no tab in two groups, the call returns with the
    tab's group as the current view and the preference on.  The members of
    the group that was active are docshell-inactive and have lost
    [split-active], [split], the click listener and their whole style
    attribute, but keep the [splitView] flag.  The members of the tab's
    group are flagged and docshell-active, with [split-active] on the tab
    only.  Tabs of neither group are untouched. *)
Theorem onLocationChange_switches (st : State) (t : Tab) (active i h : nat) :
  groups_disjoint st →
  data_at st (currentView st) = Some active →
  find_group st (Some t) = Some (i, h) →
  currentView st ≠ Z.of_nat i →
  ∃ st', onLocationChange (Some t) st = Normal st' ∧
    currentView st' = Z.of_nat i ∧ pref_working st' = true ∧
    (∀ m, m ∈ tabs (deref st active) →
       docShellActive st' m = false ∧ splitActive st' m = false ∧
       styleOf st' m = None ∧
       attr_split (container (linkedBrowser (tabObject st' m))) = false ∧
       click_handleTabClick (container (linkedBrowser (tabObject st' m))) = false ∧
       splitView (tabObject st' m) = splitView (tabObject st m)) ∧
    (∀ m, m ∈ tabs (deref st h) →
       docShellActive st' m = true ∧ splitView (tabObject st' m) = true ∧
       (splitActive st' m = true ↔ m = t)) ∧
    (∀ x, x ∉ tabs (deref st active) → x ∉ tabs (deref st h) →
       tabObject st' x = tabObject st x).
Proof.
  intros Hdis Hact Hf Hne. pose proof Hf as (Hi & Ht & _)%find_group_Some.
  assert (Hcv : 0 ≤ currentView st) by (unfold data_at in Hact; by case_decide).
  assert (Hj : _data st !! Z.to_nat (currentView st) = Some active).
  { unfold data_at in Hact. by rewrite decide_True in Hact. }
  destruct (disjoint_other_group st i h t (Z.to_nat (currentView st)) active)
    as [Hrne Hdisj]; [done..|lia|].
  destruct (updateSplitView_switch st t i h active Hf Hact) as (st1 & Hde & Hup).
  { by apply Hdisj. }
  destruct (deactivateSplitView_eq st active Hact) as [mm Hmm].
  assert (Hd1 : _data st1 = _data st ∧ heap st1 = heap st).
  { rewrite Hmm in Hde. by injection Hde as <-. }
  destruct Hd1 as [Hd1 Hh1].
  assert (Hderef : ∀ r, deref st1 r = deref st r).
  { intros r. unfold deref. by rewrite Hh1. }
  exists (activateSplitView h t st1). unfold onLocationChange.
  split_and!.
  - done.
  - rewrite activateSplitView_currentView, Hd1.
    by apply (find_group_indexOf st t).
  - by destruct (activateSplitView_eq h t st1) as [m' ->].
  - intros m Hm.
    assert (Hm1 : m ∉ tabs (deref st1 h)).
    { rewrite Hderef. intros Hin. by apply (Hdisj m Hin). }
    unfold docShellActive, splitActive, styleOf.
    rewrite activateSplitView_others by done.
    destruct (deactivateSplitView_members st active st1 m Hact Hde Hm) as [? ?].
    destruct (deactivateSplitView_member_reset st active st1 m Hact Hde Hm)
      as (? & ? & ? & ?).
    split_and!; done.
  - intros m Hm. rewrite <- Hderef in Hm.
    destruct (activateSplitView_members h t st1 m Hm) as [-> ->].
    split_and!; [done|by apply activateSplitView_splitView|].
    apply bool_decide_eq_true.
  - intros x Hx1 Hx2.
    rewrite activateSplitView_others by (by rewrite Hderef).
    by apply (deactivateSplitView_others st active st1 x Hact Hde).
Qed.

Lemma onLocationChange_switches_witness :
  ∃ st', onLocationChange (Some 3%nat) split_CDE_AB = Normal st' ∧
    currentView st' = Z.of_nat 0 ∧ pref_working st' = true ∧
    (∀ m, m ∈ tabs (deref split_CDE_AB 1%nat) →
       docShellActive st' m = false ∧ splitActive st' m = false ∧
       styleOf st' m = None ∧
       attr_split (container (linkedBrowser (tabObject st' m))) = false ∧
       click_handleTabClick (container (linkedBrowser (tabObject st' m))) = false ∧
       splitView (tabObject st' m) = splitView (tabObject split_CDE_AB m)) ∧
    (∀ m, m ∈ tabs (deref split_CDE_AB 0%nat) →
       docShellActive st' m = true ∧ splitView (tabObject st' m) = true ∧
       (splitActive st' m = true ↔ m = 3%nat)) ∧
    (∀ x, x ∉ tabs (deref split_CDE_AB 1%nat) →
          x ∉ tabs (deref split_CDE_AB 0%nat) →
       tabObject st' x = tabObject split_CDE_AB x).
Proof.
  apply (onLocationChange_switches split_CDE_AB 3%nat 1%nat 0%nat 0%nat).
  - apply groups_disjoint_split_CDE_AB.
  - reflexivity.
  - reflexivity.
  - vm_compute. discriminate.
Defined.

(** ** Odd arguments *)

(** [splitTabs] of an empty array does not throw from a sound
    [currentView]: it pushes a group without tabs, sets the selected tab to
    [tabs[0]], which is undefined, and, since no group holds an undefined
    tab, deactivates the active group if there is one and activates
    nothing.  With no group active the tab objects and the preference stay
    as they were. *)
Theorem splitTabs_empty (st : State) :
  currentView_valid st →
  ∃ st', splitTabs [] st = Normal st' ∧
    _data st' = _data st ++ [length (heap st)] ∧
    heap st' = heap st ++ [mkGroup [] "flex"] ∧
    selectedTab st' = None ∧ currentView st' = -1 ∧
    (currentView st = -1 →
     pref_working st' = pref_working st ∧ tabObjects st' = tabObjects st) ∧
    (currentView st ≠ -1 → pref_working st' = false).
Proof.
  intros Hcv. unfold splitTabs. simpl.
  set (st2 := set_selectedTab None _).
  unfold updateSplitView. simpl.
  destruct Hcv as [Hnone|[rc Hrc]].
  - change (currentView st2) with (currentView st).
    rewrite decide_False by lia. exists st2. split_and!; done.
  - change (currentView st2) with (currentView st).
    assert (0 ≤ currentView st) by (unfold data_at in Hrc; by case_decide).
    rewrite decide_True by done.
    assert (Hrc2 : data_at st2 (currentView st2) = Some rc).
    { unfold data_at in *. unfold st2. simpl. case_decide; [|done].
      by apply lookup_app_l_Some. }
    destruct (deactivateSplitView_eq st2 rc Hrc2) as [mm ->].
    eexists. split; [reflexivity|]. simpl. split_and!; try done.
    intros. lia.
Qed.

Lemma splitTabs_empty_witness :
  ∃ st', splitTabs [] split_AB = Normal st' ∧
    _data st' = _data split_AB ++ [length (heap split_AB)] ∧
    heap st' = heap split_AB ++ [mkGroup [] "flex"] ∧
    selectedTab st' = None ∧ currentView st' = -1 ∧
    (currentView split_AB = -1 →
     pref_working st' = pref_working split_AB ∧
     tabObjects st' = tabObjects split_AB) ∧
    (currentView split_AB ≠ -1 → pref_working st' = false).
Proof.
  apply (splitTabs_empty split_AB). right. by eexists.
Defined.

(** [removeTabFromGroup] for a tab that is not in the group at the index
    given: [indexOf] answers -1 and [splice(-1, 1)] takes out the last tab
    of the group instead.  The group is left with all its tabs but the last
    one, the other group objects are untouched, and the group is removed
    from [this._data] when fewer than two tabs are left, however the call
    ends. *)
Theorem removeTabFromGroup_not_member (st : State) (t : Tab) (i g : nat)
    (l : list Tab) (z : Tab) (forUnsplit : bool) :
  _data st !! i = Some g → tabs (deref st g) = l ++ [z] → t ∉ l ++ [z] →
  tabs (deref (state_of (removeTabFromGroup t i forUnsplit st)) g) = l ∧
  (∀ r, r ≠ g →
     deref (state_of (removeTabFromGroup t i forUnsplit st)) r = deref st r) ∧
  _data (state_of (removeTabFromGroup t i forUnsplit st)) =
    (if decide (length l < 2)%nat then delete i (_data st) else _data st).
Proof.
  intros Hi Hl Hnot.
  assert (Halloc : (g < length (heap st))%nat).
  { apply (member_allocated st g z). rewrite Hl.
    apply elem_of_app. right. apply list_elem_of_here. }
  assert (Hsplice : splice1 (indexOf t (l ++ [z])) (l ++ [z]) = l).
  { rewrite indexOf_None by done. unfold splice1.
    rewrite decide_True by lia. rewrite length_app. simpl.
    replace (Z.to_nat (Z.max (Z.of_nat (length l + 1) + -1) 0)) with (length l)
      by lia.
    by rewrite delete_middle, app_nil_r. }
  unfold removeTabFromGroup. rewrite Hi, Hl, Hsplice.
  fold (spliced t forUnsplit g l st).
  set (st2 := spliced t forUnsplit g l st).
  assert (Hh : heap (state_of
              (if decide (length l < 2)%nat then removeGroup i st2
               else updateSplitView (last l) st2)) = heap st2 ∧
           _data (state_of
              (if decide (length l < 2)%nat then removeGroup i st2
               else updateSplitView (last l) st2)) =
           (if decide (length l < 2)%nat
            then delete i (_data st) else _data st)).
  { case_decide.
    - destruct (removeGroup_eq st2 i g Hi) as (st' & -> & Hd & Hh & _).
      simpl. by rewrite Hh, Hd.
    - destruct (updateSplitView_frame (last l) st2) as (-> & -> & _). done. }
  destruct Hh as [Hh Hd]. split_and!; [| |done].
  - unfold deref at 1. rewrite Hh.
    change (tabs (deref st2 g) = l). unfold st2. by apply spliced_deref_eq.
  - intros r Hr. unfold deref at 1. rewrite Hh.
    change (deref st2 r = deref st r). unfold st2. by apply spliced_deref_ne.
Qed.

Lemma removeTabFromGroup_not_member_witness :
  tabs (deref (state_of (removeTabFromGroup 5%nat 0%nat false split_ABC)) 0%nat)
    = [0; 1]%nat ∧
  (∀ r, r ≠ 0%nat →
     deref (state_of (removeTabFromGroup 5%nat 0%nat false split_ABC)) r
     = deref split_ABC r) ∧
  _data (state_of (removeTabFromGroup 5%nat 0%nat false split_ABC)) =
    (if decide (length [0; 1]%nat < 2)%nat
     then delete 0%nat (_data split_ABC) else _data split_ABC).
Proof.
  apply (removeTabFromGroup_not_member split_ABC 5%nat 0%nat 0%nat
           [0; 1]%nat 2%nat false).
  - reflexivity.
  - reflexivity.
  - intros H. simpl in H. elem_cases H; lia.
Defined.

(** ** A [currentView] that is no index any more *)

(** Once [currentView] is a number that is not an index of [this._data]
    (as after a group before the active one has been removed), the manager
    is stuck: [updateSplitView] and [onLocationChange] throw for every tab,
    in a group or not, and so do [deactivateSplitView], [resetSplitView] and
    [unsplitCurrentView], each leaving the state as it is.  [handleTabClose]
    of a tab whose group has three tabs or more throws as well, but only
    after the tab has been taken out of the group and reset: the group is
    one tab shorter and is not laid out again. *)
Theorem stale_currentView_throws (st : State) :
  0 ≤ currentView st → data_at st (currentView st) = None →
  (∀ tab, updateSplitView tab st = Throw st) ∧
  (∀ t, onLocationChange (Some t) st = Throw st) ∧
  deactivateSplitView st = Throw st ∧
  resetSplitView st = Throw st ∧
  unsplitCurrentView st = Some (Throw st) ∧
  (∀ t forUnsplit i g,
     find_group st (Some t) = Some (i, g) →
     (3 ≤ length (tabs (deref st g)))%nat →
     ∃ st', handleTabClose t forUnsplit st = Throw st' ∧
       S (length (tabs (deref st' g))) = length (tabs (deref st g)) ∧
       tabObject st' t = resetTabState_object forUnsplit (tabObject st t) ∧
       (∀ x, x ≠ t → tabObject st' x = tabObject st x) ∧
       _data st' = _data st ∧ currentView st' = currentView st).
Proof.
  intros Hcv Hnone.
  assert (Hde : deactivateSplitView st = Throw st)
    by (by apply deactivateSplitView_throw).
  assert (Hup : ∀ tab, updateSplitView tab st = Throw st).
  { intros tab. unfold updateSplitView.
    destruct tab as [t|]; [|by rewrite decide_True].
    destruct (find_group st (Some t)) as [[k g]|]; [|by rewrite decide_True].
    by rewrite decide_True, Hnone. }
  split_and!; [done|intros t; apply Hup|done| | |].
  - unfold resetSplitView. by rewrite Hnone.
  - unfold unsplitCurrentView, unsplitCurrentView_run. by rewrite Hnone.
  - intros t forUnsplit i g Hf Hlen.
    pose proof Hf as (Hi & Ht & _)%find_group_Some.
    pose proof (member_allocated st g t Ht) as Halloc.
    destruct (handleTabClose_unfold st t forUnsplit i g Hf)
      as (p & s & Hl & Hnot & ->).
    rewrite Hl in Hlen.
    destruct (shrunk_three p s t Hlen) as (Hge & a & Hlast & Ha).
    rewrite decide_False by done.
    set (st2 := spliced t forUnsplit g (p ++ s) st).
    assert (Hup2 : updateSplitView (last (p ++ s)) st2 = Throw st2).
    { unfold updateSplitView.
      change (currentView st2) with (currentView st).
      change (data_at st2 (currentView st)) with (data_at st (currentView st)).
      rewrite Hlast.
      destruct (find_group st2 (Some a)) as [[k g']|].
      - by rewrite decide_True, Hnone.
      - rewrite decide_True by done. unfold deactivateSplitView.
        change (data_at st2 (currentView st2))
          with (data_at st (currentView st)).
        by rewrite Hnone. }
    exists st2. rewrite Hup2. split_and!; try done.
    + unfold st2. rewrite spliced_deref_eq by done.
      rewrite Hl, !length_app. simpl. lia.
    + unfold st2. by rewrite spliced_tabObject, decide_True.
    + intros x Hx. unfold st2. by rewrite spliced_tabObject, decide_False.
Qed.

Lemma stale_currentView_throws_witness :
  (∀ tab, updateSplitView tab (state_of (handleTabClose 0%nat false split_AB_CD))
          = Throw (state_of (handleTabClose 0%nat false split_AB_CD))) ∧
  unsplitCurrentView (state_of (handleTabClose 0%nat false split_AB_CD))
    = Some (Throw (state_of (handleTabClose 0%nat false split_AB_CD))).
Proof.
  destruct (stale_currentView_throws
              (state_of (handleTabClose 0%nat false split_AB_CD)))
    as (Hup & _ & _ & _ & Hun & _).
  - vm_compute. discriminate.
  - reflexivity.
  - split; [exact Hup|exact Hun].
Defined.
